(** * ShoppingService: tabular import, schema inference and table queries

    A shallow embedding of [ShoppingService] (shopping.service.ts): the
    table-name validator, the column-name normaliser, the type inference of
    columns, the value sanitiser, the batch loader, the paginated read and
    the row mutations, with the properties of the specification stated and
    proved over that embedding.

    Modelling conventions.
    - A JavaScript string is a [string]: one [ascii] per code unit, so the
      model covers the code units below 256 (Latin-1).
    - A JavaScript number is a [number]: NaN, the two infinities, or the
      exact decimal [m / 10^e].  Every IEEE double is such a decimal; the
      rounding that [parseFloat] performs on a literal of more than 17
      significant digits is not modelled.
    - A JavaScript object used as a record is an association list in
      insertion order without duplicate keys; [Obj.entries] enumerates the
      canonical array indices first, in ascending order, as the engine does.
      Keys that name a property inherited from [Object.prototype]
      ([constructor], [__proto__], ...) are outside the model.
    - An [async] method that can throw returns a [Result].
    - The relational engine and the query runner are external: their answers
      enter as functions of the statement (oracles), or as the usual
      semantics of [SELECT]/[UPDATE]/[INSERT] over a list of rows. *)

From Stdlib Require Import String Ascii List ZArith NArith Lia Bool Arith.
From Stdlib Require Import Permutation Sorted DecimalString Decimal.
From Equations Require Import Equations.
Import ListNotations.

Local Open Scope string_scope.
Local Open Scope list_scope.

(* ------------------------------------------------------------------ *)
(** ** Characters and strings *)
(* ------------------------------------------------------------------ *)

Module Js.

Definition code (c : ascii) : N := N_of_ascii c.

Definition between (lo hi : N) (c : ascii) : bool :=
  ((lo <=? code c) && (code c <=? hi))%N.

(** [[a-z]], [[A-Z]], [[0-9]] ([\d]) *)
Definition is_lower (c : ascii) : bool := between 97 122 c.
Definition is_upper (c : ascii) : bool := between 65 90 c.
Definition is_digit (c : ascii) : bool := between 48 57 c.

(** [[a-zA-Z]] *)
Definition is_alpha (c : ascii) : bool := is_lower c || is_upper c.

(** [[a-zA-Z0-9_]] *)
Definition is_word (c : ascii) : bool :=
  is_alpha c || is_digit c || (code c =? 95)%N.

(** [\s] restricted to the code units below 256: TAB, LF, VT, FF, CR,
    SPACE and NBSP. *)
Definition is_space (c : ascii) : bool :=
  between 9 13 c || (code c =? 32)%N || (code c =? 160)%N.

(** [[\d.-]] *)
Definition is_num_char (c : ascii) : bool :=
  is_digit c || (code c =? 46)%N || (code c =? 45)%N.

(** [[0-9\.,\-\s]] *)
Definition is_numeric_text_char (c : ascii) : bool :=
  is_digit c || (code c =? 46)%N || (code c =? 44)%N || (code c =? 45)%N
  || is_space c.

(** Upper-case letters of Latin-1 other than [A-Z]: U+00C0..U+00DE
    without the multiplication sign U+00D7. *)
Definition is_latin1_upper (c : ascii) : bool :=
  between 192 222 c && negb (code c =? 215)%N.

Definition char_toLowerCase (c : ascii) : ascii :=
  if is_upper c || is_latin1_upper c then ascii_of_N (code c + 32) else c.

(** [s.toLowerCase()] *)
Fixpoint toLowerCase (s : string) : string :=
  match s with
  | EmptyString => EmptyString
  | String c r => String (char_toLowerCase c) (toLowerCase r)
  end.

(** [re.test(s)] for a regular expression that is one character class:
    some character of [s] is in the class. *)
Fixpoint test_class (p : ascii -> bool) (s : string) : bool :=
  match s with
  | EmptyString => false
  | String c r => p c || test_class p r
  end.

(** Every character of [s] is in the class. *)
Fixpoint all_class (p : ascii -> bool) (s : string) : bool :=
  match s with
  | EmptyString => true
  | String c r => p c && all_class p r
  end.

(** [s.replace(/[class]/g, r)] with a one-character replacement. *)
Fixpoint replace_class (p : ascii -> bool) (r : ascii) (s : string) : string :=
  match s with
  | EmptyString => EmptyString
  | String c t => String (if p c then r else c) (replace_class p r t)
  end.

(** [s.replace(/[class]/g, '')] *)
Fixpoint remove_class (p : ascii -> bool) (s : string) : string :=
  match s with
  | EmptyString => EmptyString
  | String c t => if p c then remove_class p t else String c (remove_class p t)
  end.

(** [s.includes(c)] for a one-character needle. *)
Definition includes_char (c : ascii) (s : string) : bool :=
  test_class (Ascii.eqb c) s.

(** [arr.includes(x)] on an array of strings. *)
Definition includes (l : list string) (x : string) : bool :=
  existsb (String.eqb x) l.

(** [arr.join(sep)] *)
Fixpoint join (sep : string) (l : list string) : string :=
  match l with
  | [] => EmptyString
  | [x] => x
  | x :: r => x ++ sep ++ join sep r
  end.

(** The decimal rendering of a non-negative integer, as in a template
    literal. *)
Definition nat_to_string (n : nat) : string :=
  NilZero.string_of_uint (Nat.to_uint n).

End Js.

(* ------------------------------------------------------------------ *)
(** ** Exceptions *)
(* ------------------------------------------------------------------ *)

(** The three HTTP exceptions the service throws, and the errors of the
    driver that it lets through.  The messages are written without
    accents. *)
Inductive Exception : Type :=
| BadRequestException (message : string)
| NotFoundException (message : string)
| InternalServerErrorException (message : string)
| DriverError (message : string).

Inductive Result (A : Type) : Type :=
| Ok (a : A)
| Throw (e : Exception).
Arguments Ok {A} a.
Arguments Throw {A} e.

Definition bind {A B : Type} (r : Result A) (k : A -> Result B) : Result B :=
  match r with
  | Ok a => k a
  | Throw e => Throw e
  end.

Notation "x <- c ;; k" := (bind c (fun x => k))
  (at level 61, c at next level, right associativity).

Definition is_validation_error {A : Type} (r : Result A) : bool :=
  match r with
  | Throw (BadRequestException _) => true
  | _ => false
  end.

(* ------------------------------------------------------------------ *)
(** ** validarNombreTabla *)
(* ------------------------------------------------------------------ *)

(** [/^[a-z][a-z0-9_]*$/.test(nombreTabla)] *)
Definition validRegex (nombreTabla : string) : bool :=
  match nombreTabla with
  | EmptyString => false
  | String c r =>
      Js.is_lower c
      && Js.all_class (fun d => Js.is_lower d || Js.is_digit d
                                || (Js.code d =? 95)%N) r
  end.

Definition palabrasReservadas : list string :=
  [ "select"; "from"; "where"; "insert"; "update"; "delete"; "drop";
    "create"; "table"; "index"; "view"; "sequence"; "trigger"; "user";
    "group"; "order"; "by"; "having"; "limit"; "offset"; "join" ].

Definition validarNombreTabla (nombreTabla : string) : Result unit :=
  if negb (validRegex nombreTabla) then
    Throw (BadRequestException
      "El nombre de la tabla debe comenzar con una letra y solo puede contener letras minusculas, numeros y guiones bajos")
  else if Js.includes palabrasReservadas (Js.toLowerCase nombreTabla) then
    Throw (BadRequestException
      ("El nombre " ++ nombreTabla ++ " es una palabra reservada en SQL y no puede usarse como nombre de tabla"))
  else Ok tt.

(** [handleExceptions]: the two client errors are thrown again, any other
    error becomes an internal one. *)
Definition handleExceptions {A : Type} (r : Result A) : Result A :=
  match r with
  | Ok a => Ok a
  | Throw (BadRequestException m) => Throw (BadRequestException m)
  | Throw (NotFoundException m) => Throw (NotFoundException m)
  | Throw _ =>
      Throw (InternalServerErrorException
               "Error inesperado, revisa los logs del servidor")
  end.

(** [create]: the name is validated before anything else; [importar] is
    the rest of the method (the analysis of the file, the creation of the
    table and the load). *)
Definition create {A : Type} (nombreTabla : string) (importar : Result A)
  : Result A :=
  handleExceptions (_ <- validarNombreTabla nombreTabla ;; importar).

(* ------------------------------------------------------------------ *)
(** ** Numbers *)
(* ------------------------------------------------------------------ *)

(** A JavaScript number: [Finite m e] is the decimal [m / 10^e]. *)
Inductive number : Type :=
| NaN
| Infinity (negative : bool)
| Finite (m : Z) (e : nat).

Module Num.

Definition pow10 (e : nat) : Z := 10 ^ Z.of_nat e.

(** [isNaN(n)] *)
Definition isNaN (n : number) : bool :=
  match n with NaN => true | _ => false end.

(** [Math.floor(v) !== v]: the value is not an integer.  [NaN] differs
    from itself; an infinity is its own floor. *)
Definition floor_differs (n : number) : bool :=
  match n with
  | NaN => true
  | Infinity _ => false
  | Finite m e => negb (m mod pow10 e =? 0)%Z
  end.

(** [Math.round(n)]: the nearest integer, a tie going up. *)
Definition Math_round (n : number) : number :=
  match n with
  | Finite m e => Finite ((2 * m + pow10 e) / (2 * pow10 e)) 0
  | _ => n
  end.

(** [n !== 0] *)
Definition differs_from_zero (n : number) : bool :=
  match n with
  | Finite m _ => negb (m =? 0)%Z
  | _ => true
  end.

(** [Math.ceil(a / b)] for two integers. *)
Definition ceil_div (a b : Z) : number :=
  if (b =? 0)%Z then
    if (a =? 0)%Z then NaN else Infinity (a <? 0)%Z
  else Finite (- ((- a) / b)) 0.

(** *** Reading a decimal literal *)

Definition digit_value (c : ascii) : Z := Z.of_N (Js.code c) - 48.

(** The longest prefix of digits, as (value, number of digits), and the
    rest of the string. *)
Fixpoint take_digits (acc : Z) (count : nat) (s : string) : Z * nat * string :=
  match s with
  | String c r =>
      if Js.is_digit c
      then take_digits (10 * acc + digit_value c) (S count) r
      else (acc, count, s)
  | EmptyString => (acc, count, s)
  end.

Fixpoint skip_spaces (s : string) : string :=
  match s with
  | String c r => if Js.is_space c then skip_spaces r else s
  | EmptyString => s
  end.

(** An optional sign: [(negative, rest)]. *)
Definition take_sign (s : string) : bool * string :=
  match s with
  | String c r =>
      if (Js.code c =? 45)%N then (true, r)
      else if (Js.code c =? 43)%N then (false, r)
      else (false, s)
  | EmptyString => (false, s)
  end.

(** The longest prefix that is a decimal literal
    ([digits], [digits.], [digits.digits] or [.digits], after an optional
    sign), with the rest of the string.  The exponent part and the word
    [Infinity] are not read: every caller has removed the characters
    outside [[0-9.-]] before. *)
Definition read_decimal (s : string) : option (number * string) :=
  let '(neg, s1) := take_sign s in
  let '(ip, ni, s2) := take_digits 0 0 s1 in
  let sign := if neg then (-1)%Z else 1%Z in
  match s2 with
  | String c r =>
      if (Js.code c =? 46)%N then
        let '(all, nf, s3) := take_digits ip 0 r in
        match ni, nf with
        | O, O => None
        | _, O => Some (Finite (sign * ip) 0, s3)
        | _, _ => Some (Finite (sign * all) nf, s3)
        end
      else
        match ni with
        | O => None
        | _ => Some (Finite (sign * ip) 0, s2)
        end
  | EmptyString =>
      match ni with
      | O => None
      | _ => Some (Finite (sign * ip) 0, s2)
      end
  end.

(** [parseFloat(s)] *)
Definition parseFloat (s : string) : number :=
  match read_decimal (skip_spaces s) with
  | Some (n, _) => n
  | None => NaN
  end.

(** [Number(s)] for a string: the whole string, white space trimmed, is a
    literal; the empty string is [0]. *)
Definition Number_of_string (s : string) : number :=
  match skip_spaces s with
  | EmptyString => Finite 0 0
  | s1 =>
      match read_decimal s1 with
      | Some (n, rest) =>
          match skip_spaces rest with
          | EmptyString => n
          | _ => NaN
          end
      | None => NaN
      end
  end.

End Num.

(* ------------------------------------------------------------------ *)
(** ** Values *)
(* ------------------------------------------------------------------ *)

(** The values a cell, a request field or a query parameter holds.
    [JDate None] is the Invalid Date; [JObject h] is any other object (an
    array or a nested object of a request body), known by its handle. *)
Inductive JsValue : Type :=
| JUndefined
| JNull
| JBoolean (b : bool)
| JNumber (n : number)
| JString (s : string)
| JDate (t : option Z)
| JObject (h : nat).

Inductive JsType : Type :=
| TUndefined | TBoolean | TNumber | TString | TObject.

(** [typeof v] *)
Definition typeof (v : JsValue) : JsType :=
  match v with
  | JUndefined => TUndefined
  | JNull => TObject
  | JBoolean _ => TBoolean
  | JNumber _ => TNumber
  | JString _ => TString
  | JDate _ => TObject
  | JObject _ => TObject
  end.

(** [v === null || v === undefined] *)
Definition is_nullish (v : JsValue) : bool :=
  match v with
  | JUndefined | JNull => true
  | _ => false
  end.

(** [v instanceof Date] *)
Definition instanceof_Date (v : JsValue) : bool :=
  match v with JDate _ => true | _ => false end.

(** What the engine and its libraries compute and the service only calls:
    the date parser, and the renderings of numbers, dates and objects. *)
Record Engine : Type := {
  (** the time value of [new Date(s)]; [None] when it is invalid *)
  Date_parse : string -> option Z;
  (** [d.toISOString()] of a valid date *)
  Date_toISOString : Z -> string;
  (** [String(n)] *)
  Number_toString : number -> string;
  (** [JSON.stringify(v)] of an object; [None] when it throws.  The
      answer [undefined] needs a [toJSON] method, which the values of a
      parsed file or of a decoded request body do not have. *)
  JSON_stringify : JsValue -> option string;
  (** [String(v)] of an object *)
  Object_toString : JsValue -> string
}.

(** [String(v)] *)
Definition String_of (E : Engine) (v : JsValue) : string :=
  match v with
  | JUndefined => "undefined"
  | JNull => "null"
  | JBoolean true => "true"
  | JBoolean false => "false"
  | JNumber n => Number_toString E n
  | JString s => s
  | JDate _ | JObject _ => Object_toString E v
  end.

(* ------------------------------------------------------------------ *)
(** ** Objects used as records *)
(* ------------------------------------------------------------------ *)

Module Obj.
Section WithValue.

Context {V : Type}.

(** Own properties in insertion order, no key twice. *)
Definition t : Type := list (string * V).

(** [o[k]]; [None] is [undefined] for a missing key. *)
Fixpoint get (o : t) (k : string) : option V :=
  match o with
  | [] => None
  | (k', v) :: r => if String.eqb k k' then Some v else get r k
  end.

(** [o[k] = v]: an existing key keeps its place. *)
Fixpoint set (o : t) (k : string) (v : V) : t :=
  match o with
  | [] => [(k, v)]
  | (k', v') :: r =>
      if String.eqb k k' then (k', v) :: r else (k', v') :: set r k v
  end.

(** The canonical array index a key denotes, if any: a decimal numeral
    without leading zero, below [2^32 - 1]. *)
Definition array_index (k : string) : option N :=
  match k with
  | EmptyString => None
  | String c r =>
      if Js.all_class Js.is_digit k
         && (negb (Js.code c =? 48)%N
             || match r with EmptyString => true | _ => false end)
      then
        let '(n, _, _) := Num.take_digits 0 0 k in
        if (n <? 4294967295)%Z then Some (Z.to_N n) else None
      else None
  end.

Fixpoint insert_by_index (x : N * (string * V)) (l : list (N * (string * V)))
  : list (N * (string * V)) :=
  match l with
  | [] => [x]
  | y :: r =>
      if (fst x <=? fst y)%N then x :: l else y :: insert_by_index x r
  end.

Definition sort_by_index (l : list (N * (string * V))) :=
  fold_right insert_by_index [] l.

Fixpoint indexed (o : t) : list (N * (string * V)) :=
  match o with
  | [] => []
  | kv :: r =>
      match array_index (fst kv) with
      | Some n => (n, kv) :: indexed r
      | None => indexed r
      end
  end.

Definition named (o : t) : t :=
  filter (fun kv => match array_index (fst kv) with
                    | Some _ => false | None => true end) o.

(** [Object.entries(o)]: the array indices in ascending order, then the
    other keys in insertion order. *)
Definition entries (o : t) : list (string * V) :=
  map snd (sort_by_index (indexed o)) ++ named o.

(** [Object.keys(o)] and [Object.values(o)] *)
Definition keys (o : t) : list string := map fst (entries o).
Definition values (o : t) : list V := map snd (entries o).

(** [{ ...o }]: the copy receives the properties in enumeration order. *)
Definition spread (o : t) : t := entries o.

End WithValue.
Arguments t : clear implicits.
End Obj.

(** A record of a file, a row of a table, a request body. *)
Definition Registro : Type := Obj.t JsValue.

(** [registro[columna]] as a value. *)
Definition prop (registro : Registro) (columna : string) : JsValue :=
  match Obj.get registro columna with
  | Some v => v
  | None => JUndefined
  end.

(* ------------------------------------------------------------------ *)
(** ** normalizarNombresColumnas *)
(* ------------------------------------------------------------------ *)

(** [/[^a-zA-Z0-9_]/] *)
Definition no_word_char (c : ascii) : bool := negb (Js.is_word c).

(** [columna.replace(/[^a-zA-Z0-9_]/g, '_').toLowerCase()] *)
Definition nombreNormalizado (columna : string) : string :=
  Js.toLowerCase (Js.replace_class no_word_char "_"%char columna).

(** The object [mapaNombres], filled from the keys of the first record. *)
Definition construirMapaNombres (columnas : list string) : Obj.t string :=
  fold_left (fun mapa columna => Obj.set mapa columna (nombreNormalizado columna))
            columnas [].

(** [mapaNombres[nombreOriginal] || nombreOriginal]: the empty string is
    falsy as [undefined] is. *)
Definition renombrar (mapaNombres : Obj.t string) (nombreOriginal : string)
  : string :=
  match Obj.get mapaNombres nombreOriginal with
  | Some EmptyString => nombreOriginal
  | Some n => n
  | None => nombreOriginal
  end.

(** The body of [datos.map]: the record rebuilt key by key. *)
Definition renombrarRegistro (mapaNombres : Obj.t string) (registro : Registro)
  : Registro :=
  fold_left (fun nuevoRegistro kv =>
               Obj.set nuevoRegistro (renombrar mapaNombres (fst kv)) (snd kv))
            (Obj.entries registro) [].

Definition normalizarNombresColumnas (datos : list Registro) : list Registro :=
  match datos with
  | [] => datos
  | primerRegistro :: _ =>
      let columnas := Obj.keys primerRegistro in
      if negb (existsb (Js.test_class no_word_char) columnas) then datos
      else
        let mapaNombres := construirMapaNombres columnas in
        map (renombrarRegistro mapaNombres) datos
  end.

(* ------------------------------------------------------------------ *)
(** ** analizarEstructuraColumnas *)
(* ------------------------------------------------------------------ *)

(** Modelled from the spec: the file that declares the interface
    [ColumnaDefinicion] is not among the sources; its fields are the three
    of a column definition (name, inferred type, nullable), under the
    names the service reads and writes. *)
Module ColumnaDefinicion.
Record t : Type := { nombre : string; tipo : string; esNullable : bool }.
End ColumnaDefinicion.

(** [todasLasColumnas.add(columna)]: a [Set] keeps the first insertion. *)
Definition Set_add (s : list string) (x : string) : list string :=
  if Js.includes s x then s else s ++ [x].

Definition todasLasColumnas (datos : list Registro) : list string :=
  fold_left (fun s registro => fold_left Set_add (Obj.keys registro) s) datos [].

(** [datos.map(r => r[columna]).filter(v => v !== null && v !== undefined)] *)
Definition valoresNoNulos (datos : list Registro) (columna : string)
  : list JsValue :=
  filter (fun valor => negb (is_nullish valor))
         (map (fun registro => prop registro columna) datos).

Definition is_number (v : JsValue) : bool :=
  match v with JNumber _ => true | _ => false end.
Definition is_boolean (v : JsValue) : bool :=
  match v with JBoolean _ => true | _ => false end.
Definition is_string (v : JsValue) : bool :=
  match v with JString _ => true | _ => false end.

(** [typeof v === 'number' && Math.floor(v) !== v] *)
Definition es_numero_decimal (v : JsValue) : bool :=
  match v with JNumber n => Num.floor_differs n | _ => false end.

(** [/[a-zA-Z]/.test(valor) || /[^0-9\.,\-\s]/.test(valor)] on a string,
    [false] on any other value. *)
Definition esValorNoNumerico (valor : JsValue) : bool :=
  match valor with
  | JString s =>
      Js.test_class Js.is_alpha s
      || Js.test_class (fun c => negb (Js.is_numeric_text_char c)) s
  | _ => false
  end.

(** [v.replace(/[^\d.-]/g, '')] *)
Definition limpiarNumero (s : string) : string :=
  Js.remove_class (fun c => negb (Js.is_num_char c)) s.

(** The callback of [potentialNumbers]: the cleaned text, or [null]. *)
Definition potentialNumber (v : JsValue) : option string :=
  match v with
  | JString s =>
      let cleaned := limpiarNumero s in
      if negb (Num.isNaN (Num.Number_of_string cleaned))
      then Some cleaned else None
  | _ => None
  end.

Fixpoint filter_some {A : Type} (l : list (option A)) : list A :=
  match l with
  | [] => []
  | Some x :: r => x :: filter_some r
  | None :: r => filter_some r
  end.

(** The branch of a column whose first non-null value is a string. *)
Definition tipoDesdeTexto (valores : list JsValue) : string :=
  let hayValorNoNumerico := existsb esValorNoNumerico valores in
  if hayValorNoNumerico then "text"
  else
    let potentialNumbers := filter_some (map potentialNumber valores) in
    if (length potentialNumbers =? length valores)%nat then
      let hasDecimals := existsb (Js.includes_char "."%char) potentialNumbers in
      if hasDecimals then "decimal" else "int"
    else "text".

(** The type chosen for one column, from its non-null values. *)
Definition tipoDeColumna (valores : list JsValue) : string :=
  match valores with
  | [] => "text"
  | primero :: _ =>
      if is_number primero then
        let hasDecimals := existsb es_numero_decimal valores in
        let tipo := if hasDecimals then "decimal" else "int" in
        let todosSonNumeros := forallb is_number valores in
        if negb todosSonNumeros then "text" else tipo
      else if instanceof_Date primero then
        let todosSonFechas := forallb instanceof_Date valores in
        if negb todosSonFechas then "text" else "date"
      else if is_boolean primero then
        let todosSonBooleanos := forallb is_boolean valores in
        if negb todosSonBooleanos then "text" else "boolean"
      else if is_string primero then tipoDesdeTexto valores
      else "text"
  end.

Definition analizarEstructuraColumnas (datos : list Registro)
  : list ColumnaDefinicion.t :=
  match datos with
  | [] => []
  | _ =>
      map (fun columna =>
             {| ColumnaDefinicion.nombre := columna;
                ColumnaDefinicion.tipo :=
                  tipoDeColumna (valoresNoNulos datos columna);
                ColumnaDefinicion.esNullable := true |})
          (todasLasColumnas datos)
  end.

(* ------------------------------------------------------------------ *)
(** ** sanitizarValorSegunTipo *)
(* ------------------------------------------------------------------ *)

Section Sanitizer.

Variable E : Engine.

Definition sanitizarFecha (valor : JsValue) : JsValue :=
  match valor with
  | JString s =>
      match Date_parse E s with
      | Some t => JDate (Some t)
      | None => JNull
      end
  | JDate _ => valor
  | _ => JNull
  end.

Definition sanitizarInt (valor : JsValue) : JsValue :=
  match valor with
  | JString s =>
      let numStr := limpiarNumero s in
      let num := Num.parseFloat numStr in
      if Num.isNaN num then JNull else JNumber (Num.Math_round num)
  | JNumber n => JNumber (Num.Math_round n)
  | _ => JNull
  end.

Definition sanitizarDecimal (valor : JsValue) : JsValue :=
  match valor with
  | JString s =>
      let numStr := Js.replace_class (fun c => (Js.code c =? 44)%N) "."%char s in
      let cleanStr := limpiarNumero numStr in
      let num := Num.parseFloat cleanStr in
      if Num.isNaN num then JNull else JNumber num
  | JNumber _ => valor
  | _ => JNull
  end.

Definition valoresVerdaderos : list string :=
  [ "true"; "yes"; "si"; "s"; "y"; "1" ].
Definition valoresFalsos : list string := [ "false"; "no"; "n"; "0" ].

Definition sanitizarBoolean (valor : JsValue) : JsValue :=
  match valor with
  | JString s =>
      let lowerVal := Js.toLowerCase s in
      if Js.includes valoresVerdaderos lowerVal then JBoolean true
      else if Js.includes valoresFalsos lowerVal then JBoolean false
      else JNull
  | JNumber n => JBoolean (Num.differs_from_zero n)
  | JBoolean _ => valor
  | _ => JNull
  end.

(** The [default] case. *)
Definition sanitizarTexto (valor : JsValue) : JsValue :=
  match typeof valor with
  | TObject =>
      match JSON_stringify E valor with
      | Some s => JString s
      | None => JString (String_of E valor)
      end
  | _ => JString (String_of E valor)
  end.

Definition sanitizarValorSegunTipo (valor : JsValue) (tipo : string) : JsValue :=
  if is_nullish valor then JNull
  else if String.eqb tipo "date" || String.eqb tipo "timestamp"
  then sanitizarFecha valor
  else if String.eqb tipo "int" then sanitizarInt valor
  else if String.eqb tipo "decimal" then sanitizarDecimal valor
  else if String.eqb tipo "boolean" then sanitizarBoolean valor
  else sanitizarTexto valor.

End Sanitizer.

(* ------------------------------------------------------------------ *)
(** ** insertarLote and insertarDatosEnTabla *)
(* ------------------------------------------------------------------ *)

(** The double quote of an SQL identifier. *)
Definition dq : string := String (ascii_of_nat 34) EmptyString.

Definition quoted (s : string) : string := dq ++ s ++ dq.

(** [$n] *)
Definition placeholder (n : nat) : string := "$" ++ Js.nat_to_string n.

(** The query runner as the loader sees it.  Each call is answered by the
    driver; the answer is a function of the batch (numbered from 0), and
    for a statement also of the position of the record in its batch, of
    the text and of the bound parameters.  [query] answers [Some message]
    when the statement fails with that error message. *)
Record QueryRunner : Type := {
  startTransaction : nat -> bool;
  query : nat -> nat -> string -> list JsValue -> option string;
  commitTransaction : nat -> bool;
  rollbackTransaction : nat -> bool
}.

(** What [insertarLote] writes to the log when it ends. *)
Record LoteLog : Type := {
  recordsProcessed : nat;
  recordsFailed : nat
}.

(** What [insertarDatosEnTabla] leaves behind when it returns: the counter
    [totalRecords], whether the warning of a partial insertion was logged,
    and the log of every batch whose transaction was committed. *)
Record LoadReport : Type := {
  totalRecords : nat;
  insercionParcial : bool;
  lotesConfirmados : list LoteLog
}.

Section Loader.

Variable E : Engine.
Variable queryRunner : QueryRunner.
Variable nombreTabla : string.

(** [new Map(columnas.map(col => [col.nombre, col]))] *)
Definition construirColumnasMap (columnas : list ColumnaDefinicion.t)
  : Obj.t ColumnaDefinicion.t :=
  fold_left (fun m col => Obj.set m (ColumnaDefinicion.nombre col) col)
            columnas [].

(** The inner loop over the keys of one record: the columns kept and
    their sanitised values. *)
Definition filtrarRegistro (columnas : list ColumnaDefinicion.t)
  (registro : Registro) : list string * list JsValue :=
  let columnasMap := construirColumnasMap columnas in
  fold_left
    (fun acc nombreColumna =>
       let valor := prop registro nombreColumna in
       if negb (is_nullish valor) then
         match Obj.get columnasMap nombreColumna with
         | Some columnaInfo =>
             (fst acc ++ [nombreColumna],
              snd acc ++ [sanitizarValorSegunTipo E valor
                            (ColumnaDefinicion.tipo columnaInfo)])
         | None => acc
         end
       else acc)
    (Obj.keys registro) ([], []).

(** The text of the [INSERT] of one record. *)
Definition insertQuery (columnasFiltradas : list string) : string :=
  "INSERT INTO " ++ quoted nombreTabla ++ " ("
  ++ Js.join ", " (map quoted columnasFiltradas)
  ++ ") VALUES ("
  ++ Js.join ", " (map (fun i => placeholder (i + 1))
                       (seq 0 (length columnasFiltradas)))
  ++ ")".

Inductive RegistroOutcome : Type := Skipped | Inserted | Failed.

(** One turn of the loop of [insertarLote]: the record at position [pos]
    of batch [numLote]. *)
Definition insertarRegistro (columnas : list ColumnaDefinicion.t)
  (numLote pos : nat) (registro : Registro) : RegistroOutcome :=
  let '(columnasFiltradas, valores) := filtrarRegistro columnas registro in
  match columnasFiltradas with
  | [] => Skipped
  | _ =>
      match query queryRunner numLote pos (insertQuery columnasFiltradas)
                  valores with
      | None => Inserted
      | Some _ => Failed
      end
  end.

(** The loop of [insertarLote], from position [pos] on. *)
Fixpoint insertarRegistros (columnas : list ColumnaDefinicion.t)
  (numLote pos : nat) (lote : list Registro) (log : LoteLog) : LoteLog :=
  match lote with
  | [] => log
  | registro :: resto =>
      let log' :=
        match insertarRegistro columnas numLote pos registro with
        | Skipped => log
        | Inserted =>
            {| recordsProcessed := S (recordsProcessed log);
               recordsFailed := recordsFailed log |}
        | Failed =>
            {| recordsProcessed := recordsProcessed log;
               recordsFailed := S (recordsFailed log) |}
        end in
      insertarRegistros columnas numLote (S pos) resto log'
  end.

(** [insertarLote]: every failure of a record is caught inside the loop,
    so the method returns; its result here is the line it logs. *)
Definition insertarLote (columnas : list ColumnaDefinicion.t)
  (numLote : nat) (lote : list Registro) : LoteLog :=
  insertarRegistros columnas numLote 0 lote
    {| recordsProcessed := 0; recordsFailed := 0 |}.

(** The correction of the column types before the load. *)
Definition corregirColumnas (columnas : list ColumnaDefinicion.t)
  (datos : list Registro) : list ColumnaDefinicion.t :=
  let hasDecimalNumbers :=
    existsb (fun registro => existsb es_numero_decimal (Obj.values registro))
            datos in
  if hasDecimalNumbers then
    map (fun col =>
           if String.eqb (ColumnaDefinicion.tipo col) "int" then
             let hasDecimals :=
               existsb (fun reg =>
                          es_numero_decimal
                            (prop reg (ColumnaDefinicion.nombre col)))
                       datos in
             if hasDecimals then
               {| ColumnaDefinicion.nombre := ColumnaDefinicion.nombre col;
                  ColumnaDefinicion.tipo := "decimal";
                  ColumnaDefinicion.esNullable :=
                    ColumnaDefinicion.esNullable col |}
             else col
           else col)
        columnas
  else columnas.

Definition tamanoLote : nat := 100.

(** [datos.slice(i, i + tamanoLote)] *)
Definition slice {A : Type} (i j : nat) (l : list A) : list A :=
  firstn (j - i) (skipn i l).

Variable columnas : list ColumnaDefinicion.t.
Variable datos : list Registro.

(** The [for] loop over the batches, entered with the index [i], the
    counter [totalRecords] and the logs of the committed batches so far.
    A failure of [startTransaction], or of [rollbackTransaction] in the
    handler, leaves the loop as an exception. *)
Equations? bucleLotes (i : nat) (total : nat) (logs : list LoteLog)
  : Result (nat * list LoteLog) by wf (length datos - i) lt :=
  bucleLotes i total logs with lt_dec i (length datos) => {
    | right _ => Ok (total, logs)
    | left _ =>
        let lote := slice i (i + tamanoLote) datos in
        let numLote := i / tamanoLote in
        if startTransaction queryRunner numLote then
          let log := insertarLote columnas numLote lote in
          if commitTransaction queryRunner numLote then
            bucleLotes (i + tamanoLote) (total + length lote) (logs ++ [log])
          else if rollbackTransaction queryRunner numLote then
            bucleLotes (i + tamanoLote) total logs
          else Throw (DriverError "rollbackTransaction")
        else Throw (DriverError "startTransaction")
  }.
Proof. all: unfold tamanoLote; lia. Qed.

End Loader.

Definition mensajeNingunRegistro : string :=
  "Error al insertar datos: ningun registro fue insertado exitosamente".

Definition insertarDatosEnTabla (E : Engine) (queryRunner : QueryRunner)
  (nombreTabla : string) (columnas : list ColumnaDefinicion.t)
  (datos : list Registro) : Result (option LoadReport) :=
  match datos with
  | [] => Ok None
  | _ =>
      let columnas := corregirColumnas columnas datos in
      r <- bucleLotes E queryRunner nombreTabla columnas datos 0 0 [] ;;
      let '(totalRecords, logs) := r in
      if (totalRecords =? 0)%nat then
        Throw (InternalServerErrorException mensajeNingunRegistro)
      else
        Ok (Some {| totalRecords := totalRecords;
                    insercionParcial := (totalRecords <? length datos)%nat;
                    lotesConfirmados := logs |})
  end.

(* ------------------------------------------------------------------ *)
(** ** The tables behind the query service *)
(* ------------------------------------------------------------------ *)

Module ColumnaInfo.
Record t : Type := {
  nombre : string;
  tipo : string;
  esNullable : bool;
  valorPredeterminado : JsValue
}.
End ColumnaInfo.

(** A table of the store: its columns in ordinal position (the key [id]
    among them), its rows as the driver returns them, and the next value
    of the sequence behind [id]. *)
Record Tabla : Type := {
  columnas : list ColumnaInfo.t;
  filas : list Registro;
  serial : Z
}.

Definition BaseDeDatos : Type := Obj.t Tabla.


Record TablaDatos : Type := {
  td_nombreTabla : string;
  td_columnas : list ColumnaInfo.t;
  td_datos : list Registro;
  td_totalRegistros : nat;
  td_page : Z;
  td_limit : Z;
  td_totalPages : number
}.

Record OpcionesVisualizacion : Type := {
  columnasOcultas : option (list string);
  columnasLimpiar : option (list string);
  aplicarLimpieza : bool
}.

(** [x || []] *)
Definition or_empty {A : Type} (x : option (list A)) : list A :=
  match x with Some l => l | None => [] end.

Definition message (e : Exception) : string :=
  match e with
  | BadRequestException m | NotFoundException m
  | InternalServerErrorException m | DriverError m => m
  end.

(** The decimal rendering of an integer in a template literal. *)
Definition Z_to_string (z : Z) : string :=
  NilZero.string_of_int (Z.to_int z).

Fixpoint string_rev (s acc : string) : string :=
  match s with
  | EmptyString => acc
  | String c r => string_rev r (String c acc)
  end.

(** [s.trim()] *)
Definition trim (s : string) : string :=
  string_rev (Num.skip_spaces (string_rev (Num.skip_spaces s) EmptyString))
             EmptyString.

(** [s.split(c)[0]] *)
Fixpoint before_char (c : ascii) (s : string) : string :=
  match s with
  | EmptyString => EmptyString
  | String d r => if Ascii.eqb c d then EmptyString else String d (before_char c r)
  end.

Section Consultas.

Variable E : Engine.

(** The relational engine.  [sql_igual cell parameter] is the answer of
    [column = $n] on one row; [acepta data_type parameter] tells whether a
    parameter can be bound against a column of that type (a statement
    with a parameter that cannot, or that names a column the table does
    not have, fails). *)
Variable sql_igual : JsValue -> JsValue -> bool.
Variable acepta : string -> JsValue -> bool.

Definition buscarColumna (estructura : list ColumnaInfo.t) (campo : string)
  : option ColumnaInfo.t :=
  find (fun col => String.eqb (ColumnaInfo.nombre col) campo) estructura.

(** The error of a table that [verificarTablaExiste] does not find. *)
Definition tablaNoExiste (nombreTabla : string) : Exception :=
  NotFoundException ("La tabla " ++ quoted nombreTabla ++ " no existe").

Definition obtenerEstructuraTabla (db : BaseDeDatos) (nombreTabla : string)
  : list ColumnaInfo.t :=
  match Obj.get db nombreTabla with
  | Some t => columnas t
  | None => []
  end.

(** *** The WHERE clause of obtenerDatosTabla *)

(** The state of the loop over the filters: the texts pushed to
    [condiciones], the values pushed to [parametros], [paramIndex], and
    next to each text the column it compares (for the engine below). *)
Record Condiciones : Type := {
  condiciones : list string;
  parametros : list JsValue;
  paramIndex : nat;
  camposFiltrados : list string
}.

Definition agregarCondicion (estructuraColumnas : list ColumnaInfo.t)
  (st : Condiciones) (kv : string * JsValue) : Condiciones :=
  let '(campo, valor) := kv in
  if existsb (fun col => String.eqb (ColumnaInfo.nombre col) campo)
             estructuraColumnas
  then {| condiciones :=
            condiciones st
            ++ [(quoted campo ++ " = " ++ placeholder (paramIndex st))%string];
          parametros := parametros st ++ [valor];
          paramIndex := S (paramIndex st);
          camposFiltrados := camposFiltrados st ++ [campo] |}
  else st.

Definition construirCondiciones (estructuraColumnas : list ColumnaInfo.t)
  (filtros : Registro) : Condiciones :=
  fold_left (agregarCondicion estructuraColumnas) (Obj.entries filtros)
    {| condiciones := []; parametros := []; paramIndex := 1;
       camposFiltrados := [] |}.

Definition whereClause (estructuraColumnas : list ColumnaInfo.t)
  (filtros : Registro) : string :=
  match Obj.keys filtros with
  | [] => EmptyString
  | _ =>
      match condiciones (construirCondiciones estructuraColumnas filtros) with
      | [] => EmptyString
      | cs => " WHERE " ++ Js.join " AND " cs
      end
  end.

Definition countQuery (nombreTabla clause : string) : string :=
  "SELECT COUNT(*) FROM " ++ quoted nombreTabla ++ clause.

Definition pageQuery (nombreTabla clause : string) (limit offset : Z)
  : string :=
  "SELECT * FROM " ++ quoted nombreTabla ++ clause
  ++ " LIMIT " ++ Z_to_string limit ++ " OFFSET " ++ Z_to_string offset.

(** *** The engine on the statements of the service *)

(** Every compared or assigned column exists and accepts its parameter. *)
Definition parametrosAceptados (t : Tabla) (asignaciones : list (string * JsValue))
  : bool :=
  forallb (fun cv =>
             match buscarColumna (columnas t) (fst cv) with
             | Some col => acepta (ColumnaInfo.tipo col) (snd cv)
             | None => false
             end)
          asignaciones.

(** The rows that satisfy [c1 = $1 AND ... AND cn = $n]. *)
Definition filasFiltradas (t : Tabla) (cond : list (string * JsValue))
  : list Registro :=
  filter (fun fila =>
            forallb (fun cv => sql_igual (prop fila (fst cv)) (snd cv)) cond)
         (filas t).

Definition ejecutarCount (t : Tabla) (cond : list (string * JsValue))
  : Result nat :=
  if parametrosAceptados t cond then Ok (length (filasFiltradas t cond))
  else Throw (DriverError "count").

(** [LIMIT l OFFSET o]: a negative bound is an error of the engine. *)
Definition ejecutarPagina (t : Tabla) (cond : list (string * JsValue))
  (limit offset : Z) : Result (list Registro) :=
  if parametrosAceptados t cond then
    if (limit <? 0)%Z || (offset <? 0)%Z then Throw (DriverError "limit")
    else Ok (firstn (Z.to_nat limit)
                    (skipn (Z.to_nat offset) (filasFiltradas t cond)))
  else Throw (DriverError "select").

(** *** limpiarDatosTabla *)

Definition limpiarCampo (ocultas limpiar : list string)
  (registroLimpio : Registro) (kv : string * JsValue) : Registro :=
  let '(clave, valor) := kv in
  if Js.includes ocultas clave then Obj.set registroLimpio clave JNull
  else
    let r1 :=
      match valor with
      | JString s =>
          if Js.includes limpiar clave
          then Obj.set registroLimpio clave (JString (trim s))
          else registroLimpio
      | _ => registroLimpio
      end in
    let r2 :=
      match valor with
      | JUndefined | JString EmptyString => Obj.set r1 clave JNull
      | _ => r1
      end in
    match valor with
    | JString s =>
        if Js.includes_char "-"%char s || Js.includes_char "/"%char s then
          match Date_parse E s with
          | Some t =>
              Obj.set r2 clave
                (JString (before_char "T"%char (Date_toISOString E t)))
          | None => r2
          end
        else r2
    | _ => r2
    end.

Definition limpiarRegistro (ocultas limpiar : list string)
  (registro : Registro) : Registro :=
  let registroLimpio := Obj.spread registro in
  fold_left (limpiarCampo ocultas limpiar) (Obj.entries registroLimpio)
            registroLimpio.

Definition limpiarDatosTabla (datos : list Registro)
  (ocultas limpiar : list string) : list Registro :=
  match datos with
  | [] => datos
  | _ => map (limpiarRegistro ocultas limpiar) datos
  end.

(** *** obtenerDatosTabla *)

Definition envolverErrorLectura {A : Type} (r : Result A) : Result A :=
  match r with
  | Ok a => Ok a
  | Throw (NotFoundException m) => Throw (NotFoundException m)
  | Throw e =>
      Throw (InternalServerErrorException
               ("Error al obtener los datos de la tabla: " ++ message e))
  end.

Definition obtenerDatosTabla (db : BaseDeDatos) (nombreTabla : string)
  (page limit : Z) (filtros : Registro)
  (opcionesVisualizacion : OpcionesVisualizacion) : Result TablaDatos :=
  envolverErrorLectura
    (match Obj.get db nombreTabla with
     | None => Throw (tablaNoExiste nombreTabla)
     | Some t =>
         let estructuraColumnas := obtenerEstructuraTabla db nombreTabla in
         let st := construirCondiciones estructuraColumnas filtros in
         let cond := combine (camposFiltrados st) (parametros st) in
         totalRegistros <- ejecutarCount t cond ;;
         let offset := ((page - 1) * limit)%Z in
         datos <- ejecutarPagina t cond limit offset ;;
         let datos :=
           if aplicarLimpieza opcionesVisualizacion then
             limpiarDatosTabla datos
               (or_empty (columnasOcultas opcionesVisualizacion))
               (or_empty (columnasLimpiar opcionesVisualizacion))
           else datos in
         Ok {| td_nombreTabla := nombreTabla;
               td_columnas := estructuraColumnas;
               td_datos := datos;
               td_totalRegistros := totalRegistros;
               td_page := page;
               td_limit := limit;
               td_totalPages :=
                 Num.ceil_div (Z.of_nat totalRegistros) limit |}
     end).

End Consultas.

(* ------------------------------------------------------------------ *)
(** ** actualizarRegistro and agregarRegistro *)
(* ------------------------------------------------------------------ *)

Section Mutaciones.

Variable E : Engine.
Variable sql_igual : JsValue -> JsValue -> bool.
Variable acepta : string -> JsValue -> bool.

(** The parameter bound for a row id. *)
Definition idParam (id : Z) : JsValue := JNumber (Finite id 0).





(** *** actualizarRegistro *)


(** The text of the [UPDATE] and its parameters. *)
Definition updateQuery (nombreTabla : string) (datosFiltrados : Registro)
  (id : Z) : string * list JsValue :=
  let campos := Obj.keys datosFiltrados in
  let setClauses :=
    map (fun ic => (quoted (snd ic) ++ " = " ++ placeholder (fst ic))%string)
        (combine (seq 1 (length campos)) campos) in
  (("UPDATE " ++ quoted nombreTabla ++ " SET " ++ Js.join ", " setClauses
     ++ " WHERE id = " ++ placeholder (S (length campos)))%string,
   Obj.values datosFiltrados ++ [idParam id]).


(** *** agregarRegistro *)







End Mutaciones.

(* ================================================================== *)
(** * Specification-side definitions *)
(* ================================================================== *)

(** The names the pattern [^[a-z][a-z0-9_]*$] matches. *)
Inductive identificador : string -> Prop :=
| identificador_intro (c : ascii) (r : string) :
    (97 <= Js.code c <= 122)%N ->
    (forall d, In d (list_ascii_of_string r) ->
               (97 <= Js.code d <= 122)%N \/ (48 <= Js.code d <= 57)%N
               \/ d = "_"%char) ->
    identificador (String c r).

(** The name is, without regard to case, a word of the denylist. *)
Definition reservada (nombreTabla : string) : Prop :=
  exists palabra, In palabra palabrasReservadas
                  /\ Js.toLowerCase nombreTabla = Js.toLowerCase palabra.

(** The value is zero. *)
Definition es_cero (n : number) : bool :=
  match n with
  | Finite 0 _ => true
  | _ => false
  end.





(* ------------------------------------------------------------------ *)
(** ** Sample data *)
(* ------------------------------------------------------------------ *)

(** An engine for the examples: it reads no date, and renders every
    number, date and object by a fixed text. *)
Definition motorEjemplo : Engine :=
  {| Date_parse := fun _ => None;
     Date_toISOString := fun _ => "1970-01-01T00:00:00.000Z";
     Number_toString := fun _ => "0";
     JSON_stringify := fun _ => Some "{}";
     Object_toString := fun _ => "[object Object]" |}.

(** The comparison of the examples: integers by value, texts by their
    characters. *)
Definition igualEjemplo (celda parametro : JsValue) : bool :=
  match celda, parametro with
  | JNumber (Finite m O), JNumber (Finite n O) => (m =? n)%Z
  | JString s, JString t => String.eqb s t
  | _, _ => false
  end.

Definition aceptaEjemplo (tipo : string) (parametro : JsValue) : bool := true.

Definition columnaEjemplo (nombre tipo : string) : ColumnaInfo.t :=
  {| ColumnaInfo.nombre := nombre; ColumnaInfo.tipo := tipo;
     ColumnaInfo.esNullable := true;
     ColumnaInfo.valorPredeterminado := JNull |}.

Definition estructuraEjemplo : list ColumnaInfo.t :=
  [ columnaEjemplo "id" "integer"; columnaEjemplo "estado" "text";
    columnaEjemplo "cantidad" "numeric" ].

Definition filaEjemplo (i : nat) : Registro :=
  [ ("id", JNumber (Finite (Z.of_nat i) 0)); ("estado", JString "activo");
    ("cantidad", JString "5") ].

(** A table of 25 rows, numbered from 1. *)
Definition tablaEjemplo : Tabla :=
  {| columnas := estructuraEjemplo;
     filas := map filaEjemplo (seq 1 25);
     serial := 26 |}.

Definition baseEjemplo : BaseDeDatos := [ ("compras", tablaEjemplo) ].



(** The name a key gets when the mapping is built from [columnas], the
    keys of the first record: its normalised name when it is one of
    them, itself otherwise. *)
Definition renombrarCon (columnas : list string) (k : string) : string :=
  if Js.includes columnas k then nombreNormalizado k else k.

(** A name in normalised form: only [[a-z0-9_]]. *)
Definition es_normalizado (k : string) : bool :=
  Js.all_class (fun c => Js.is_lower c || Js.is_digit c || (Js.code c =? 95)%N)
               k.


(** A record rebuilt key by key under a renaming [f], from [acc]. *)
Definition volcar (f : string -> string) (l : list (string * JsValue))
  (acc : Registro) : Registro :=
  fold_left (fun nuevo kv => Obj.set nuevo (f (fst kv)) (snd kv)) l acc.

(** The batches of a load: how many there are, the records of the batch
    number [b], and the sum of the sizes of the batches whose transaction is
    committed. *)
Definition numLotes (datos : list Registro) : nat :=
  (length datos + (tamanoLote - 1)) / tamanoLote.

Definition loteNumero (datos : list Registro) (b : nat) : list Registro :=
  slice (b * tamanoLote) (b * tamanoLote + tamanoLote) datos.

Definition tamanoConfirmado (queryRunner : QueryRunner)
  (datos : list Registro) (b : nat) : nat :=
  if commitTransaction queryRunner b then length (loteNumero datos b) else 0.

Definition totalConfirmado (queryRunner : QueryRunner)
  (datos : list Registro) : nat :=
  list_sum (map (tamanoConfirmado queryRunner datos)
                (seq 0 (numLotes datos))).

(** The log lines of the committed batches. *)
Definition logsConfirmados (E : Engine) (queryRunner : QueryRunner)
  (nombreTabla : string) (columnas : list ColumnaDefinicion.t)
  (datos : list Registro) (desde cuantos : nat) : list LoteLog :=
  map (fun b => insertarLote E queryRunner nombreTabla columnas b
                             (loteNumero datos b))
      (filter (commitTransaction queryRunner) (seq desde cuantos)).

(** A runner whose transactions all work and whose engine refuses a
    number of more than twenty digits (a numeric field overflow). *)
Definition desborda (v : JsValue) : bool :=
  match v with
  | JNumber (Finite m _) => (100000000000000000000 <=? Z.abs m)%Z
  | _ => false
  end.

Definition runnerEjemplo : QueryRunner :=
  {| startTransaction := fun _ => true;
     query := fun _ _ _ valores =>
                if existsb desborda valores
                then Some "numeric field overflow" else None;
     commitTransaction := fun _ => true;
     rollbackTransaction := fun _ => true |}.

Definition columnasEjemplo : list ColumnaDefinicion.t :=
  [ {| ColumnaDefinicion.nombre := "cantidad";
       ColumnaDefinicion.tipo := "int";
       ColumnaDefinicion.esNullable := true |} ].

(** Two records: the second overflows the column. *)
Definition datosEjemplo : list Registro :=
  [ [("cantidad", JString "5")];
    [("cantidad", JString "900000000000000000000000")] ].

(** The filter specification without one key. *)
Definition sinCampo (campo : string) (filtros : Registro) : Registro :=
  filter (fun kv => negb (String.eqb (fst kv) campo)) filtros.

(** The entries of a filter specification whose key is a column. *)
Definition filtrosValidos (estructuraColumnas : list ColumnaInfo.t)
  (filtros : Registro) : list (string * JsValue) :=
  filter (fun kv => Js.includes (map ColumnaInfo.nombre estructuraColumnas)
                                (fst kv))
         (Obj.entries filtros).

(** The text of the n-th condition. *)
Definition textoCondicion (n : nat) (campo : string) : string :=
  quoted campo ++ " = " ++ placeholder n.

(** The order of the array indices in an enumeration. *)
Definition index_le {V : Type} (x y : N * (string * V)) : Prop :=
  (fst x <= fst y)%N.

(** The texts of the conditions of the valid filters, numbered from
    [desde]. *)
Definition condicionesDe (desde : nat) (validos : list (string * JsValue))
  : list string :=
  map (fun ik => textoCondicion (fst ik) (fst (snd ik)))
      (combine (seq desde (length validos)) validos).

(* ================================================================== *)
(** * The rest of the import path *)
(* ================================================================== *)

(* ------------------------------------------------------------------ *)
(** ** detectarSeparadorCSV *)
(* ------------------------------------------------------------------ *)

(** [s.slice(0, n)] *)
Definition string_head (n : nat) (s : string) : string := substring 0 n s.

Fixpoint count_char (c : ascii) (s : string) : nat :=
  match s with
  | EmptyString => 0
  | String d r => (if Ascii.eqb c d then 1 else 0) + count_char c r
  end.

(** [(fragment.match(new RegExp(sep, 'g')) || []).length] for a pattern
    of one character.  A comma, a semicolon or a tab matches itself.  The
    bar is the alternation of two empty patterns: it matches the empty
    string at every position of the fragment, its end included. *)
Definition contarCoincidencias (sep : ascii) (fragment : string) : nat :=
  if (Js.code sep =? 124)%N then S (String.length fragment)
  else count_char sep fragment.

Definition tabulador : ascii := ascii_of_nat 9.

Definition separadores : list ascii :=
  [ ","%char; ";"%char; tabulador; "|"%char ].

(** The loop over [separadores]: the best separator and its count. *)
Definition elegirSeparador (fragment : string) (estado : ascii * nat)
  (sep : ascii) : ascii * nat :=
  let '(mejorSeparador, maxOcurrencias) := estado in
  let ocurrencias := contarCoincidencias sep fragment in
  if (maxOcurrencias <? ocurrencias)%nat then (sep, ocurrencias)
  else (mejorSeparador, maxOcurrencias).

(** [lectura] is what [readFileSync] gives: the text of the file, or
    [None] when it throws. *)
Definition detectarSeparadorCSV (lectura : option string) : ascii :=
  match lectura with
  | None => ","%char
  | Some contenido =>
      let fragment := string_head 1000 contenido in
      fst (fold_left (elegirSeparador fragment) separadores (","%char, 0))
  end.

(* ------------------------------------------------------------------ *)
(** ** analizarArchivo *)
(* ------------------------------------------------------------------ *)

(** The two readers are external: [leerExcel] is what [XLSX] gives for the
    first sheet, [leerCSV] what the CSV parser gives; [extension] is
    [path.extname(file.originalname).toLowerCase()]. *)
Definition analizarArchivo (extension : string)
  (leerExcel leerCSV : Result (list Registro))
  : Result (list ColumnaDefinicion.t * list Registro) :=
  let r :=
    datos <- (if String.eqb extension ".xlsx" || String.eqb extension ".xls"
              then leerExcel
              else if String.eqb extension ".csv" then leerCSV
              else Throw (BadRequestException
                            ("Formato de archivo no soportado: " ++ extension))) ;;
    match datos with
    | [] => Throw (BadRequestException "El archivo no contiene datos")
    | _ =>
        let datos := normalizarNombresColumnas datos in
        let estructuraColumnas := analizarEstructuraColumnas datos in
        Ok (estructuraColumnas, datos)
    end in
  match r with
  | Ok a => Ok a
  | Throw e =>
      Throw (BadRequestException
               ("Error al analizar el archivo: " ++ message e))
  end.

(* ------------------------------------------------------------------ *)
(** ** sanitizarValoresLargos *)
(* ------------------------------------------------------------------ *)

(** One turn of the loop over the columns. *)
Definition truncarColumna (nuevoRegistro : Registro)
  (columna : ColumnaDefinicion.t) : Registro :=
  match prop nuevoRegistro (ColumnaDefinicion.nombre columna) with
  | JString s =>
      if String.eqb (ColumnaDefinicion.tipo columna) "varchar"
         && (250 <? String.length s)%nat
      then Obj.set nuevoRegistro (ColumnaDefinicion.nombre columna)
                   (JString (substring 0 250 s))
      else nuevoRegistro
  | _ => nuevoRegistro
  end.

Definition sanitizarValoresLargos (datos : list Registro)
  (columnas : list ColumnaDefinicion.t) : list Registro :=
  map (fun registro => fold_left truncarColumna columnas (Obj.spread registro))
      datos.

(* ------------------------------------------------------------------ *)
(** ** mapearTipoAPostgres, crearIndices and crearTablaDinamica *)
(* ------------------------------------------------------------------ *)

Definition mapping : Obj.t string :=
  [ ("int", "NUMERIC(20,0)"); ("decimal", "NUMERIC(20,4)");
    ("varchar", "TEXT"); ("text", "TEXT"); ("date", "TIMESTAMP");
    ("timestamp", "TIMESTAMP"); ("boolean", "BOOLEAN") ].

(** [mapping[tipo] || 'TEXT'] *)
Definition mapearTipoAPostgres (tipo : string) : string :=
  match Obj.get mapping tipo with
  | Some EmptyString | None => "TEXT"
  | Some t => t
  end.

(** The line feed and the indentation of the template literals. *)
Definition nl : string := String (ascii_of_nat 10) EmptyString.
Definition sangria : string := nl ++ "        ".

(** The text added for the column at position [index] of [total]. *)
Definition lineaColumna (total index : nat) (columna : ColumnaDefinicion.t)
  : string :=
  sangria ++ quoted (ColumnaDefinicion.nombre columna) ++ " "
  ++ mapearTipoAPostgres (ColumnaDefinicion.tipo columna)
  ++ (if ColumnaDefinicion.esNullable columna then EmptyString
      else " NOT NULL")
  ++ (if (index <? total - 1)%nat then "," else EmptyString).

(** [columnas.forEach((columna, index) => ...)] on the text so far. *)
Fixpoint agregarColumnas (total index : nat) (columnas : list ColumnaDefinicion.t)
  (sql : string) : string :=
  match columnas with
  | [] => sql
  | columna :: resto =>
      agregarColumnas total (S index) resto
                      (sql ++ lineaColumna total index columna)
  end.

Definition createTableSql (nombreTabla : string)
  (columnas : list ColumnaDefinicion.t) : string :=
  agregarColumnas (length columnas) 0 columnas
    ("CREATE TABLE " ++ quoted nombreTabla ++ " (" ++ sangria
     ++ quoted "id" ++ " SERIAL PRIMARY KEY,")
  ++ nl ++ "      )".

Definition dropTableSql (nombreTabla : string) : string :=
  "DROP TABLE IF EXISTS " ++ quoted nombreTabla.

Definition tiposIndexados : list string := [ "int"; "date"; "varchar" ].

Definition createIndexSql (nombreTabla : string)
  (columna : ColumnaDefinicion.t) : string :=
  let indexName :=
    ("idx_" ++ nombreTabla ++ "_" ++ ColumnaDefinicion.nombre columna)%string
  in
  "CREATE INDEX " ++ quoted indexName ++ " ON " ++ quoted nombreTabla
  ++ " USING btree (" ++ quoted (ColumnaDefinicion.nombre columna) ++ ")".

Section Esquema.

(** The engine on a statement of the schema, by its text: whether it
    executes.  The transaction calls themselves are taken to succeed. *)
Variable ejecuta : string -> bool.

(** [crearIndices]: the statements it issues and, for each, whether it
    executed; a failure is logged and the loop goes on. *)
Definition crearIndices (nombreTabla : string)
  (columnas : list ColumnaDefinicion.t) : list (string * bool) :=
  fold_left
    (fun emitidas columna =>
       if Js.includes tiposIndexados (ColumnaDefinicion.tipo columna) then
         let sql := createIndexSql nombreTabla columna in
         emitidas ++ [(sql, ejecuta sql)]
       else emitidas)
    columnas [].

(** [crearTablaDinamica]: its result and the statements it issued, each
    with its outcome.  The message of the driver, which the internal
    error carries after its prefix, is left out. *)
Definition crearTablaDinamica (nombreTabla : string)
  (columnas : list ColumnaDefinicion.t) : Result unit * list (string * bool) :=
  match columnas with
  | [] =>
      (Throw (BadRequestException "No se puede crear una tabla sin columnas"),
       [])
  | _ =>
      let drop := dropTableSql nombreTabla in
      if ejecuta drop then
        let crear := createTableSql nombreTabla columnas in
        if ejecuta crear then
          (Ok tt,
           [(drop, true); (crear, true)] ++ crearIndices nombreTabla columnas)
        else
          (Throw (InternalServerErrorException
                    "Error al crear la tabla en la base de datos: "),
           [(drop, true); (crear, false)])
      else
        (Throw (InternalServerErrorException
                  "Error al crear la tabla en la base de datos: "),
         [(drop, false)])
  end.

End Esquema.

(** Each pair of [Obj.indexed] carries the index of its key. *)
Definition indice_correcto {V : Type} (x : N * (string * V)) : Prop :=
  Obj.array_index (fst (snd x)) = Some (fst x).

(** The value is not a text of more than 250 characters. *)
Definition no_es_largo (v : JsValue) : Prop :=
  match v with
  | JString s => String.length s <= 250
  | _ => True
  end.

(** The value [v'] is [v], or [v] cut to its first 250 characters. *)
Definition igual_o_truncado (v v' : JsValue) : Prop :=
  v' = v
  \/ exists s, v = JString s /\ 250 < String.length s
               /\ v' = JString (substring 0 250 s).

(** [c.repeat(n)] *)
Fixpoint repetir (n : nat) (c : ascii) : string :=
  match n with
  | O => EmptyString
  | S m => String c (repetir m c)
  end.

Definition columnaVarchar (nombre : string) : ColumnaDefinicion.t :=
  {| ColumnaDefinicion.nombre := nombre;
     ColumnaDefinicion.tipo := "varchar";
     ColumnaDefinicion.esNullable := true |}.

(** The line of a column in the CREATE TABLE text, without the comma. *)
Definition lineaSinComa (columna : ColumnaDefinicion.t) : string :=
  sangria ++ quoted (ColumnaDefinicion.nombre columna) ++ " "
  ++ mapearTipoAPostgres (ColumnaDefinicion.tipo columna)
  ++ (if ColumnaDefinicion.esNullable columna then EmptyString
      else " NOT NULL").

Definition esIndexada (columna : ColumnaDefinicion.t) : bool :=
  Js.includes tiposIndexados (ColumnaDefinicion.tipo columna).

(* ------------------------------------------------------------------ *)
(** ** The upload filter of the controller *)
(* ------------------------------------------------------------------ *)

Definition allowedExtensions : list string := [ ".xlsx"; ".xls"; ".csv" ].

(** [fileFilter]: [ext] is [extname(file.originalname).toLowerCase()]. *)
Definition fileFilter (ext : string) : bool :=
  Js.includes allowedExtensions ext.

(* ------------------------------------------------------------------ *)
(** ** eliminarRegistro *)
(* ------------------------------------------------------------------ *)

Section Eliminar.

Variable sql_igual : JsValue -> JsValue -> bool.



End Eliminar.

(* ------------------------------------------------------------------ *)
(** ** limpiarDatosCompras and obtenerDatosCompras *)
(* ------------------------------------------------------------------ *)

(** The value in a condition: [if (v)]. *)
Definition truthy (v : JsValue) : bool :=
  match v with
  | JUndefined | JNull => false
  | JBoolean b => b
  | JNumber NaN => false
  | JNumber (Infinity _) => true
  | JNumber (Finite m _) => negb (m =? 0)%Z
  | JString EmptyString => false
  | JString _ => true
  | JDate _ | JObject _ => true
  end.

(** [s.includes(aguja)] *)
Fixpoint contiene (aguja s : string) : bool :=
  String.prefix aguja s
  || match s with
     | EmptyString => false
     | String _ r => contiene aguja r
     end.

Definition columnasLimpiarCompras : list string :=
  [ "estado"; "numero_orden"; "proveedor"; "producto"; "categoria";
    "departamento" ].

Definition columnasOcultarCompras : list string :=
  [ "notas_internas"; "comentarios_privados"; "id_referencia" ].

(** The word [autorizacion], its last vowel with the acute accent
    (code 243). *)
Definition autorizacion : string :=
  "autorizaci" ++ String (ascii_of_nat 243) "n".

(** The chain of conditions on [estadoLower]. *)
Definition clasificarEstado (estadoLower : string) : string :=
  if contiene "pagado" estadoLower || contiene "finalizado" estadoLower
     || contiene "completado" estadoLower || contiene "entregado" estadoLower
  then "completado"
  else if contiene "pendiente" estadoLower || contiene "proceso" estadoLower
          || contiene autorizacion estadoLower
          || contiene "enviado" estadoLower
  then "pendiente"
  else if contiene "cancel" estadoLower || contiene "rechaz" estadoLower
  then "cancelado"
  else "otro".

(** [parseFloat(s) || 0] *)
Definition parseFloat_o_cero (s : string) : number :=
  let n := Num.parseFloat s in
  if truthy (JNumber n) then n else Finite 0 0.

Definition camposFecha : list string :=
  [ "fecha_orden"; "fecha_entrega"; "fecha_pago" ].

Section Compras.

Variable E : Engine.

(** [fecha.getFullYear()] of a valid date, in the time zone of the
    server. *)
Variable Date_getFullYear : Z -> Z.

Definition recortarColumna (compraLimpia : Registro) (columna : string)
  : Registro :=
  match prop compraLimpia columna with
  | JString s =>
      if truthy (JString s)
      then Obj.set compraLimpia columna (JString (trim s))
      else compraLimpia
  | _ => compraLimpia
  end.

(** [if (columna in compraLimpia) compraLimpia[columna] = null] *)
Definition ocultarColumna (compraLimpia : Registro) (columna : string)
  : Registro :=
  match Obj.get compraLimpia columna with
  | Some _ => Obj.set compraLimpia columna JNull
  | None => compraLimpia
  end.

Definition clasificarCompra (compraLimpia : Registro) : Registro :=
  let estado := prop compraLimpia "estado" in
  if truthy estado then
    let estadoLower := Js.toLowerCase (String_of E estado) in
    Obj.set compraLimpia "estado_clasificacion"
            (JString (clasificarEstado estadoLower))
  else compraLimpia.

Definition limpiarValorTotal (compraLimpia : Registro) : Registro :=
  match Obj.get compraLimpia "valor_total" with
  | None => compraLimpia
  | Some (JNull | JUndefined | JString EmptyString) =>
      Obj.set compraLimpia "valor_total" (JNumber (Finite 0 0))
  | Some (JString s) =>
      let valorLimpio :=
        Js.remove_class
          (fun c => negb (Js.is_digit c || (Js.code c =? 46)%N)) s in
      Obj.set compraLimpia "valor_total"
              (JNumber (parseFloat_o_cero valorLimpio))
  | Some _ => compraLimpia
  end.

Definition limpiarFecha (compraLimpia : Registro) (campoFecha : string)
  : Registro :=
  match prop compraLimpia campoFecha with
  | JString s =>
      if truthy (JString s) then
        match Date_parse E s with
        | Some t =>
            let conFecha :=
              Obj.set compraLimpia campoFecha
                (JString (before_char "T"%char (Date_toISOString E t))) in
            if String.eqb campoFecha "fecha_orden"
            then Obj.set conFecha "anio"
                         (JNumber (Finite (Date_getFullYear t) 0))
            else conFecha
        | None => compraLimpia
        end
      else compraLimpia
  | _ => compraLimpia
  end.

(** The body of [datos.map]. *)
Definition limpiarCompra (compra : Registro) : Registro :=
  let compraLimpia := Obj.set (Obj.spread compra) "id" (prop compra "id") in
  let compraLimpia :=
    fold_left recortarColumna columnasLimpiarCompras compraLimpia in
  let compraLimpia :=
    fold_left ocultarColumna columnasOcultarCompras compraLimpia in
  let compraLimpia := clasificarCompra compraLimpia in
  let compraLimpia := limpiarValorTotal compraLimpia in
  fold_left limpiarFecha camposFecha compraLimpia.

Definition limpiarDatosCompras (datos : list Registro) : list Registro :=
  match datos with
  | [] => datos
  | _ => map limpiarCompra datos
  end.

Variable sql_igual : JsValue -> JsValue -> bool.
Variable acepta : string -> JsValue -> bool.

(** [obtenerDatosCompras]: the read of the table [datos_compras] with no
    display options, then the cleaning of its rows. *)
Definition obtenerDatosCompras (db : BaseDeDatos) (page limit : Z)
  (filtros : Registro) : Result TablaDatos :=
  datosTabla <- obtenerDatosTabla E sql_igual acepta db "datos_compras"
                  page limit filtros
                  {| columnasOcultas := None; columnasLimpiar := None;
                     aplicarLimpieza := false |} ;;
  Ok {| td_nombreTabla := td_nombreTabla datosTabla;
        td_columnas := td_columnas datosTabla;
        td_datos := limpiarDatosCompras (td_datos datosTabla);
        td_totalRegistros := td_totalRegistros datosTabla;
        td_page := td_page datosTabla;
        td_limit := td_limit datosTabla;
        td_totalPages := td_totalPages datosTabla |}.

End Compras.

(* ------------------------------------------------------------------ *)
(** ** The password rules of the user DTOs *)
(* ------------------------------------------------------------------ *)

(** The regular expressions the DTOs use: a class of characters, the
    greedy star of a class, a sequence, a positive lookahead, the empty
    pattern and the end of the input. *)
Inductive Regex : Type :=
| RClass (p : ascii -> bool)
| RStar (p : ascii -> bool)
| RSeq (r1 r2 : Regex)
| RLook (r : Regex)
| REps
| REnd.

(** Backtracking match of [r] at the head of [s], continued by [k] on
    what is left. *)
Fixpoint matchK (r : Regex) (s : string) (k : string -> bool) : bool :=
  match r with
  | RClass p =>
      match s with
      | String c t => p c && k t
      | EmptyString => false
      end
  | RStar p =>
      (fix star (s : string) : bool :=
         match s with
         | String c t => (p c && star t) || k s
         | EmptyString => k s
         end) s
  | RSeq r1 r2 => matchK r1 s (fun s' => matchK r2 s' k)
  | RLook r1 => matchK r1 s (fun _ => true) && k s
  | REps => k s
  | REnd =>
      match s with
      | EmptyString => k s
      | String _ _ => false
      end
  end.

(** [/^r/.test(s)]: the pattern is anchored at the start. *)
Definition regex_test (r : Regex) (s : string) : bool :=
  matchK r s (fun _ => true).

(** [.]: any character but a line terminator (LF and CR below 256). *)
Definition dot (c : ascii) : bool :=
  negb ((Js.code c =? 10)%N || (Js.code c =? 13)%N).

(** [(?=.*[class])] *)
Definition contieneClase (p : ascii -> bool) : Regex :=
  RLook (RSeq (RStar dot) (RClass p)).

(** [/^(?=.*\d)(?=.*[A-Z])(?=.*[a-z]).*$/] *)
Definition passwordPattern : Regex :=
  RSeq (contieneClase Js.is_digit)
    (RSeq (contieneClase Js.is_upper)
       (RSeq (contieneClase Js.is_lower)
          (RSeq (RStar dot) REnd))).

(** [@IsString() @MinLength(6) @MaxLength(50) @Matches(...)] on the
    password of [LoginUserDto]. *)
Definition loginPasswordValida (password : JsValue) : bool :=
  match password with
  | JString s =>
      (6 <=? String.length s)%nat && (String.length s <=? 50)%nat
      && regex_test passwordPattern s
  | _ => false
  end.

(** [@IsString() @MaxLength(50) @Matches(...)] on the password of
    [CreateUserDto]. *)
Definition createPasswordValida (password : JsValue) : bool :=
  match password with
  | JString s =>
      (String.length s <=? 50)%nat && regex_test passwordPattern s
  | _ => false
  end.

(* ------------------------------------------------------------------ *)
(** ** What limpiarDatosTabla leaves in a field *)
(* ------------------------------------------------------------------ *)

(** The value a field that held [valor] under [clave] ends with, once the
    successive assignments of the loop are resolved: hiding first, then
    the date, then the empty text, then the trimming. *)
Definition valorLimpio (E : Engine) (ocultas limpiar : list string)
  (clave : string) (valor : JsValue) : JsValue :=
  if Js.includes ocultas clave then JNull
  else
    match valor with
    | JUndefined => JNull
    | JString s =>
        match (if Js.includes_char "-"%char s || Js.includes_char "/"%char s
               then Date_parse E s else None) with
        | Some t => JString (before_char "T"%char (Date_toISOString E t))
        | None =>
            match s with
            | EmptyString => JNull
            | _ => if Js.includes limpiar clave then JString (trim s)
                   else valor
            end
        end
    | _ => valor
    end.

(** The keys [limpiarDatosCompras] may assign, the preserved [id] apart. *)
Definition clavesCompras : list string :=
  columnasLimpiarCompras ++ columnasOcultarCompras
  ++ [ "estado_clasificacion"; "valor_total"; "anio" ] ++ camposFecha.

Definition clasificaciones : list string :=
  [ "completado"; "pendiente"; "cancelado"; "otro" ].

(** [[0-9.]] *)
Definition digito_o_punto (c : ascii) : bool :=
  Js.is_digit c || (Js.code c =? 46)%N.

(** A number that is neither NaN nor negative. *)
Definition no_negativo (v : JsValue) : Prop :=
  exists m e, v = JNumber (Finite m e) /\ (0 <= m)%Z.

(* ------------------------------------------------------------------ *)
(** ** The steps of create after the validation of the name *)
(* ------------------------------------------------------------------ *)

(** What [create] returns; the [id] the repository gave to the import is
    left out. *)
Record ResultadoImportacion : Type := {
  ri_nombreTabla : string;
  ri_totalRegistros : nat;
  ri_mensaje : string;
  ri_estructuraColumnas : list ColumnaDefinicion.t
}.

Section Importacion.

Variable E : Engine.

(** The store behind [crearTablaDinamica] and the runner of the load. *)
Variable ejecuta : string -> bool.
Variable queryRunner : QueryRunner.

(** The repository of the imports is external: the search of an earlier
    import of the same file with its removal, the first save and the save
    of the total each end well or with an error of their own. *)
Variables importacionPrevia guardarNueva guardarTotal : Result unit.

(** The uploaded file as its readers give it; the file is analysed twice
    and is the same both times. *)
Variable extension : string.
Variables leerExcel leerCSV : Result (list Registro).

Definition importar (nombreTabla : string) : Result ResultadoImportacion :=
  _ <- importacionPrevia ;;
  primero <- analizarArchivo extension leerExcel leerCSV ;;
  segundo <- analizarArchivo extension leerExcel leerCSV ;;
  let estructuraColumnas := fst primero in
  let datos := snd segundo in
  match estructuraColumnas with
  | [] =>
      Throw (BadRequestException
               "No se pudo determinar la estructura del archivo. Posiblemente esta vacio o tiene un formato incorrecto.")
  | _ =>
      _ <- guardarNueva ;;
      _ <- fst (crearTablaDinamica ejecuta nombreTabla estructuraColumnas) ;;
      let datos := sanitizarValoresLargos datos estructuraColumnas in
      _ <- insertarDatosEnTabla E queryRunner nombreTabla estructuraColumnas
             datos ;;
      _ <- guardarTotal ;;
      Ok {| ri_nombreTabla := nombreTabla;
            ri_totalRegistros := length datos;
            ri_mensaje := "Archivo importado correctamente";
            ri_estructuraColumnas := estructuraColumnas |}
  end.

(** [create] on an uploaded file. *)
Definition crearImportacion (nombreTabla : string)
  : Result ResultadoImportacion :=
  create nombreTabla (importar nombreTabla).

End Importacion.

(** The reader [analizarArchivo] uses for an extension it supports. *)
Definition lectura (extension : string)
  (leerExcel leerCSV : Result (list Registro)) : Result (list Registro) :=
  if String.eqb extension ".csv" then leerCSV else leerExcel.

Definition errorInesperado : Exception :=
  InternalServerErrorException "Error inesperado, revisa los logs del servidor".

(* ------------------------------------------------------------------ *)
(** ** UserService *)
(* ------------------------------------------------------------------ *)

Inductive ErrorAcceso : Type :=
| UnauthorizedException (mensaje : string).

(** [delete o[k]] *)
Definition eliminarClave (o : Registro) (k : string) : Registro :=
  filter (fun kv => negb (String.eqb (fst kv) k)) o.

Section Usuarios.

(** [bcrypt.hashSync(password, 10)], which throws on a value it cannot
    hash, and [bcrypt.compareSync(password, hash)]. *)
Variable hashSync : JsValue -> Result string.
Variable compareSync : JsValue -> JsValue -> bool.

(** [jwtService.sign({ id })], taken to return. *)
Variable sign : JsValue -> string.

(** [userRepository.create] followed by [save]: the entity as it is after
    the save, or the error of the store. *)
Variable guardar : Registro -> Result Registro.

Definition getJwtToken (id : JsValue) : string := sign id.

(** [create] of the user service: any error is logged and swallowed, the
    method then returns nothing. *)
Definition createUser (createUserDto : Registro) : option Registro :=
  let password := prop createUserDto "password" in
  let userData := eliminarClave (Obj.spread createUserDto) "password" in
  let r :=
    hash <- hashSync password ;;
    user <- guardar (Obj.set (Obj.spread userData) "password" (JString hash)) ;;
    let user := eliminarClave user "password" in
    Ok (Obj.set (Obj.spread user) "token"
                (JString (getJwtToken (prop user "id")))) in
  match r with
  | Ok respuesta => Some respuesta
  | Throw _ => None
  end.

(** [loginUser]: [encontrado] is what [findOne] gives for the email, with
    the fields [password], [email] and [id] selected. *)
Definition loginUser (encontrado : option Registro) (password : JsValue)
  : ErrorAcceso + Registro :=
  match encontrado with
  | None => inl (UnauthorizedException "usuario incorrecto")
  | Some user =>
      if negb (compareSync password (prop user "password")) then
        inl (UnauthorizedException "contrasena incorrecto")
      else
        inr (Obj.set (Obj.spread user) "token"
                     (JString (getJwtToken (prop user "id"))))
  end.

End Usuarios.

(* ------------------------------------------------------------------ *)
(** ** Identifiers *)
(* ------------------------------------------------------------------ *)

(** A name without the double quote that delimits an identifier. *)
Definition sin_comilla_doble (s : string) : bool :=
  Js.all_class (fun c => negb (Js.code c =? 34)%N) s.

(** A name made of the characters [[A-Za-z0-9_]] only. *)
Definition solo_palabra (s : string) : bool := Js.all_class Js.is_word s.

(* ================================================================== *)
(** * Properties *)
(* ================================================================== *)

(** ** Characters and strings *)

Lemma code_inj (c d : ascii) : Js.code c = Js.code d -> c = d.
Proof.
  unfold Js.code. intros H.
  rewrite <- (ascii_N_embedding c), <- (ascii_N_embedding d).
  now rewrite H.
Qed.

Lemma code_eqb_iff (c : ascii) (n : N) :
  (n < 256)%N -> (Js.code c =? n)%N = true <-> c = ascii_of_N n.
Proof.
  intros Hn. rewrite N.eqb_eq. split; intros H.
  - apply code_inj. unfold Js.code at 2.
    now rewrite N_ascii_embedding.
  - subst c. unfold Js.code. now rewrite N_ascii_embedding.
Qed.

Lemma between_iff (lo hi : N) (c : ascii) :
  Js.between lo hi c = true <-> (lo <= Js.code c <= hi)%N.
Proof.
  unfold Js.between. rewrite andb_true_iff, !N.leb_le. tauto.
Qed.

Lemma all_class_forall (p : ascii -> bool) (s : string) :
  Js.all_class p s = true
  <-> forall d, In d (list_ascii_of_string s) -> p d = true.
Proof.
  induction s as [|c r IH]; simpl.
  - split; [intros _ d [] | reflexivity].
  - rewrite andb_true_iff, IH. split.
    + intros [Hc Hr] d [<- | Hd]; auto.
    + intros H. split; [apply H; now left | intros d Hd; apply H; now right].
Qed.

Lemma test_class_exists (p : ascii -> bool) (s : string) :
  Js.test_class p s = true
  <-> exists d, In d (list_ascii_of_string s) /\ p d = true.
Proof.
  induction s as [|c r IH]; simpl.
  - split; [discriminate | intros [d [[] _]]].
  - rewrite orb_true_iff, IH. split.
    + intros [Hc | [d [Hd Hp]]]; [exists c | exists d]; auto.
    + intros [d [[<- | Hd] Hp]]; [now left | right; now exists d].
Qed.

Lemma test_class_negb_all (p : ascii -> bool) (s : string) :
  Js.test_class p s = negb (Js.all_class (fun c => negb (p c)) s).
Proof.
  induction s as [|c r IH]; simpl; [reflexivity|].
  rewrite IH, negb_andb, negb_involutive. reflexivity.
Qed.

Lemma includes_In (l : list string) (x : string) :
  Js.includes l x = true <-> In x l.
Proof.
  unfold Js.includes. rewrite existsb_exists. split.
  - intros [y [Hy He]]. apply String.eqb_eq in He. now subst.
  - intros H. exists x. split; [assumption | apply String.eqb_refl].
Qed.

(** ** validarNombreTabla *)

Lemma validRegex_identificador (nombreTabla : string) :
  validRegex nombreTabla = true <-> identificador nombreTabla.
Proof.
  destruct nombreTabla as [|c r]; simpl.
  - split; [discriminate | inversion 1].
  - rewrite andb_true_iff, all_class_forall.
    unfold Js.is_lower, Js.is_digit. rewrite between_iff. split.
    + intros [Hc Hr]. constructor; [assumption|].
      intros d Hd. specialize (Hr d Hd).
      rewrite !orb_true_iff, !between_iff in Hr.
      destruct Hr as [[H | H] | H]; auto.
      right; right. now apply (code_eqb_iff d 95) in H.
    + inversion 1 as [c' r' Hc Hr]; subst. split; [assumption|].
      intros d Hd. rewrite !orb_true_iff, !between_iff.
      destruct (Hr d Hd) as [H' | [H' | H']]; auto.
      right. subst d. reflexivity.
Qed.

Lemma palabrasReservadas_minusculas :
  Forall (fun palabra => Js.toLowerCase palabra = palabra) palabrasReservadas.
Proof. repeat constructor. Qed.

Lemma includes_reservada (nombreTabla : string) :
  Js.includes palabrasReservadas (Js.toLowerCase nombreTabla) = true
  <-> reservada nombreTabla.
Proof.
  rewrite includes_In. pose proof palabrasReservadas_minusculas as Hmin.
  rewrite Forall_forall in Hmin. split.
  - intros H. exists (Js.toLowerCase nombreTabla). split; [assumption|].
    symmetry. now apply Hmin.
  - intros [palabra [Hin Heq]]. rewrite Heq, (Hmin _ Hin). assumption.
Qed.

(** C7.  [validarNombreTabla] throws the validation error exactly for the
    names that do not match [^[a-z][a-z0-9_]*$] or that are, without
    regard to case, a reserved word of the denylist; it returns for the
    names that pass both checks; [create] fails with that error before it
    does anything else; the name [select] is refused. *)
Theorem validarNombreTabla_valida (nombreTabla : string) :
  (is_validation_error (validarNombreTabla nombreTabla) = true
   <-> ~ identificador nombreTabla \/ reservada nombreTabla)
  /\ (validarNombreTabla nombreTabla = Ok tt
      <-> identificador nombreTabla /\ ~ reservada nombreTabla)
  /\ (forall (A : Type) (importar : Result A),
         ~ identificador nombreTabla \/ reservada nombreTabla ->
         is_validation_error (create nombreTabla importar) = true)
  /\ is_validation_error (validarNombreTabla "select") = true.
Proof.
  pose proof (validRegex_identificador nombreTabla) as Hid.
  pose proof (includes_reservada nombreTabla) as Hres.
  assert (Hno : ~ identificador nombreTabla <-> validRegex nombreTabla = false).
  { rewrite <- Hid. destruct (validRegex nombreTabla); intuition congruence. }
  assert (Hnr : ~ reservada nombreTabla
                <-> Js.includes palabrasReservadas
                      (Js.toLowerCase nombreTabla) = false).
  { rewrite <- Hres.
    destruct (Js.includes palabrasReservadas (Js.toLowerCase nombreTabla));
      intuition congruence. }
  rewrite Hno, Hnr, <- Hid, <- Hres.
  unfold create, validarNombreTabla.
  destruct (validRegex nombreTabla),
    (Js.includes palabrasReservadas (Js.toLowerCase nombreTabla)); simpl;
    intuition congruence.
Qed.

Lemma validarNombreTabla_valida_witness :
  is_validation_error (create "select" (Ok tt)) = true
  /\ validarNombreTabla "compras_2024" = Ok tt.
Proof.
  split.
  - apply (proj1 (proj2 (proj2 (validarNombreTabla_valida "select")))).
    right. exists "select". split; [simpl; tauto | reflexivity].
  - apply (proj1 (proj2 (validarNombreTabla_valida "compras_2024"))). split.
    + apply validRegex_identificador. reflexivity.
    + intros [palabra [Hin Heq]]. simpl in Hin.
      repeat (destruct Hin as [<- | Hin]; [discriminate Heq |]).
      exact Hin.
Defined.

(** ** Objects *)

Section ObjFacts.

Context {V : Type}.
Implicit Types (o : Obj.t V) (k : string) (v : V).

Lemma Obj_get_set o k k' v :
  Obj.get (Obj.set o k v) k'
  = if String.eqb k' k then Some v else Obj.get o k'.
Proof.
  induction o as [|[k0 v0] r IH]; simpl.
  - reflexivity.
  - destruct (String.eqb k k0) eqn:E0; simpl.
    + apply String.eqb_eq in E0. subst k0.
      destruct (String.eqb k' k); reflexivity.
    + rewrite IH. destruct (String.eqb k' k0) eqn:E1; [|reflexivity].
      apply String.eqb_eq in E1. subst k0.
      destruct (String.eqb k' k) eqn:E2; [|reflexivity].
      apply String.eqb_eq in E2. subst k'.
      rewrite String.eqb_refl in E0. discriminate.
Qed.

Lemma Obj_get_set_eq o k v : Obj.get (Obj.set o k v) k = Some v.
Proof. now rewrite Obj_get_set, String.eqb_refl. Qed.

Lemma Obj_get_set_ne o k k' v :
  k' <> k -> Obj.get (Obj.set o k v) k' = Obj.get o k'.
Proof.
  intros H. rewrite Obj_get_set.
  destruct (String.eqb k' k) eqn:E0; [|reflexivity].
  apply String.eqb_eq in E0. contradiction.
Qed.

Lemma Obj_get_In o k v : Obj.get o k = Some v -> In (k, v) o.
Proof.
  induction o as [|[k0 v0] r IH]; simpl; [discriminate|].
  destruct (String.eqb k k0) eqn:E0.
  - apply String.eqb_eq in E0. intros [= ->]. left. now subst.
  - intros H. right. auto.
Qed.

Lemma Obj_In_get o k v :
  NoDup (map fst o) -> In (k, v) o -> Obj.get o k = Some v.
Proof.
  induction o as [|[k0 v0] r IH]; simpl; [contradiction|].
  intros Hnd [[= -> ->] | Hin].
  - now rewrite String.eqb_refl.
  - inversion Hnd as [|? ? Hnotin Hnd']; subst.
    destruct (String.eqb k k0) eqn:E0.
    + apply String.eqb_eq in E0. subst k0. exfalso. apply Hnotin.
      apply in_map_iff. now exists (k, v).
    + auto.
Qed.

Lemma Obj_get_None o k : Obj.get o k = None <-> ~ In k (map fst o).
Proof.
  induction o as [|[k0 v0] r IH]; simpl; [tauto|].
  destruct (String.eqb k k0) eqn:E0.
  - apply String.eqb_eq in E0. subst. split; [discriminate | tauto].
  - apply String.eqb_neq in E0. rewrite IH. intuition congruence.
Qed.

Lemma Obj_set_keys o k v :
  forall k', In k' (map fst (Obj.set o k v)) <-> k' = k \/ In k' (map fst o).
Proof.
  intros k'. induction o as [|[k0 v0] r IH]; simpl.
  - intuition congruence.
  - destruct (String.eqb k k0) eqn:E0; simpl.
    + apply String.eqb_eq in E0. subst. intuition congruence.
    + rewrite IH. intuition congruence.
Qed.


(** *** The enumeration order *)

Lemma insert_by_index_perm (x : N * (string * V)) l :
  Permutation (Obj.insert_by_index x l) (x :: l).
Proof.
  induction l as [|y r IH]; simpl; [reflexivity|].
  destruct (fst x <=? fst y)%N; [reflexivity|].
  rewrite IH. apply perm_swap.
Qed.

Lemma sort_by_index_perm (l : list (N * (string * V))) :
  Permutation (Obj.sort_by_index l) l.
Proof.
  induction l as [|x r IH]; simpl; [reflexivity|].
  rewrite insert_by_index_perm. now constructor.
Qed.

Lemma indexed_named_perm o :
  Permutation (map snd (Obj.indexed o) ++ Obj.named o) o.
Proof.
  induction o as [|kv r IH]; simpl; [reflexivity|].
  destruct (Obj.array_index (fst kv)); simpl.
  - now constructor.
  - rewrite <- Permutation_middle. now constructor.
Qed.

Lemma Obj_entries_perm o : Permutation (Obj.entries o) o.
Proof.
  unfold Obj.entries.
  rewrite (Permutation_map snd (sort_by_index_perm (Obj.indexed o))).
  apply indexed_named_perm.
Qed.

Lemma Obj_entries_In o (kv : string * V) : In kv (Obj.entries o) <-> In kv o.
Proof.
  split; apply Permutation_in;
    [apply Obj_entries_perm | symmetry; apply Obj_entries_perm].
Qed.

Lemma Obj_keys_In o k : In k (Obj.keys o) <-> In k (map fst o).
Proof.
  unfold Obj.keys. split; apply Permutation_in; apply Permutation_map;
    [apply Obj_entries_perm | symmetry; apply Obj_entries_perm].
Qed.

Lemma Obj_entries_NoDup o :
  NoDup (map fst o) -> NoDup (map fst (Obj.entries o)).
Proof.
  apply Permutation_NoDup. apply Permutation_map. symmetry.
  apply Obj_entries_perm.
Qed.

Lemma Obj_entries_length o : length (Obj.entries o) = length o.
Proof. apply Permutation_length, Obj_entries_perm. Qed.

End ObjFacts.

(** ** sanitizarValorSegunTipo *)

Section SanitizerProperties.

Variable E : Engine.

Lemma differs_from_zero_es_cero (n : number) :
  Num.differs_from_zero n = negb (es_cero n).
Proof. destruct n as [| |m e]; reflexivity. Qed.

Lemma verdaderos_falsos_disjuntos (x : string) :
  In x valoresVerdaderos -> In x valoresFalsos -> False.
Proof.
  simpl. intros Hv Hf.
  repeat (destruct Hv as [Hv | Hv];
          [subst x; repeat (destruct Hf as [Hf | Hf]; [discriminate Hf |]);
           exact Hf |]).
  exact Hv.
Qed.

(** C5.  For the target type [boolean]: a text is lower-cased and looked
    up in the truthy set (true), then in the falsy set (false), and is
    null when in neither; a number gives false exactly when it is zero; a
    boolean is returned unchanged. *)
Theorem sanitizar_boolean :
  (forall s,
      (In (Js.toLowerCase s) valoresVerdaderos ->
       sanitizarValorSegunTipo E (JString s) "boolean" = JBoolean true)
      /\ (In (Js.toLowerCase s) valoresFalsos ->
          sanitizarValorSegunTipo E (JString s) "boolean" = JBoolean false)
      /\ (~ In (Js.toLowerCase s) valoresVerdaderos ->
          ~ In (Js.toLowerCase s) valoresFalsos ->
          sanitizarValorSegunTipo E (JString s) "boolean" = JNull))
  /\ (forall n,
         sanitizarValorSegunTipo E (JNumber n) "boolean"
         = JBoolean (negb (es_cero n)))
  /\ (forall b,
         sanitizarValorSegunTipo E (JBoolean b) "boolean" = JBoolean b)
  /\ valoresVerdaderos = ["true"; "yes"; "si"; "s"; "y"; "1"]
  /\ valoresFalsos = ["false"; "no"; "n"; "0"].
Proof.
  split; [| split; [| split; [| split; reflexivity]]].
  - intros s.
    change (sanitizarValorSegunTipo E (JString s) "boolean")
      with (if Js.includes valoresVerdaderos (Js.toLowerCase s)
            then JBoolean true
            else if Js.includes valoresFalsos (Js.toLowerCase s)
                 then JBoolean false else JNull).
    pose proof (includes_In valoresVerdaderos (Js.toLowerCase s)) as Hv.
    pose proof (includes_In valoresFalsos (Js.toLowerCase s)) as Hf.
    pose proof (verdaderos_falsos_disjuntos (Js.toLowerCase s)) as Hd.
    destruct (Js.includes valoresVerdaderos (Js.toLowerCase s)) eqn:Ev;
      destruct (Js.includes valoresFalsos (Js.toLowerCase s)) eqn:Ef;
      (split; [| split]); intros; try reflexivity; exfalso;
      intuition congruence.
  - intros n. cbn. now rewrite differs_from_zero_es_cero.
  - intros b. reflexivity.
Qed.

End SanitizerProperties.

Section SanitizerIdempotence.

Variable E : Engine.

Lemma Math_round_idempotente (n : number) :
  Num.Math_round (Num.Math_round n) = Num.Math_round n.
Proof.
  destruct n as [| neg | m e]; try reflexivity.
  unfold Num.Math_round. f_equal.
  change (Num.pow10 0) with 1%Z.
  set (q := ((2 * m + Num.pow10 e) / (2 * Num.pow10 e))%Z).
  replace (2 * q + 1)%Z with (1 + q * 2)%Z by lia.
  rewrite Z.div_add by lia. reflexivity.
Qed.

Lemma sanitizarFecha_idempotente (v : JsValue) :
  sanitizarFecha E (sanitizarFecha E v) = sanitizarFecha E v.
Proof.
  destruct v; try reflexivity. simpl.
  destruct (Date_parse E s); reflexivity.
Qed.

Lemma sanitizarInt_idempotente (v : JsValue) :
  sanitizarInt (sanitizarInt v) = sanitizarInt v.
Proof.
  destruct v; try reflexivity; simpl.
  - now rewrite Math_round_idempotente.
  - destruct (Num.isNaN _); [reflexivity|].
    simpl. now rewrite Math_round_idempotente.
Qed.

Lemma sanitizarDecimal_idempotente (v : JsValue) :
  sanitizarDecimal (sanitizarDecimal v) = sanitizarDecimal v.
Proof.
  destruct v; try reflexivity; simpl.
  destruct (Num.isNaN _); reflexivity.
Qed.

Lemma sanitizarBoolean_idempotente (v : JsValue) :
  sanitizarBoolean (sanitizarBoolean v) = sanitizarBoolean v.
Proof.
  destruct v; try reflexivity. unfold sanitizarBoolean.
  destruct (Js.includes valoresVerdaderos (Js.toLowerCase s));
    [reflexivity|].
  destruct (Js.includes valoresFalsos (Js.toLowerCase s)); reflexivity.
Qed.

Lemma sanitizarTexto_idempotente (v : JsValue) :
  sanitizarTexto E (sanitizarTexto E v) = sanitizarTexto E v.
Proof.
  unfold sanitizarTexto.
  destruct (typeof v); try reflexivity.
  destruct (JSON_stringify E v); reflexivity.
Qed.

(** The sanitiser never answers [undefined]. *)
Lemma sanitizar_no_undefined (valor : JsValue) (tipo : string) :
  sanitizarValorSegunTipo E valor tipo <> JUndefined.
Proof.
  unfold sanitizarValorSegunTipo.
  destruct (is_nullish valor); [discriminate|].
  repeat match goal with
         | |- context [if ?b then _ else _] => destruct b
         end.
  - destruct valor; simpl; try discriminate. destruct (Date_parse E s); discriminate.
  - destruct valor; simpl; try discriminate. destruct (Num.isNaN _); discriminate.
  - destruct valor; simpl; try discriminate. destruct (Num.isNaN _); discriminate.
  - destruct valor; try discriminate. unfold sanitizarBoolean.
    destruct (Js.includes valoresVerdaderos (Js.toLowerCase s));
      [discriminate|].
    destruct (Js.includes valoresFalsos (Js.toLowerCase s)); discriminate.
  - unfold sanitizarTexto. destruct (typeof valor); try discriminate.
    destruct (JSON_stringify E valor); discriminate.
Qed.

(** Re-sanitising is a no-op, whatever the first result. *)
Lemma sanitizar_dos_veces (valor : JsValue) (tipo : string) :
  sanitizarValorSegunTipo E (sanitizarValorSegunTipo E valor tipo) tipo
  = sanitizarValorSegunTipo E valor tipo.
Proof.
  pose proof (sanitizar_no_undefined valor tipo) as Hu.
  destruct (sanitizarValorSegunTipo E valor tipo) eqn:Hr;
    try contradiction; try reflexivity; rewrite <- Hr at 2;
    unfold sanitizarValorSegunTipo in *;
    destruct (is_nullish valor); try discriminate;
    change (is_nullish _) with false in *; cbv iota;
    repeat match goal with
           | |- context [if ?b then _ else _] => destruct b
           end.
  all: try (rewrite <- Hr; apply sanitizarFecha_idempotente).
  all: try (rewrite <- Hr; apply sanitizarInt_idempotente).
  all: try (rewrite <- Hr; apply sanitizarDecimal_idempotente).
  all: try (rewrite <- Hr; apply sanitizarBoolean_idempotente).
  all: try (rewrite <- Hr; apply sanitizarTexto_idempotente).
Qed.

(** C4.  For every type tag and every raw value whose sanitised value is
    not null, sanitising that value again gives the same value. *)
Theorem sanitizar_idempotente (valor : JsValue) (tipo : string) :
  sanitizarValorSegunTipo E valor tipo <> JNull ->
  sanitizarValorSegunTipo E (sanitizarValorSegunTipo E valor tipo) tipo
  = sanitizarValorSegunTipo E valor tipo.
Proof. intros _. apply sanitizar_dos_veces. Qed.

End SanitizerIdempotence.

Lemma sanitizar_boolean_witness :
  sanitizarValorSegunTipo motorEjemplo (JString "SI") "boolean" = JBoolean true
  /\ sanitizarValorSegunTipo motorEjemplo (JString "No") "boolean"
     = JBoolean false
  /\ sanitizarValorSegunTipo motorEjemplo (JString "quizas") "boolean" = JNull.
Proof.
  pose proof (proj1 (sanitizar_boolean motorEjemplo)) as H.
  split; [| split].
  - apply (proj1 (H "SI")). simpl. tauto.
  - apply (proj1 (proj2 (H "No"))). simpl. tauto.
  - apply (proj2 (proj2 (H "quizas"))); simpl; intuition discriminate.
Defined.

Lemma sanitizar_idempotente_witness :
  sanitizarValorSegunTipo motorEjemplo
    (sanitizarValorSegunTipo motorEjemplo (JString "1,234.56") "int") "int"
  = JNumber (Finite 1235 0).
Proof.
  rewrite (sanitizar_idempotente motorEjemplo (JString "1,234.56") "int").
  - reflexivity.
  - vm_compute. discriminate.
Defined.

(** ** analizarEstructuraColumnas *)








Lemma Set_add_In (s : list string) (x y : string) :
  In x (Set_add s y) <-> In x s \/ x = y.
Proof.
  unfold Set_add. destruct (Js.includes s y) eqn:Hi.
  - apply includes_In in Hi. split; [tauto | intros [H | ->]; assumption].
  - rewrite in_app_iff. simpl. intuition congruence.
Qed.

Lemma fold_Set_add_In (l s : list string) (x : string) :
  In x (fold_left Set_add l s) <-> In x s \/ In x l.
Proof.
  revert s. induction l as [|y r IH]; intros s; simpl; [tauto|].
  rewrite IH, Set_add_In. intuition congruence.
Qed.

Lemma todasLasColumnas_In (datos : list Registro) (columna : string) :
  In columna (todasLasColumnas datos)
  <-> exists registro, In registro datos /\ In columna (Obj.keys registro).
Proof.
  unfold todasLasColumnas.
  enough (H : forall s,
             In columna
                (fold_left (fun s registro =>
                              fold_left Set_add (Obj.keys registro) s)
                           datos s)
             <-> In columna s
                 \/ exists registro,
                      In registro datos /\ In columna (Obj.keys registro)).
  { rewrite H. simpl. tauto. }
  induction datos as [|r rs IH]; intros s; simpl.
  - split; [tauto | intros [H | [x [[] _]]]; assumption].
  - rewrite IH, fold_Set_add_In. split.
    + intros [[H | H] | [x [Hx Hc]]]; eauto.
    + intros [H | [x [[<- | Hx] Hc]]]; eauto.
Qed.



(** ** The WHERE clause of obtenerDatosTabla *)

Section EntriesFilter.

Context {V : Type}.
Variable p : string * V -> bool.

Lemma indexed_filter (o : Obj.t V) :
  Obj.indexed (filter p o) = filter (fun x => p (snd x)) (Obj.indexed o).
Proof.
  induction o as [|kv r IH]; simpl; [reflexivity|].
  destruct (p kv) eqn:Hp; simpl;
    destruct (Obj.array_index (fst kv)); simpl; rewrite ?Hp, IH; reflexivity.
Qed.

Lemma named_filter (o : Obj.t V) :
  Obj.named (filter p o) = filter p (Obj.named o).
Proof.
  unfold Obj.named. induction o as [|kv r IH]; simpl; [reflexivity|].
  destruct (p kv) eqn:Hp; simpl;
    destruct (Obj.array_index (fst kv)); simpl; rewrite ?Hp, IH; reflexivity.
Qed.

Lemma insert_by_index_head (x : N * (string * V)) l :
  Forall (index_le x) l -> Obj.insert_by_index x l = x :: l.
Proof.
  destruct l as [|y r]; simpl; [reflexivity|].
  intros H. inversion H as [|? ? Hxy _]; subst.
  unfold index_le in Hxy. apply N.leb_le in Hxy. now rewrite Hxy.
Qed.

Lemma insert_by_index_sorted (x : N * (string * V)) l :
  StronglySorted index_le l ->
  StronglySorted index_le (Obj.insert_by_index x l).
Proof.
  induction l as [|y r IH]; simpl; intros Hs.
  - constructor; constructor.
  - inversion Hs as [|? ? Hr Hy]; subst.
    destruct (fst x <=? fst y)%N eqn:Hxy.
    + apply N.leb_le in Hxy. constructor; [assumption|].
      constructor; [exact Hxy|].
      eapply Forall_impl; [|exact Hy].
      intros z Hz. unfold index_le in *. lia.
    + apply N.leb_gt in Hxy. constructor; [auto|].
      eapply Permutation_Forall;
        [symmetry; apply insert_by_index_perm|].
      constructor; [unfold index_le; lia | assumption].
Qed.

Lemma sort_by_index_sorted (l : list (N * (string * V))) :
  StronglySorted index_le (Obj.sort_by_index l).
Proof.
  induction l as [|x r IH]; simpl; [constructor|].
  now apply insert_by_index_sorted.
Qed.

Lemma filter_insert_by_index (q : N * (string * V) -> bool) x l :
  StronglySorted index_le l ->
  filter q (Obj.insert_by_index x l)
  = if q x then Obj.insert_by_index x (filter q l) else filter q l.
Proof.
  induction l as [|y r IH]; simpl; intros Hs.
  - destruct (q x); reflexivity.
  - inversion Hs as [|? ? Hr Hy]; subst.
    destruct (fst x <=? fst y)%N eqn:Hxy; simpl.
    + destruct (q x) eqn:Hqx; [|reflexivity].
      symmetry. apply (insert_by_index_head x (filter q (y :: r))).
      apply N.leb_le in Hxy.
      apply Forall_forall. intros z Hz. apply filter_In in Hz.
      destruct Hz as [[<- | Hz] _]; [exact Hxy|].
      rewrite Forall_forall in Hy. specialize (Hy z Hz).
      unfold index_le in *. lia.
    + rewrite (IH Hr).
      destruct (q y) eqn:Hqy, (q x) eqn:Hqx; simpl; rewrite ?Hxy;
        reflexivity.
Qed.

Lemma sort_by_index_filter (q : N * (string * V) -> bool) l :
  Obj.sort_by_index (filter q l) = filter q (Obj.sort_by_index l).
Proof.
  induction l as [|x r IH]; simpl; [reflexivity|].
  rewrite filter_insert_by_index by apply sort_by_index_sorted.
  destruct (q x); simpl; now rewrite IH.
Qed.

Lemma map_snd_filter (l : list (N * (string * V))) :
  map snd (filter (fun x => p (snd x)) l) = filter p (map snd l).
Proof.
  induction l as [|x r IH]; simpl; [reflexivity|].
  destruct (p (snd x)); simpl; now rewrite IH.
Qed.

(** Removing properties does not change the order of the others. *)
Lemma Obj_entries_filter (o : Obj.t V) :
  Obj.entries (filter p o) = filter p (Obj.entries o).
Proof.
  unfold Obj.entries.
  rewrite indexed_filter, named_filter, sort_by_index_filter,
    map_snd_filter, filter_app.
  reflexivity.
Qed.

End EntriesFilter.

Section WhereClause.

Variable estructura : list ColumnaInfo.t.

Lemma existe_columna_includes (campo : string) :
  existsb (fun col => String.eqb (ColumnaInfo.nombre col) campo) estructura
  = Js.includes (map ColumnaInfo.nombre estructura) campo.
Proof.
  unfold Js.includes. induction estructura as [|col r IH]; simpl;
    [reflexivity|].
  now rewrite IH, String.eqb_sym.
Qed.

Lemma fold_agregarCondicion (l : list (string * JsValue)) (st : Condiciones) :
  let validos :=
    filter (fun kv => Js.includes (map ColumnaInfo.nombre estructura) (fst kv))
           l in
  fold_left (agregarCondicion estructura) l st
  = {| condiciones := condiciones st ++ condicionesDe (paramIndex st) validos;
       parametros := parametros st ++ map snd validos;
       paramIndex := paramIndex st + length validos;
       camposFiltrados := camposFiltrados st ++ map fst validos |}.
Proof.
  revert st. induction l as [|[campo valor] r IH]; intros st; simpl.
  - unfold condicionesDe. simpl. rewrite !app_nil_r, Nat.add_0_r.
    now destruct st.
  - rewrite IH. unfold agregarCondicion.
    rewrite existe_columna_includes.
    destruct (Js.includes (map ColumnaInfo.nombre estructura) campo); simpl.
    + unfold condicionesDe. simpl. rewrite <- !app_assoc. simpl.
      f_equal. lia.
    + reflexivity.
Qed.

Lemma construirCondiciones_validos (filtros : Registro) :
  construirCondiciones estructura filtros
  = {| condiciones := condicionesDe 1 (filtrosValidos estructura filtros);
       parametros := map snd (filtrosValidos estructura filtros);
       paramIndex := 1 + length (filtrosValidos estructura filtros);
       camposFiltrados := map fst (filtrosValidos estructura filtros) |}.
Proof.
  unfold construirCondiciones. rewrite fold_agregarCondicion. reflexivity.
Qed.

Lemma filtrosValidos_sinCampo (filtros : Registro) (campo : string) :
  ~ In campo (map ColumnaInfo.nombre estructura) ->
  filtrosValidos estructura (sinCampo campo filtros)
  = filtrosValidos estructura filtros.
Proof.
  intros Hno. unfold filtrosValidos, sinCampo.
  rewrite Obj_entries_filter.
  induction (Obj.entries filtros) as [|[k v] r IH]; simpl; [reflexivity|].
  destruct (String.eqb k campo) eqn:Hk; simpl.
  - apply String.eqb_eq in Hk. subst k.
    destruct (Js.includes (map ColumnaInfo.nombre estructura) campo) eqn:Hi;
      [|exact IH].
    apply includes_In in Hi. contradiction.
  - now rewrite IH.
Qed.

Lemma filtrosValidos_campos (filtros : Registro) (campo : string) :
  In campo (map fst (filtrosValidos estructura filtros)) ->
  In campo (map ColumnaInfo.nombre estructura) /\ In campo (Obj.keys filtros).
Proof.
  unfold filtrosValidos, Obj.keys. rewrite in_map_iff.
  intros [[k v] [<- Hin]]. apply filter_In in Hin. destruct Hin as [Hin Hv].
  split; [now apply includes_In | apply in_map_iff; now exists (k, v)].
Qed.

End WhereClause.

Lemma whereClause_validos (estructura : list ColumnaInfo.t)
  (filtros : Registro) :
  whereClause estructura filtros
  = match condicionesDe 1 (filtrosValidos estructura filtros) with
    | [] => EmptyString
    | cs => (" WHERE " ++ Js.join " AND " cs)%string
    end.
Proof.
  unfold whereClause. rewrite construirCondiciones_validos. simpl.
  destruct (Obj.keys filtros) eqn:Hk; [|reflexivity].
  unfold filtrosValidos, Obj.keys in *.
  destruct (Obj.entries filtros); [reflexivity | discriminate].
Qed.

(** C6.  Only the filters whose key is a current column contribute a
    condition and a bound parameter, numbered from 1 in enumeration
    order.  A key that is not a column is compared by no condition, and
    the conditions, the parameters, the WHERE clause, both queries and the
    answer of the read are those of the filter specification without that
    key: it never appears and causes no error. *)
Theorem filtro_desconocido_ignorado (estructura : list ColumnaInfo.t)
  (filtros : Registro) (campo : string) :
  ~ In campo (map ColumnaInfo.nombre estructura) ->
  let st := construirCondiciones estructura filtros in
  let validos := filtrosValidos estructura filtros in
  camposFiltrados st = map fst validos
  /\ parametros st = map snd validos
  /\ condiciones st = condicionesDe 1 validos
  /\ ~ In campo (camposFiltrados st)
  /\ construirCondiciones estructura (sinCampo campo filtros) = st
  /\ whereClause estructura (sinCampo campo filtros)
     = whereClause estructura filtros
  /\ (forall nombreTabla limit offset,
         countQuery nombreTabla (whereClause estructura filtros)
         = countQuery nombreTabla
             (whereClause estructura (sinCampo campo filtros))
         /\ pageQuery nombreTabla (whereClause estructura filtros) limit offset
            = pageQuery nombreTabla
                (whereClause estructura (sinCampo campo filtros)) limit offset)
  /\ (forall E sql_igual acepta db nombreTabla page limit opciones,
         obtenerEstructuraTabla db nombreTabla = estructura ->
         obtenerDatosTabla E sql_igual acepta db nombreTabla page limit
           filtros opciones
         = obtenerDatosTabla E sql_igual acepta db nombreTabla page limit
             (sinCampo campo filtros) opciones).
Proof.
  intros Hno st validos. subst st validos.
  assert (Hst : construirCondiciones estructura (sinCampo campo filtros)
                = construirCondiciones estructura filtros).
  { rewrite !construirCondiciones_validos.
    now rewrite filtrosValidos_sinCampo. }
  assert (Hw : whereClause estructura (sinCampo campo filtros)
               = whereClause estructura filtros).
  { rewrite !whereClause_validos. now rewrite filtrosValidos_sinCampo. }
  split; [now rewrite construirCondiciones_validos|].
  split; [now rewrite construirCondiciones_validos|].
  split; [now rewrite construirCondiciones_validos|].
  split.
  { rewrite construirCondiciones_validos. simpl.
    intros Hin. apply filtrosValidos_campos in Hin. tauto. }
  split; [exact Hst|]. split; [exact Hw|]. split.
  - intros nombreTabla limit offset. now rewrite Hw.
  - intros E sql_igual acepta db nombreTabla page limit opciones Hest.
    unfold obtenerDatosTabla. rewrite Hest, Hst. reflexivity.
Qed.

Lemma filtro_desconocido_ignorado_witness :
  let filtros : Registro :=
    [ ("estado", JString "activo"); ("precio", JString "9") ] in
  whereClause estructuraEjemplo filtros
  = (" WHERE " ++ quoted "estado" ++ " = $1")%string
  /\ whereClause estructuraEjemplo (sinCampo "precio" filtros)
     = whereClause estructuraEjemplo filtros.
Proof.
  intros filtros. split; [reflexivity|].
  apply (filtro_desconocido_ignorado estructuraEjemplo filtros "precio").
  simpl. intuition discriminate.
Defined.

(** ** obtenerDatosTabla *)




Section Paginacion.

Variable E : Engine.
Variable sql_igual : JsValue -> JsValue -> bool.
Variable acepta : string -> JsValue -> bool.


End Paginacion.


(** ** actualizarRegistro and agregarRegistro *)


Section MutacionesFacts.

Variable E : Engine.
Variable sql_igual : JsValue -> JsValue -> bool.
Variable acepta : string -> JsValue -> bool.





End MutacionesFacts.


(** ** normalizarNombresColumnas *)

Lemma char_normalizado (c : ascii) :
  let c' := Js.char_toLowerCase (if no_word_char c then "_"%char else c) in
  Js.is_lower c' || Js.is_digit c' || (Js.code c' =? 95)%N = true.
Proof.
  destruct c as [[] [] [] [] [] [] [] []]; reflexivity.
Qed.

Lemma nombreNormalizado_es_normalizado (k : string) :
  es_normalizado (nombreNormalizado k) = true.
Proof.
  unfold es_normalizado, nombreNormalizado.
  induction k as [|c r IH]; simpl; [reflexivity|].
  rewrite IH, andb_true_r. apply char_normalizado.
Qed.

Lemma nombreNormalizado_vacio (k : string) :
  nombreNormalizado k = EmptyString -> k = EmptyString.
Proof. destruct k; [reflexivity | discriminate]. Qed.

Lemma construirMapaNombres_get (columnas : list string) (k : string) :
  Obj.get (construirMapaNombres columnas) k
  = if Js.includes columnas k then Some (nombreNormalizado k) else None.
Proof.
  unfold construirMapaNombres.
  enough (H : forall m,
             Obj.get (fold_left (fun mapa columna =>
                                   Obj.set mapa columna
                                           (nombreNormalizado columna))
                                columnas m) k
             = if Js.includes columnas k then Some (nombreNormalizado k)
               else Obj.get m k) by apply H.
  induction columnas as [|c r IH]; intros m; simpl; [reflexivity|].
  rewrite IH, Obj_get_set. unfold Js.includes. simpl.
  destruct (existsb (String.eqb k) r); [now rewrite orb_true_r|].
  rewrite orb_false_r.
  destruct (String.eqb k c) eqn:Hk; [|reflexivity].
  apply String.eqb_eq in Hk. now subst.
Qed.

Lemma renombrar_renombrarCon (columnas : list string) (k : string) :
  renombrar (construirMapaNombres columnas) k = renombrarCon columnas k.
Proof.
  unfold renombrar, renombrarCon. rewrite construirMapaNombres_get.
  destruct (Js.includes columnas k); [|reflexivity].
  destruct (nombreNormalizado k) eqn:Hn; [|reflexivity].
  now apply nombreNormalizado_vacio in Hn.
Qed.

Section Renombrar.

Variable f : string -> string.

Lemma volcar_cons (kv : string * JsValue) (r : list (string * JsValue))
  (acc : Registro) :
  volcar f (kv :: r) acc = volcar f r (Obj.set acc (f (fst kv)) (snd kv)).
Proof. reflexivity. Qed.

Lemma volcar_keys (l : list (string * JsValue)) (acc : Registro) (k : string) :
  In k (map fst (volcar f l acc))
  <-> In k (map fst acc) \/ exists k0, In k0 (map fst l) /\ k = f k0.
Proof.
  revert acc. induction l as [|[k1 v1] r IH]; intros acc.
  - simpl. split; [tauto | intros [H | [k0 [[] _]]]; exact H].
  - rewrite volcar_cons, IH, Obj_set_keys. simpl. split.
    + intros [[-> | H] | [k0 [Hk0 ->]]]; eauto.
    + intros [H | [k0 [[<- | Hk0] ->]]]; eauto.
Qed.




End Renombrar.

Lemma renombrarRegistro_volcar (columnas : list string) (registro : Registro) :
  renombrarRegistro (construirMapaNombres columnas) registro
  = volcar (renombrarCon columnas) (Obj.entries registro) [].
Proof.
  unfold renombrarRegistro, volcar.
  generalize (@nil (string * JsValue)) as acc.
  induction (Obj.entries registro) as [|kv r IH]; intros acc; simpl;
    [reflexivity|].
  now rewrite renombrar_renombrarCon, IH.
Qed.




(** ** insertarDatosEnTabla *)

Lemma insertarDatosEnTabla_no_vacio (E : Engine) (queryRunner : QueryRunner)
  (nombreTabla : string) (columnas : list ColumnaDefinicion.t)
  (datos : list Registro) :
  datos <> [] ->
  insertarDatosEnTabla E queryRunner nombreTabla columnas datos
  = (r <- bucleLotes E queryRunner nombreTabla
            (corregirColumnas columnas datos) datos 0 0 [] ;;
     if (fst r =? 0)%nat then
       Throw (InternalServerErrorException mensajeNingunRegistro)
     else
       Ok (Some {| totalRecords := fst r;
                   insercionParcial := (fst r <? length datos)%nat;
                   lotesConfirmados := snd r |})).
Proof.
  intros Hd. destruct datos as [|r0 rs]; [contradiction|].
  unfold insertarDatosEnTabla.
  destruct (bucleLotes _ _ _ _ _ _ _ _) as [[t l]|e]; reflexivity.
Qed.

Section LoaderFacts.

Variable E : Engine.
Variable queryRunner : QueryRunner.
Variable nombreTabla : string.
Variable datos : list Registro.

Lemma bucleLotes_fin (cols : list ColumnaDefinicion.t) (i total : nat)
  (logs : list LoteLog) :
  ~ i < length datos ->
  bucleLotes E queryRunner nombreTabla cols datos i total logs
  = Ok (total, logs).
Proof.
  intros Hi. rewrite bucleLotes_equation_1.
  destruct (lt_dec i (length datos)); [contradiction | reflexivity].
Qed.

Lemma bucleLotes_paso (cols : list ColumnaDefinicion.t) (i total : nat)
  (logs : list LoteLog) :
  i < length datos ->
  bucleLotes E queryRunner nombreTabla cols datos i total logs
  = let lote := slice i (i + tamanoLote) datos in
    let numLote := i / tamanoLote in
    if startTransaction queryRunner numLote then
      let log := insertarLote E queryRunner nombreTabla cols numLote lote in
      if commitTransaction queryRunner numLote then
        bucleLotes E queryRunner nombreTabla cols datos
          (i + tamanoLote) (total + length lote) (logs ++ [log])
      else if rollbackTransaction queryRunner numLote then
        bucleLotes E queryRunner nombreTabla cols datos
          (i + tamanoLote) total logs
      else Throw (DriverError "rollbackTransaction")
    else Throw (DriverError "startTransaction").
Proof.
  intros Hi. rewrite bucleLotes_equation_1.
  destruct (lt_dec i (length datos)); [reflexivity | contradiction].
Qed.

Lemma numLotes_cubre : length datos <= numLotes datos * tamanoLote.
Proof.
  unfold numLotes, tamanoLote.
  pose proof (Nat.div_mod_eq (length datos + (100 - 1)) 100) as Hd.
  pose proof (Nat.mod_upper_bound (length datos + (100 - 1)) 100) as Hm.
  lia.
Qed.

Lemma lote_dentro (b : nat) :
  b < numLotes datos -> b * tamanoLote < length datos.
Proof.
  unfold numLotes, tamanoLote.
  pose proof (Nat.div_mod_eq (length datos + (100 - 1)) 100) as Hd.
  pose proof (Nat.mod_upper_bound (length datos + (100 - 1)) 100) as Hm.
  lia.
Qed.

Lemma loteNumero_length (b : nat) :
  length (loteNumero datos b)
  = Nat.min tamanoLote (length datos - b * tamanoLote).
Proof.
  unfold loteNumero, slice. rewrite length_firstn, length_skipn.
  f_equal. lia.
Qed.

Lemma loteNumero_no_vacio (b : nat) :
  b < numLotes datos -> 0 < length (loteNumero datos b).
Proof.
  intros Hb. rewrite loteNumero_length. apply lote_dentro in Hb.
  unfold tamanoLote in *. lia.
Qed.

(** Whatever the runner answers, the loop either leaves with an error of
    the driver or returns the sum of the sizes of the committed batches. *)
Lemma bucleLotes_general (cols : list ColumnaDefinicion.t) (k b total : nat)
  (logs : list LoteLog) :
  b + k = numLotes datos ->
  match bucleLotes E queryRunner nombreTabla cols datos (b * tamanoLote)
                   total logs with
  | Ok (t, l) =>
      t = total
          + list_sum (map (tamanoConfirmado queryRunner datos) (seq b k))
      /\ l = logs
             ++ logsConfirmados E queryRunner nombreTabla cols datos b k
  | Throw e => exists m, e = DriverError m
  end.
Proof.
  revert b total logs. induction k as [|k IH]; intros b total logs Hbk.
  - rewrite bucleLotes_fin.
    + unfold logsConfirmados. simpl. now rewrite Nat.add_0_r, app_nil_r.
    + pose proof numLotes_cubre. replace b with (numLotes datos) by lia. lia.
  - assert (Hb : b < numLotes datos) by lia.
    rewrite bucleLotes_paso by (now apply lote_dentro).
    cbv zeta.
    replace (b * tamanoLote / tamanoLote) with b
      by (symmetry; apply Nat.div_mul; discriminate).
    destruct (startTransaction queryRunner b); [|eauto].
    replace (b * tamanoLote + tamanoLote) with (S b * tamanoLote) by lia.
    assert (Hlote : slice (b * tamanoLote) (S b * tamanoLote) datos
                    = loteNumero datos b).
    { unfold loteNumero. f_equal. lia. }
    rewrite Hlote.
    unfold logsConfirmados. cbn [seq map filter list_sum fold_right].
    unfold tamanoConfirmado at 1.
    destruct (commitTransaction queryRunner b) eqn:Hc.
    + specialize (IH (S b) (total + length (loteNumero datos b))
                     (logs ++ [insertarLote E queryRunner nombreTabla cols b
                                 (loteNumero datos b)])
                     ltac:(lia)).
      destruct (bucleLotes _ _ _ _ _ _ _ _) as [[t l]|e]; [|exact IH].
      destruct IH as [-> ->]. unfold logsConfirmados.
      rewrite <- app_assoc. cbn [map app].
      split; [unfold list_sum; lia | reflexivity].
    + destruct (rollbackTransaction queryRunner b); [|eauto].
      specialize (IH (S b) total logs ltac:(lia)).
      destruct (bucleLotes _ _ _ _ _ _ _ _) as [[t l]|e]; exact IH.
Qed.

Section RunnerFiable.

Hypothesis inicia :
  forall b, b < numLotes datos -> startTransaction queryRunner b = true.
Hypothesis revierte :
  forall b, b < numLotes datos ->
            commitTransaction queryRunner b = false ->
            rollbackTransaction queryRunner b = true.

Lemma bucleLotes_desde (cols : list ColumnaDefinicion.t) (k b total : nat)
  (logs : list LoteLog) :
  b + k = numLotes datos ->
  bucleLotes E queryRunner nombreTabla cols datos (b * tamanoLote)
             total logs
  = Ok (total + list_sum (map (tamanoConfirmado queryRunner datos) (seq b k)),
        logs ++ logsConfirmados E queryRunner nombreTabla cols datos b k).
Proof.
  revert b total logs. induction k as [|k IH]; intros b total logs Hbk.
  - rewrite bucleLotes_fin.
    + simpl. unfold logsConfirmados. simpl.
      now rewrite Nat.add_0_r, app_nil_r.
    + pose proof numLotes_cubre. replace b with (numLotes datos) by lia. lia.
  - assert (Hb : b < numLotes datos) by lia.
    rewrite bucleLotes_paso by (now apply lote_dentro).
    cbv zeta.
    replace (b * tamanoLote / tamanoLote) with b
      by (symmetry; apply Nat.div_mul; discriminate).
    rewrite (inicia b Hb).
    replace (b * tamanoLote + tamanoLote) with (S b * tamanoLote) by lia.
    assert (Hlote : slice (b * tamanoLote) (S b * tamanoLote) datos
                    = loteNumero datos b).
    { unfold loteNumero. f_equal. lia. }
    rewrite Hlote.
    unfold logsConfirmados. cbn [seq map filter list_sum].
    unfold tamanoConfirmado at 1.
    destruct (commitTransaction queryRunner b) eqn:Hc.
    + rewrite IH by lia. cbn [map]. unfold logsConfirmados.
      rewrite <- app_assoc. cbn [app list_sum fold_right].
      now rewrite Nat.add_assoc.
    + rewrite (revierte b Hb Hc). rewrite IH by lia.
      cbn [list_sum fold_right]. reflexivity.
Qed.

End RunnerFiable.

Lemma totalConfirmado_cero :
  totalConfirmado queryRunner datos = 0
  <-> forall b, b < numLotes datos -> commitTransaction queryRunner b = false.
Proof.
  unfold totalConfirmado.
  assert (H : forall l,
             (forall b, In b l -> b < numLotes datos) ->
             list_sum (map (tamanoConfirmado queryRunner datos) l) = 0
             <-> forall b, In b l -> commitTransaction queryRunner b = false).
  { induction l as [|b r IH]; intros Hl; simpl.
    - split; [intros _ b [] | reflexivity].
    - assert (Hr : forall b', In b' r -> b' < numLotes datos)
        by (intros; apply Hl; simpl; auto).
      specialize (IH Hr).
      pose proof (loteNumero_no_vacio b (Hl b (or_introl eq_refl))) as Hpos.
      unfold tamanoConfirmado at 1.
      destruct (commitTransaction queryRunner b) eqn:Hc.
      + split; [lia | intros H; specialize (H b (or_introl eq_refl));
                      congruence].
      + simpl. rewrite IH. split.
        * intros H b' [<- | Hb']; auto.
        * intros H b' Hb'. apply H. auto. }
  rewrite H.
  - split; intros Hall b Hb; apply Hall; [apply in_seq; lia | apply in_seq in Hb; lia].
  - intros b Hb. apply in_seq in Hb. lia.
Qed.

Lemma insertarRegistros_cuenta (cols : list ColumnaDefinicion.t)
  (numLote pos : nat) (lote : list Registro) (log : LoteLog) :
  recordsProcessed (insertarRegistros E queryRunner nombreTabla cols numLote
                      pos lote log)
  + recordsFailed (insertarRegistros E queryRunner nombreTabla cols numLote
                     pos lote log)
  <= recordsProcessed log + recordsFailed log + length lote.
Proof.
  revert pos log. induction lote as [|registro resto IH]; intros pos log;
    [simpl; lia|].
  cbn [insertarRegistros length].
  set (log' := match insertarRegistro E queryRunner nombreTabla cols numLote
                       pos registro with
               | Skipped => log
               | Inserted => _
               | Failed => _
               end).
  specialize (IH (S pos) log').
  assert (Hpaso : recordsProcessed log' + recordsFailed log'
                  <= recordsProcessed log + recordsFailed log + 1).
  { unfold log'.
    destruct (insertarRegistro E queryRunner nombreTabla cols numLote pos
                registro); simpl; lia. }
  lia.
Qed.

Lemma logsConfirmados_cuenta (cols : list ColumnaDefinicion.t)
  (desde cuantos : nat) :
  let logs := logsConfirmados E queryRunner nombreTabla cols datos desde
                cuantos in
  list_sum (map recordsProcessed logs) + list_sum (map recordsFailed logs)
  <= list_sum (map (tamanoConfirmado queryRunner datos) (seq desde cuantos)).
Proof.
  cbv zeta. unfold logsConfirmados. revert desde.
  induction cuantos as [|k IH]; intros desde; [simpl; lia|].
  cbn [seq map filter list_sum fold_right]. unfold tamanoConfirmado at 1.
  specialize (IH (S desde)).
  destruct (commitTransaction queryRunner desde); [|exact IH].
  cbn [map list_sum fold_right].
  pose proof (insertarRegistros_cuenta cols desde 0
                (loteNumero datos desde)
                {| recordsProcessed := 0; recordsFailed := 0 |}) as Hc.
  unfold insertarLote, list_sum in *.
  cbn [recordsProcessed recordsFailed] in Hc. lia.
Qed.

(** C10.  The counter [totalRecords] of a load is the sum of the sizes of
    the batches whose transaction committed: whenever the load returns,
    it returns that sum, and the records that a committed batch skipped
    or failed to insert are counted in it, so the inserts and failures
    logged for the committed batches add up to at most that counter.  The
    load error of the empty insertion is thrown only when every batch was
    rolled back.  With a runner whose transactions start, and roll back
    when the commit fails, the load of a non-empty list throws that error
    when the sum is zero and returns otherwise, with the warning of a
    partial insertion when the sum is below the number of records. *)
Theorem contabilidad_por_lote (columnas : list ColumnaDefinicion.t) :
  datos <> [] ->
  let cols := corregirColumnas columnas datos in
  let total := totalConfirmado queryRunner datos in
  let logs := logsConfirmados E queryRunner nombreTabla cols datos 0
                (numLotes datos) in
  (forall rep,
      insertarDatosEnTabla E queryRunner nombreTabla columnas datos
      = Ok (Some rep) ->
      totalRecords rep = total
      /\ insercionParcial rep = (total <? length datos)%nat
      /\ lotesConfirmados rep = logs)
  /\ (insertarDatosEnTabla E queryRunner nombreTabla columnas datos
      = Throw (InternalServerErrorException mensajeNingunRegistro) ->
      forall b, b < numLotes datos ->
                commitTransaction queryRunner b = false)
  /\ list_sum (map recordsProcessed logs) + list_sum (map recordsFailed logs)
     <= total
  /\ ((forall b, b < numLotes datos ->
                 startTransaction queryRunner b = true) ->
      (forall b, b < numLotes datos ->
                 commitTransaction queryRunner b = false ->
                 rollbackTransaction queryRunner b = true) ->
      insertarDatosEnTabla E queryRunner nombreTabla columnas datos
      = (if (total =? 0)%nat
         then Throw (InternalServerErrorException mensajeNingunRegistro)
         else Ok (Some {| totalRecords := total;
                          insercionParcial := (total <? length datos)%nat;
                          lotesConfirmados := logs |}))).
Proof.
  intros Hdatos cols total logs.
  rewrite insertarDatosEnTabla_no_vacio by exact Hdatos. fold cols.
  split; [| split; [| split]].
  - intros rep.
    pose proof (bucleLotes_general cols (numLotes datos) 0 0 [] eq_refl) as Hg.
    rewrite Nat.mul_0_l in Hg.
    destruct (bucleLotes _ _ _ _ _ _ _ _) as [[t l]|e]; [|discriminate].
    destruct Hg as [-> ->]. cbn [bind fst snd].
    destruct (_ =? 0)%nat; [discriminate|].
    intros [= <-]. repeat split.
  - pose proof (bucleLotes_general cols (numLotes datos) 0 0 [] eq_refl) as Hg.
    rewrite Nat.mul_0_l in Hg.
    destruct (bucleLotes _ _ _ _ _ _ _ _) as [[t l]|e].
    + destruct Hg as [-> _]. cbn [bind fst snd].
      destruct (_ =? 0)%nat eqn:Ht; [|discriminate].
      intros _. apply Nat.eqb_eq in Ht. now apply totalConfirmado_cero.
    + destruct Hg as [m ->]. discriminate.
  - apply logsConfirmados_cuenta.
  - intros inicia revierte.
    pose proof (bucleLotes_desde inicia revierte cols (numLotes datos) 0 0 [])
      as Hb.
    rewrite Nat.mul_0_l in Hb. rewrite Hb by reflexivity.
    reflexivity.
Qed.

End LoaderFacts.

Lemma contabilidad_por_lote_witness :
  insertarDatosEnTabla motorEjemplo runnerEjemplo "compras" columnasEjemplo
    datosEjemplo
  = Ok (Some {| totalRecords := 2;
                insercionParcial := false;
                lotesConfirmados :=
                  [ {| recordsProcessed := 1; recordsFailed := 1 |} ] |}).
Proof.
  rewrite (proj2 (proj2 (proj2
             (contabilidad_por_lote motorEjemplo runnerEjemplo "compras"
                datosEjemplo columnasEjemplo ltac:(discriminate))))
             ltac:(reflexivity) ltac:(reflexivity)).
  reflexivity.
Defined.

(** C1.  The code at the failing input: of two records the engine
    refuses one, and of one record it refuses that one; both loads
    return with every record counted as inserted, without the warning of
    a partial insertion and without the load error, although the log of
    the batch counts the refused record as failed. *)
Theorem carga_cuenta_registros_fallidos :
  insertarDatosEnTabla motorEjemplo runnerEjemplo "compras" columnasEjemplo
    datosEjemplo
  = Ok (Some {| totalRecords := 2;
                insercionParcial := false;
                lotesConfirmados :=
                  [ {| recordsProcessed := 1; recordsFailed := 1 |} ] |})
  /\ insertarDatosEnTabla motorEjemplo runnerEjemplo "compras" columnasEjemplo
       [ [("cantidad", JString "900000000000000000000000")] ]
     = Ok (Some {| totalRecords := 1;
                   insercionParcial := false;
                   lotesConfirmados :=
                     [ {| recordsProcessed := 0; recordsFailed := 1 |} ] |}).
Proof. split; vm_compute; reflexivity. Qed.


(* ================================================================== *)
(** * Further properties *)
(* ================================================================== *)

(** ** Enumeration of an object, again *)

Section EntriesIdem.

Context {V : Type}.
Implicit Types (o : Obj.t V).

Lemma indexed_app o1 o2 :
  Obj.indexed (o1 ++ o2) = Obj.indexed o1 ++ Obj.indexed o2.
Proof.
  induction o1 as [|kv r IH]; simpl; [reflexivity|].
  destruct (Obj.array_index (fst kv)); simpl; now rewrite IH.
Qed.

Lemma named_app o1 o2 : Obj.named (o1 ++ o2) = Obj.named o1 ++ Obj.named o2.
Proof. unfold Obj.named. apply filter_app. Qed.

Lemma indexed_named o : Obj.indexed (Obj.named o) = [].
Proof.
  unfold Obj.named. induction o as [|kv r IH]; simpl; [reflexivity|].
  destruct (Obj.array_index (fst kv)) eqn:Hi; simpl; [exact IH|].
  now rewrite Hi.
Qed.

Lemma named_named o : Obj.named (Obj.named o) = Obj.named o.
Proof.
  unfold Obj.named. induction o as [|kv r IH]; simpl; [reflexivity|].
  destruct (Obj.array_index (fst kv)) eqn:Hi; simpl; [exact IH|].
  now rewrite Hi, IH.
Qed.

Lemma indexed_correcto o : Forall indice_correcto (Obj.indexed o).
Proof.
  induction o as [|kv r IH]; simpl; [constructor|].
  destruct (Obj.array_index (fst kv)) eqn:Hi; [|exact IH].
  constructor; [exact Hi | exact IH].
Qed.

Lemma indexed_map_snd (l : list (N * (string * V))) :
  Forall indice_correcto l -> Obj.indexed (map snd l) = l.
Proof.
  induction 1 as [|[n kv] r Hx Hr IH]; simpl; [reflexivity|].
  unfold indice_correcto in Hx. simpl in Hx. rewrite Hx, IH. reflexivity.
Qed.

Lemma named_map_snd (l : list (N * (string * V))) :
  Forall indice_correcto l -> Obj.named (map snd l) = [].
Proof.
  unfold Obj.named.
  induction 1 as [|[n kv] r Hx Hr IH]; simpl; [reflexivity|].
  unfold indice_correcto in Hx. simpl in Hx. now rewrite Hx.
Qed.

Lemma sort_by_index_sorted_id (l : list (N * (string * V))) :
  StronglySorted index_le l -> Obj.sort_by_index l = l.
Proof.
  induction 1 as [|x r Hr IH Hx]; simpl; [reflexivity|].
  rewrite IH. now apply insert_by_index_head.
Qed.

(** Enumerating an enumeration changes nothing. *)
Lemma Obj_entries_idem o : Obj.entries (Obj.entries o) = Obj.entries o.
Proof.
  unfold Obj.entries at 1.
  assert (Hc : Forall indice_correcto (Obj.sort_by_index (Obj.indexed o))).
  { eapply Permutation_Forall;
      [symmetry; apply sort_by_index_perm | apply indexed_correcto]. }
  unfold Obj.entries.
  rewrite indexed_app, named_app, indexed_named, named_named, app_nil_r.
  rewrite (indexed_map_snd _ Hc), (named_map_snd _ Hc).
  rewrite sort_by_index_sorted_id by apply sort_by_index_sorted.
  reflexivity.
Qed.

Lemma Obj_get_entries o (k : string) :
  NoDup (map fst o) -> Obj.get (Obj.entries o) k = Obj.get o k.
Proof.
  intros Hnd. destruct (Obj.get o k) as [v|] eqn:Hg.
  - apply Obj_In_get; [now apply Obj_entries_NoDup|].
    apply Obj_entries_In. now apply Obj_get_In.
  - apply Obj_get_None. apply Obj_get_None in Hg.
    intros Hin. apply Hg. apply (proj1 (Obj_keys_In o k)). exact Hin.
Qed.

End EntriesIdem.

(** ** detectarSeparadorCSV *)

Lemma count_char_le (c : ascii) (s : string) :
  count_char c s <= String.length s.
Proof.
  induction s as [|d r IH]; simpl; [lia|].
  destruct (Ascii.eqb c d); lia.
Qed.

Lemma elegirSeparador_cota (fragment : string) (estado : ascii * nat)
  (sep : ascii) :
  (Js.code sep =? 124)%N = false ->
  snd estado <= String.length fragment ->
  snd (elegirSeparador fragment estado sep) <= String.length fragment.
Proof.
  intros Hsep Hmax. destruct estado as [mejor maxOc].
  unfold elegirSeparador, contarCoincidencias. rewrite Hsep.
  pose proof (count_char_le sep fragment).
  destruct (maxOc <? count_char sep fragment)%nat; simpl in *; lia.
Qed.

(** X1.  Whatever a readable file holds, the separator detected is the
    bar: the pattern built from it matches the empty string at every
    position, so its count always exceeds the count of a comma, a
    semicolon or a tab.  The comma is the answer only when the file
    cannot be read. *)
Theorem detectarSeparadorCSV_barra (contenido : string) :
  detectarSeparadorCSV (Some contenido) = "|"%char
  /\ detectarSeparadorCSV None = ","%char.
Proof.
  split; [|reflexivity].
  unfold detectarSeparadorCSV, separadores.
  set (fragment := string_head 1000 contenido).
  cbn [fold_left].
  set (e3 := elegirSeparador fragment
               (elegirSeparador fragment
                  (elegirSeparador fragment (","%char, 0) ","%char)
                  ";"%char) tabulador).
  assert (H3 : snd e3 <= String.length fragment).
  { unfold e3. repeat (apply elegirSeparador_cota; [reflexivity|]).
    simpl. lia. }
  destruct e3 as [mejor maxOc]. simpl in H3.
  unfold elegirSeparador, contarCoincidencias.
  change (Js.code "|"%char =? 124)%N with true. cbv iota.
  assert (Hlt : (maxOc <? S (String.length fragment))%nat = true)
    by (apply Nat.ltb_lt; lia).
  rewrite Hlt. reflexivity.
Qed.

(** ** analizarEstructuraColumnas, the whole structure *)

Lemma Set_add_NoDup (s : list string) (x : string) :
  NoDup s -> NoDup (Set_add s x).
Proof.
  intros Hs. unfold Set_add. destruct (Js.includes s x) eqn:Hi; [exact Hs|].
  apply NoDup_app; [exact Hs | repeat constructor; intros [] |].
  intros y Hy [<- | []].
  apply includes_In in Hy. congruence.
Qed.

Lemma todasLasColumnas_NoDup (datos : list Registro) :
  NoDup (todasLasColumnas datos).
Proof.
  unfold todasLasColumnas.
  assert (H : forall s, NoDup s ->
            NoDup (fold_left (fun s registro =>
                                fold_left Set_add (Obj.keys registro) s)
                             datos s)).
  { induction datos as [|r rs IH]; intros s Hs; simpl; [exact Hs|].
    apply IH. generalize dependent s.
    induction (Obj.keys r) as [|k ks IHk]; intros s Hs; simpl; [exact Hs|].
    apply IHk. now apply Set_add_NoDup. }
  apply H. constructor.
Qed.

Lemma tipoDesdeTexto_rango (valores : list JsValue) :
  In (tipoDesdeTexto valores) ["text"; "int"; "decimal"].
Proof.
  unfold tipoDesdeTexto.
  destruct (existsb esValorNoNumerico valores); [simpl; auto|].
  destruct (_ =? _)%nat; [|simpl; auto].
  destruct (existsb _ _); simpl; auto.
Qed.

Lemma tipoDeColumna_rango (valores : list JsValue) :
  In (tipoDeColumna valores) ["text"; "int"; "decimal"; "date"; "boolean"].
Proof.
  unfold tipoDeColumna. destruct valores as [|primero resto]; [simpl; auto|].
  destruct (is_number primero).
  { destruct (negb _); [simpl; auto|].
    destruct (existsb _ _); simpl; auto. }
  destruct (instanceof_Date primero).
  { destruct (negb _); simpl; auto. }
  destruct (is_boolean primero).
  { destruct (negb _); simpl; auto 6. }
  destruct (is_string primero); [|simpl; auto].
  pose proof (tipoDesdeTexto_rango (primero :: resto)) as H.
  simpl in H |- *. intuition.
Qed.

Lemma analizarEstructuraColumnas_nombres (datos : list Registro) :
  map ColumnaDefinicion.nombre (analizarEstructuraColumnas datos)
  = todasLasColumnas datos.
Proof.
  destruct datos as [|r rs]; [reflexivity|].
  unfold analizarEstructuraColumnas. rewrite map_map. simpl.
  apply map_id.
Qed.

Lemma analizarEstructuraColumnas_tipo (datos : list Registro)
  (col : ColumnaDefinicion.t) :
  In col (analizarEstructuraColumnas datos) ->
  In (ColumnaDefinicion.tipo col)
     ["text"; "int"; "decimal"; "date"; "boolean"].
Proof.
  intros Hin. destruct datos as [|r rs]; [contradiction|].
  unfold analizarEstructuraColumnas in Hin. apply in_map_iff in Hin.
  destruct Hin as [k [<- _]]. apply tipoDeColumna_rango.
Qed.

(** X2.  The structure inferred from the records of a file has one
    column for each key that occurs in some record, and no other; no
    name occurs twice; every column is nullable and its type is one of
    text, int, decimal, date and boolean (never varchar or timestamp). *)
Theorem estructura_inferida (datos : list Registro) :
  let estructura := analizarEstructuraColumnas datos in
  NoDup (map ColumnaDefinicion.nombre estructura)
  /\ (forall k,
         In k (map ColumnaDefinicion.nombre estructura)
         <-> exists registro, In registro datos /\ In k (Obj.keys registro))
  /\ (forall col,
         In col estructura ->
         ColumnaDefinicion.esNullable col = true
         /\ In (ColumnaDefinicion.tipo col)
               ["text"; "int"; "decimal"; "date"; "boolean"]).
Proof.
  cbv zeta. rewrite analizarEstructuraColumnas_nombres.
  split; [apply todasLasColumnas_NoDup|].
  split; [intros k; apply todasLasColumnas_In|].
  intros col Hin. destruct datos as [|r rs]; [contradiction|].
  unfold analizarEstructuraColumnas in Hin. apply in_map_iff in Hin.
  destruct Hin as [k [<- _]]. cbn [ColumnaDefinicion.esNullable
                                    ColumnaDefinicion.tipo].
  split; [reflexivity | apply tipoDeColumna_rango].
Qed.

Lemma estructura_inferida_witness :
  let datos : list Registro :=
    [ [("a", JNumber (Finite 1 0))]; [("b", JString "x"); ("a", JNull)] ] in
  In "b" (map ColumnaDefinicion.nombre (analizarEstructuraColumnas datos))
  /\ map ColumnaDefinicion.tipo (analizarEstructuraColumnas datos)
     = ["int"; "text"].
Proof.
  intros datos. split; [|reflexivity].
  apply (proj1 (proj2 (estructura_inferida datos))).
  exists [("b", JString "x"); ("a", JNull)].
  split; [right; left; reflexivity | left; reflexivity].
Defined.

(** ** sanitizarValoresLargos *)

Lemma substring_0_length (n : nat) (s : string) :
  String.length (substring 0 n s) = Nat.min n (String.length s).
Proof.
  revert n. induction s as [|c r IH]; intros [|n]; simpl; try reflexivity.
  now rewrite IH.
Qed.

Lemma prop_set (o : Registro) (k k' : string) (v : JsValue) :
  prop (Obj.set o k v) k' = if String.eqb k' k then v else prop o k'.
Proof.
  unfold prop. rewrite Obj_get_set. now destruct (String.eqb k' k).
Qed.

Lemma prop_entries (o : Registro) (k : string) :
  NoDup (map fst o) -> prop (Obj.entries o) k = prop o k.
Proof. intros H. unfold prop. now rewrite Obj_get_entries. Qed.

Lemma prop_JString_key (o : Registro) (k s : string) :
  prop o k = JString s -> In k (map fst o).
Proof.
  unfold prop. destruct (Obj.get o k) as [v|] eqn:Hg; [|discriminate].
  intros _. apply Obj_get_In in Hg. apply in_map_iff. now exists (k, v).
Qed.

Lemma truncarColumna_keys (nuevo : Registro) (col : ColumnaDefinicion.t)
  (k : string) :
  In k (map fst (truncarColumna nuevo col)) <-> In k (map fst nuevo).
Proof.
  unfold truncarColumna.
  destruct (prop nuevo (ColumnaDefinicion.nombre col)) eqn:Hp;
    try reflexivity.
  destruct (_ && _); [|reflexivity].
  rewrite Obj_set_keys. apply prop_JString_key in Hp.
  split; [intros [-> | H]; assumption | auto].
Qed.

Lemma truncarColumna_valor (nuevo : Registro) (col : ColumnaDefinicion.t)
  (k : string) :
  igual_o_truncado (prop nuevo k) (prop (truncarColumna nuevo col) k).
Proof.
  unfold truncarColumna.
  destruct (prop nuevo (ColumnaDefinicion.nombre col)) eqn:Hp;
    try (left; reflexivity).
  destruct (String.eqb (ColumnaDefinicion.tipo col) "varchar"); simpl;
    [|left; reflexivity].
  destruct (250 <? String.length s)%nat eqn:Hl; [|left; reflexivity].
  apply Nat.ltb_lt in Hl. rewrite prop_set.
  destruct (String.eqb k (ColumnaDefinicion.nombre col)) eqn:Hk;
    [|left; reflexivity].
  apply String.eqb_eq in Hk. subst k. right. exists s. auto.
Qed.

Lemma igual_o_truncado_trans (v1 v2 v3 : JsValue) :
  igual_o_truncado v1 v2 -> igual_o_truncado v2 v3 -> igual_o_truncado v1 v3.
Proof.
  intros [-> | [s [-> [Hl ->]]]] H23; [exact H23|].
  destruct H23 as [-> | [s' [Heq [Hl' _]]]].
  - right. exists s. auto.
  - injection Heq as <-. rewrite substring_0_length in Hl'. lia.
Qed.

Lemma igual_o_truncado_no_largo (v v' : JsValue) :
  igual_o_truncado v v' -> no_es_largo v -> no_es_largo v'.
Proof.
  intros [-> | [s [-> [_ ->]]]] H; [exact H|].
  simpl. rewrite substring_0_length. lia.
Qed.

Lemma truncarColumna_acota (nuevo : Registro) (col : ColumnaDefinicion.t) :
  ColumnaDefinicion.tipo col = "varchar" ->
  no_es_largo (prop (truncarColumna nuevo col) (ColumnaDefinicion.nombre col)).
Proof.
  intros Ht. unfold truncarColumna.
  destruct (prop nuevo (ColumnaDefinicion.nombre col)) eqn:Hp;
    try (rewrite Hp; exact I).
  rewrite Ht, String.eqb_refl. simpl.
  destruct (250 <? String.length s)%nat eqn:Hl.
  - rewrite prop_set, String.eqb_refl. simpl.
    rewrite substring_0_length. lia.
  - rewrite Hp. simpl. apply Nat.ltb_ge in Hl. exact Hl.
Qed.

Lemma fold_truncar (columnas : list ColumnaDefinicion.t) (nuevo : Registro) :
  let final := fold_left truncarColumna columnas nuevo in
  (forall k, In k (map fst final) <-> In k (map fst nuevo))
  /\ (forall k, igual_o_truncado (prop nuevo k) (prop final k))
  /\ (forall col, In col columnas ->
                  ColumnaDefinicion.tipo col = "varchar" ->
                  no_es_largo (prop final (ColumnaDefinicion.nombre col))).
Proof.
  revert nuevo. induction columnas as [|c cs IH]; intros nuevo; simpl.
  - split; [tauto|]. split; [intros k; left; reflexivity|].
    intros col [].
  - destruct (IH (truncarColumna nuevo c)) as [Hk [Hv Hl]].
    split; [| split].
    + intros k. rewrite Hk. apply truncarColumna_keys.
    + intros k. eapply igual_o_truncado_trans;
        [apply truncarColumna_valor | apply Hv].
    + intros col [<- | Hin] Ht; [| now apply Hl].
      eapply igual_o_truncado_no_largo; [apply Hv|].
      now apply truncarColumna_acota.
Qed.

Lemma fold_truncar_sin_varchar (columnas : list ColumnaDefinicion.t)
  (nuevo : Registro) :
  (forall col, In col columnas -> ColumnaDefinicion.tipo col <> "varchar") ->
  fold_left truncarColumna columnas nuevo = nuevo.
Proof.
  revert nuevo. induction columnas as [|c cs IH]; intros nuevo Hno; simpl;
    [reflexivity|].
  assert (Hc : truncarColumna nuevo c = nuevo).
  { unfold truncarColumna.
    destruct (prop nuevo (ColumnaDefinicion.nombre c)); try reflexivity.
    destruct (String.eqb (ColumnaDefinicion.tipo c) "varchar") eqn:He;
      [|reflexivity].
    apply String.eqb_eq in He. exfalso. apply (Hno c); simpl; auto. }
  rewrite Hc. apply IH. intros col Hin. apply Hno. simpl. auto.
Qed.

(** X3.  [sanitizarValoresLargos] keeps the number and the order of the
    records and the keys of each record; every value is kept, or is a
    text of more than 250 characters cut to its first 250; afterwards no
    column declared varchar holds a text of more than 250 characters. *)
Theorem sanitizarValoresLargos_acota (datos : list Registro)
  (columnas : list ColumnaDefinicion.t) :
  length (sanitizarValoresLargos datos columnas) = length datos
  /\ forall i registro,
       nth_error datos i = Some registro ->
       NoDup (map fst registro) ->
       exists nuevo,
         nth_error (sanitizarValoresLargos datos columnas) i = Some nuevo
         /\ (forall k, In k (map fst nuevo) <-> In k (map fst registro))
         /\ (forall k, igual_o_truncado (prop registro k) (prop nuevo k))
         /\ (forall col,
                In col columnas ->
                ColumnaDefinicion.tipo col = "varchar" ->
                no_es_largo (prop nuevo (ColumnaDefinicion.nombre col))).
Proof.
  unfold sanitizarValoresLargos. split; [apply length_map|].
  intros i registro Hi Hnd.
  exists (fold_left truncarColumna columnas (Obj.spread registro)).
  split; [exact (map_nth_error _ i datos Hi)|].
  destruct (fold_truncar columnas (Obj.spread registro)) as [Hk [Hv Hl]].
  split; [| split; [| exact Hl]].
  - intros k. rewrite Hk. apply (Obj_keys_In registro k).
  - intros k. specialize (Hv k). unfold Obj.spread in Hv.
    now rewrite prop_entries in Hv.
Qed.

(** X4.  No column of an inferred structure is a varchar, so on such a
    structure [sanitizarValoresLargos] truncates nothing: every record
    comes back as the copy of itself, with the entries it had, in the
    order it had them. *)
Theorem sanitizarValoresLargos_inferida (datos datosArchivo : list Registro) :
  sanitizarValoresLargos datos (analizarEstructuraColumnas datosArchivo)
  = map Obj.spread datos
  /\ map Obj.entries
         (sanitizarValoresLargos datos
            (analizarEstructuraColumnas datosArchivo))
     = map Obj.entries datos.
Proof.
  assert (H : sanitizarValoresLargos datos
                (analizarEstructuraColumnas datosArchivo)
              = map Obj.spread datos).
  { unfold sanitizarValoresLargos. apply map_ext. intros registro.
    apply fold_truncar_sin_varchar. intros col Hin Ht.
    pose proof (analizarEstructuraColumnas_tipo datosArchivo col Hin) as Hr.
    rewrite Ht in Hr. simpl in Hr. intuition discriminate. }
  split; [exact H|]. rewrite H, map_map. apply map_ext.
  intros registro. apply Obj_entries_idem.
Qed.

Lemma sanitizarValoresLargos_acota_witness :
  exists nuevo,
    nth_error (sanitizarValoresLargos
                 [ [("nota", JString (repetir 300 "a"%char))] ]
                 [ columnaVarchar "nota" ]) 0 = Some nuevo
    /\ no_es_largo (prop nuevo "nota").
Proof.
  destruct (proj2 (sanitizarValoresLargos_acota
                     [ [("nota", JString (repetir 300 "a"%char))] ]
                     [ columnaVarchar "nota" ])
              0 [("nota", JString (repetir 300 "a"%char))] eq_refl)
    as [nuevo [Hn [_ [_ Hl]]]].
  - repeat constructor. intros [].
  - exists nuevo. split; [exact Hn|].
    apply (Hl (columnaVarchar "nota")); [left; reflexivity | reflexivity].
Defined.

(** ** corregirColumnas *)

Lemma prop_en_values (registro : Registro) (k : string) :
  prop registro k = JUndefined \/ In (prop registro k) (Obj.values registro).
Proof.
  unfold prop. destruct (Obj.get registro k) as [v|] eqn:Hg; [|now left].
  right. apply Obj_get_In in Hg. apply Obj_entries_In in Hg.
  unfold Obj.values. apply in_map_iff. now exists (k, v).
Qed.

(** X5.  [corregirColumnas] keeps the names, the order and the
    nullability of the columns and changes a type only from int to
    decimal; afterwards no column of type int holds, in any record, a
    number that is not an integer. *)
Theorem corregirColumnas_invariante (columnas : list ColumnaDefinicion.t)
  (datos : list Registro) :
  let corregidas := corregirColumnas columnas datos in
  map ColumnaDefinicion.nombre corregidas
  = map ColumnaDefinicion.nombre columnas
  /\ map ColumnaDefinicion.esNullable corregidas
     = map ColumnaDefinicion.esNullable columnas
  /\ Forall2 (fun col col' =>
                ColumnaDefinicion.tipo col' = ColumnaDefinicion.tipo col
                \/ (ColumnaDefinicion.tipo col = "int"
                    /\ ColumnaDefinicion.tipo col' = "decimal"))
             columnas corregidas
  /\ (forall col registro,
         In col corregidas -> In registro datos ->
         ColumnaDefinicion.tipo col = "int" ->
         es_numero_decimal (prop registro (ColumnaDefinicion.nombre col))
         = false).
Proof.
  cbv zeta. unfold corregirColumnas.
  destruct (existsb (fun registro =>
                       existsb es_numero_decimal (Obj.values registro))
                    datos) eqn:Hhay.
  - set (f := fun col : ColumnaDefinicion.t => _).
    assert (Hf : forall col,
               ColumnaDefinicion.nombre (f col) = ColumnaDefinicion.nombre col
               /\ ColumnaDefinicion.esNullable (f col)
                  = ColumnaDefinicion.esNullable col
               /\ (ColumnaDefinicion.tipo (f col) = ColumnaDefinicion.tipo col
                   \/ (ColumnaDefinicion.tipo col = "int"
                       /\ ColumnaDefinicion.tipo (f col) = "decimal"))
               /\ (ColumnaDefinicion.tipo (f col) = "int" ->
                   existsb (fun reg =>
                              es_numero_decimal
                                (prop reg (ColumnaDefinicion.nombre col)))
                           datos = false)).
    { intros col. unfold f.
      destruct (String.eqb (ColumnaDefinicion.tipo col) "int") eqn:Hint.
      - apply String.eqb_eq in Hint.
        destruct (existsb (fun reg =>
                             es_numero_decimal
                               (prop reg (ColumnaDefinicion.nombre col)))
                          datos) eqn:Hdec; simpl.
        + repeat split; auto. discriminate.
        + repeat split; auto.
      - apply String.eqb_neq in Hint. repeat split; auto.
        intros H. contradiction. }
    split; [| split; [| split]].
    + rewrite map_map. apply map_ext. intros col. apply Hf.
    + rewrite map_map. apply map_ext. intros col. apply Hf.
    + induction columnas as [|c cs IH]; simpl; constructor; [apply Hf | exact IH].
    + intros col registro Hin Hreg Htipo. apply in_map_iff in Hin.
      destruct Hin as [col0 [<- _]].
      destruct (Hf col0) as [Hn [_ [_ Hno]]]. rewrite Hn.
      specialize (Hno Htipo).
      destruct (es_numero_decimal _) eqn:Hd; [|reflexivity].
      assert (Hex : existsb (fun reg =>
                      es_numero_decimal
                        (prop reg (ColumnaDefinicion.nombre col0))) datos
                    = true)
        by (apply existsb_exists; now exists registro).
      congruence.
  - split; [reflexivity|]. split; [reflexivity|]. split.
    + induction columnas; constructor; auto.
    + intros col registro _ Hreg _.
      destruct (es_numero_decimal _) eqn:Hd; [|reflexivity].
      destruct (prop_en_values registro (ColumnaDefinicion.nombre col))
        as [Hu | Hv]; [rewrite Hu in Hd; discriminate|].
      assert (Hex : existsb (fun registro =>
                      existsb es_numero_decimal (Obj.values registro)) datos
                    = true).
      { apply existsb_exists. exists registro. split; [exact Hreg|].
        apply existsb_exists. eauto. }
      congruence.
Qed.

Lemma corregirColumnas_invariante_witness :
  let columnaInt := fun nombre =>
    {| ColumnaDefinicion.nombre := nombre;
       ColumnaDefinicion.tipo := "int";
       ColumnaDefinicion.esNullable := true |} in
  let registro : Registro :=
    [ ("precio", JNumber (Finite 25 1)); ("cantidad", JNumber (Finite 3 0)) ]
  in
  map ColumnaDefinicion.tipo
      (corregirColumnas [columnaInt "precio"; columnaInt "cantidad"]
                        [registro])
  = ["decimal"; "int"]
  /\ es_numero_decimal (prop registro "cantidad") = false.
Proof.
  intros columnaInt registro. split; [reflexivity|].
  apply (proj2 (proj2 (proj2
           (corregirColumnas_invariante
              [columnaInt "precio"; columnaInt "cantidad"] [registro])))
           (columnaInt "cantidad") registro).
  - right. left. reflexivity.
  - left. reflexivity.
  - reflexivity.
Defined.

(** ** insertarLote: the fields of a record that reach the INSERT *)

Lemma corregirColumnas_nombres (columnas : list ColumnaDefinicion.t)
  (datos : list Registro) :
  map ColumnaDefinicion.nombre (corregirColumnas columnas datos)
  = map ColumnaDefinicion.nombre columnas.
Proof.
  unfold corregirColumnas.
  destruct (existsb (fun registro =>
                       existsb es_numero_decimal (Obj.values registro))
                    datos); [|reflexivity].
  rewrite map_map. apply map_ext. intros col.
  destruct (String.eqb (ColumnaDefinicion.tipo col) "int"); [|reflexivity].
  destruct (existsb (fun reg =>
                       es_numero_decimal
                         (prop reg (ColumnaDefinicion.nombre col))) datos);
    reflexivity.
Qed.

Section CamposInsertados.

Variable E : Engine.

Lemma columnasMap_keys (columnas : list ColumnaDefinicion.t)
  (acc : Obj.t ColumnaDefinicion.t) (k : string) :
  In k (map fst (fold_left (fun m col =>
                              Obj.set m (ColumnaDefinicion.nombre col) col)
                           columnas acc))
  <-> In k (map fst acc) \/ In k (map ColumnaDefinicion.nombre columnas).
Proof.
  revert acc. induction columnas as [|c cs IH]; intros acc; simpl; [tauto|].
  rewrite IH, Obj_set_keys. intuition congruence.
Qed.

Lemma construirColumnasMap_has (columnas : list ColumnaDefinicion.t)
  (k : string) :
  Obj.get (construirColumnasMap columnas) k = None
  <-> ~ In k (map ColumnaDefinicion.nombre columnas).
Proof.
  unfold construirColumnasMap. rewrite Obj_get_None, columnasMap_keys.
  simpl. tauto.
Qed.

(** The columns kept for a record, whatever the structure. *)
Lemma filtrarRegistro_fold (columnas : list ColumnaDefinicion.t)
  (registro : Registro) (l : list string) (acc : list string * list JsValue) :
  let final :=
    fold_left
      (fun acc nombreColumna =>
         let valor := prop registro nombreColumna in
         if negb (is_nullish valor) then
           match Obj.get (construirColumnasMap columnas) nombreColumna with
           | Some columnaInfo =>
               (fst acc ++ [nombreColumna],
                snd acc ++ [sanitizarValorSegunTipo E valor
                              (ColumnaDefinicion.tipo columnaInfo)])
           | None => acc
           end
         else acc) l acc in
  fst final
  = fst acc
    ++ filter (fun k => negb (is_nullish (prop registro k))
                        && Js.includes
                             (map ColumnaDefinicion.nombre columnas) k) l
  /\ length (snd final) + length (fst acc)
     = length (fst final) + length (snd acc).
Proof.
  revert acc. induction l as [|k ks IH]; intros acc; simpl.
  - rewrite app_nil_r. split; [reflexivity | lia].
  - pose proof (construirColumnasMap_has columnas k) as Hhas.
    pose proof (includes_In (map ColumnaDefinicion.nombre columnas) k) as Hinc.
    destruct (negb (is_nullish (prop registro k))); simpl.
    + destruct (Obj.get (construirColumnasMap columnas) k) as [c|] eqn:Hg.
      * assert (Hi : Js.includes (map ColumnaDefinicion.nombre columnas) k
                     = true).
        { apply Hinc.
          destruct (in_dec string_dec k
                      (map ColumnaDefinicion.nombre columnas)) as [H | H];
            [exact H | apply Hhas in H; discriminate]. }
        rewrite Hi.
        destruct (IH (fst acc ++ [k],
                      snd acc ++ [sanitizarValorSegunTipo E (prop registro k)
                                    (ColumnaDefinicion.tipo c)]))
          as [Hf Hl].
        cbv zeta in Hf, Hl. cbn [fst snd] in Hf, Hl. split.
        -- rewrite Hf, <- app_assoc. reflexivity.
        -- rewrite !length_app in Hl. cbn [length] in Hl. lia.
      * assert (Hi : Js.includes (map ColumnaDefinicion.nombre columnas) k
                     = false).
        { destruct (Js.includes (map ColumnaDefinicion.nombre columnas) k);
            [|reflexivity].
          exfalso. apply (proj1 Hhas eq_refl). now apply Hinc. }
        rewrite Hi. apply IH.
    + apply IH.
Qed.

(** X6.  The INSERT of a record names, in enumeration order, exactly the
    keys of the record that hold a value other than null and undefined
    and that are columns of the structure, and binds one parameter for
    each of them.  With the structure inferred from the records
    themselves (and corrected for the load) every key is a column, so no
    field of a record is left out. *)
Theorem filtrarRegistro_campos (columnas : list ColumnaDefinicion.t)
  (registro : Registro) :
  fst (filtrarRegistro E columnas registro)
  = filter (fun k => negb (is_nullish (prop registro k))
                     && Js.includes (map ColumnaDefinicion.nombre columnas) k)
           (Obj.keys registro)
  /\ length (snd (filtrarRegistro E columnas registro))
     = length (fst (filtrarRegistro E columnas registro))
  /\ (forall datos,
         In registro datos ->
         fst (filtrarRegistro E
                (corregirColumnas (analizarEstructuraColumnas datos) datos)
                registro)
         = filter (fun k => negb (is_nullish (prop registro k)))
                  (Obj.keys registro)).
Proof.
  assert (Hgen : forall cols,
             fst (filtrarRegistro E cols registro)
             = filter (fun k => negb (is_nullish (prop registro k))
                                && Js.includes
                                     (map ColumnaDefinicion.nombre cols) k)
                      (Obj.keys registro)
             /\ length (snd (filtrarRegistro E cols registro))
                = length (fst (filtrarRegistro E cols registro))).
  { intros cols. unfold filtrarRegistro.
    destruct (filtrarRegistro_fold cols registro (Obj.keys registro) ([], []))
      as [Hf Hl].
    cbv zeta in Hf, Hl. simpl in Hf, Hl. split; [exact Hf | lia]. }
  split; [apply Hgen|]. split; [apply Hgen|].
  intros datos Hin. rewrite (proj1 (Hgen _)).
  apply filter_ext_in. intros k Hk.
  assert (Hcol : Js.includes
                   (map ColumnaDefinicion.nombre
                        (corregirColumnas (analizarEstructuraColumnas datos)
                                          datos)) k = true).
  { apply includes_In.
    assert (Hn : map ColumnaDefinicion.nombre
                     (corregirColumnas (analizarEstructuraColumnas datos)
                                       datos)
                 = todasLasColumnas datos)
      by (rewrite corregirColumnas_nombres;
          apply analizarEstructuraColumnas_nombres).
    rewrite Hn. apply todasLasColumnas_In. eauto. }
  rewrite Hcol. apply andb_true_r.
Qed.

End CamposInsertados.

Lemma filtrarRegistro_campos_witness :
  let registro : Registro :=
    [ ("b", JString "x"); ("a", JNull); ("c", JNumber (Finite 1 0)) ] in
  fst (filtrarRegistro motorEjemplo
         (corregirColumnas
            (analizarEstructuraColumnas [ [("a", JString "1")]; registro ])
            [ [("a", JString "1")]; registro ])
         registro)
  = ["b"; "c"].
Proof.
  intros registro.
  rewrite (proj2 (proj2 (filtrarRegistro_campos motorEjemplo [] registro))
             [ [("a", JString "1")]; registro ]
             ltac:(right; left; reflexivity)).
  reflexivity.
Defined.

(** ** Inference and sanitiser on the texts of a numeric column *)













Section InferenciaYCarga.

Variable E : Engine.


End InferenciaYCarga.


(** ** The sanitiser and the type of its result *)

Section ResultadoSanitizado.

Variable E : Engine.

(** X8.  The value the sanitiser gives fits the type it was asked for: for
    int, null or a number that rounding leaves as it is; for decimal,
    null or a number; for boolean, null or a boolean; for date and
    timestamp, null or a date; for any other type tag a text, and null
    only for a value that is null or undefined. *)
Theorem sanitizar_resultado (valor : JsValue) (tipo : string) :
  let r := sanitizarValorSegunTipo E valor tipo in
  (tipo = "int" ->
   r = JNull \/ exists n, r = JNumber n /\ Num.Math_round n = n)
  /\ (tipo = "decimal" -> r = JNull \/ exists n, r = JNumber n)
  /\ (tipo = "boolean" -> r = JNull \/ exists b, r = JBoolean b)
  /\ (tipo = "date" \/ tipo = "timestamp" ->
      r = JNull \/ exists t, r = JDate t)
  /\ (~ In tipo ["date"; "timestamp"; "int"; "decimal"; "boolean"] ->
      if is_nullish valor then r = JNull else exists s, r = JString s).
Proof.
  cbv zeta. unfold sanitizarValorSegunTipo.
  split; [| split; [| split; [| split]]].
  - intros ->. destruct (is_nullish valor); [now left|]. cbn [String.eqb orb].
    change (String.eqb "int" "date" || String.eqb "int" "timestamp")
      with false.
    change (String.eqb "int" "int") with true. cbv iota.
    destruct valor; simpl; auto.
    + right. eexists. split; [reflexivity|]. apply Math_round_idempotente.
    + destruct (Num.isNaN _); [now left|].
      right. eexists. split; [reflexivity|]. apply Math_round_idempotente.
  - intros ->. destruct (is_nullish valor); [now left|].
    change (String.eqb "decimal" "date" || String.eqb "decimal" "timestamp")
      with false.
    change (String.eqb "decimal" "int") with false.
    change (String.eqb "decimal" "decimal") with true. cbv iota.
    destruct valor; simpl; eauto.
    destruct (Num.isNaN _); eauto.
  - intros ->. destruct (is_nullish valor); [now left|].
    change (String.eqb "boolean" "date" || String.eqb "boolean" "timestamp")
      with false.
    change (String.eqb "boolean" "int") with false.
    change (String.eqb "boolean" "decimal") with false.
    change (String.eqb "boolean" "boolean") with true. cbv iota.
    destruct valor; try (simpl; eauto; fail).
    unfold sanitizarBoolean.
    destruct (Js.includes valoresVerdaderos (Js.toLowerCase s)); [eauto|].
    destruct (Js.includes valoresFalsos (Js.toLowerCase s)); eauto.
  - intros Ht. destruct (is_nullish valor); [now left|].
    assert (Hd : String.eqb tipo "date" || String.eqb tipo "timestamp" = true).
    { destruct Ht as [-> | ->]; reflexivity. }
    rewrite Hd. destruct valor; simpl; eauto.
    destruct (Date_parse E s); eauto.
  - intros Hno. destruct (is_nullish valor); [reflexivity|].
    assert (Hne : forall t, In t ["date"; "timestamp"; "int"; "decimal";
                                  "boolean"] ->
                            String.eqb tipo t = false).
    { intros t Ht. apply String.eqb_neq. intros ->. contradiction. }
    rewrite !Hne by (simpl; tauto). simpl.
    unfold sanitizarTexto. destruct (typeof valor); eauto.
    destruct (JSON_stringify E valor); eauto.
Qed.

End ResultadoSanitizado.

Lemma sanitizar_resultado_witness :
  (sanitizarValorSegunTipo motorEjemplo (JString "12.6 kg") "int" = JNull
   \/ exists n,
        sanitizarValorSegunTipo motorEjemplo (JString "12.6 kg") "int"
        = JNumber n /\ Num.Math_round n = n)
  /\ exists s,
       sanitizarValorSegunTipo motorEjemplo (JBoolean true) "text" = JString s.
Proof.
  split.
  - exact (proj1 (sanitizar_resultado motorEjemplo (JString "12.6 kg") "int")
             eq_refl).
  - apply (proj2 (proj2 (proj2 (proj2
             (sanitizar_resultado motorEjemplo (JBoolean true) "text"))))).
    simpl. intuition discriminate.
Defined.

(** ** normalizarNombresColumnas, applied twice *)

Lemma es_normalizado_sin_raros (k : string) :
  es_normalizado k = true -> Js.test_class no_word_char k = false.
Proof.
  unfold es_normalizado. induction k as [|c r IH]; simpl; [reflexivity|].
  intros H. apply andb_true_iff in H. destruct H as [Hc Hr].
  rewrite (IH Hr), orb_false_r.
  unfold no_word_char, Js.is_word, Js.is_alpha.
  apply negb_false_iff.
  apply orb_true_iff in Hc. destruct Hc as [Hc | Hc];
    [apply orb_true_iff in Hc; destruct Hc as [Hc | Hc] |];
    rewrite Hc; rewrite ?orb_true_r; reflexivity.
Qed.

(** X9.  Normalising the column names of normalised records changes
    nothing: after a normalisation no key of the first record needs one.
    Records whose first record needs none are returned as they are. *)
Theorem normalizar_idempotente (datos : list Registro) :
  normalizarNombresColumnas (normalizarNombresColumnas datos)
  = normalizarNombresColumnas datos
  /\ (match datos with
      | [] => True
      | primerRegistro :: _ =>
          existsb (Js.test_class no_word_char) (Obj.keys primerRegistro)
          = false ->
          normalizarNombresColumnas datos = datos
      end).
Proof.
  split.
  - destruct datos as [|primero resto]; [reflexivity|].
    unfold normalizarNombresColumnas at 2.
    destruct (existsb (Js.test_class no_word_char) (Obj.keys primero))
      eqn:Hnec; cbn [negb].
    + cbn [map]. unfold normalizarNombresColumnas.
      set (primero' := renombrarRegistro _ primero).
      assert (Hlimpio : existsb (Js.test_class no_word_char)
                                (Obj.keys primero') = false).
      { destruct (existsb _ (Obj.keys primero')) eqn:Hex; [|reflexivity].
        apply existsb_exists in Hex. destruct Hex as [k [Hk Hraro]].
        unfold primero' in Hk. rewrite renombrarRegistro_volcar in Hk.
        apply (proj1 (Obj_keys_In _ _)) in Hk.
        apply volcar_keys in Hk. destruct Hk as [[] | [k0 [Hk0 ->]]].
        change (map fst (Obj.entries primero)) with (Obj.keys primero) in Hk0.
        unfold renombrarCon in Hraro.
        apply includes_In in Hk0. rewrite Hk0 in Hraro.
        rewrite es_normalizado_sin_raros in Hraro;
          [discriminate | apply nombreNormalizado_es_normalizado]. }
      rewrite Hlimpio, Hnec. reflexivity.
    + unfold normalizarNombresColumnas. now rewrite Hnec.
  - destruct datos as [|primero resto]; [exact I|].
    intros Hnec. unfold normalizarNombresColumnas. now rewrite Hnec.
Qed.

Lemma normalizar_idempotente_witness :
  normalizarNombresColumnas
    [ [("precio", JNull)]; [("Otro Campo", JString "x")] ]
  = [ [("precio", JNull)]; [("Otro Campo", JString "x")] ].
Proof.
  exact (proj2 (normalizar_idempotente
                  [ [("precio", JNull)]; [("Otro Campo", JString "x")] ])
           eq_refl).
Defined.

(** ** crearTablaDinamica *)

Lemma string_app_assoc (a b c : string) :
  ((a ++ b) ++ c = a ++ (b ++ c))%string.
Proof. induction a as [|x a IH]; simpl; [reflexivity | now rewrite IH]. Qed.

Lemma string_app_nil_r (a : string) : (a ++ EmptyString = a)%string.
Proof. induction a as [|x a IH]; simpl; [reflexivity | now rewrite IH]. Qed.

Lemma lineaColumna_coma (total index : nat) (c : ColumnaDefinicion.t) :
  lineaColumna total index c
  = (lineaSinComa c
     ++ (if (index <? total - 1)%nat then "," else EmptyString))%string.
Proof.
  unfold lineaColumna, lineaSinComa. rewrite !string_app_assoc. reflexivity.
Qed.

Lemma agregarColumnas_join (total index : nat)
  (columnas : list ColumnaDefinicion.t) (sql : string) :
  total = index + length columnas ->
  agregarColumnas total index columnas sql
  = (sql ++ Js.join "," (map lineaSinComa columnas))%string.
Proof.
  revert index sql. induction columnas as [|c cs IH]; intros index sql Ht.
  - cbn [agregarColumnas map Js.join]. now rewrite string_app_nil_r.
  - cbn [agregarColumnas]. cbn [length] in Ht. rewrite IH by lia.
    rewrite string_app_assoc. f_equal. rewrite lineaColumna_coma.
    destruct cs as [|c' cs']; cbn [length] in Ht.
    + assert (Hi : (index <? total - 1)%nat = false)
        by (apply Nat.ltb_ge; lia).
      rewrite Hi. cbn [map Js.join]. now rewrite !string_app_nil_r.
    + assert (Hi : (index <? total - 1)%nat = true)
        by (apply Nat.ltb_lt; lia).
      rewrite Hi. cbn [map Js.join]. now rewrite string_app_assoc.
Qed.

Lemma crearIndices_emitidas (ejecuta : string -> bool) (nombreTabla : string)
  (columnas : list ColumnaDefinicion.t) :
  map fst (crearIndices ejecuta nombreTabla columnas)
  = map (createIndexSql nombreTabla) (filter esIndexada columnas).
Proof.
  unfold crearIndices.
  enough (H : forall acc,
             map fst (fold_left
                        (fun emitidas columna =>
                           if Js.includes tiposIndexados
                                (ColumnaDefinicion.tipo columna)
                           then emitidas
                                ++ [(createIndexSql nombreTabla columna,
                                     ejecuta (createIndexSql nombreTabla
                                                columna))]
                           else emitidas) columnas acc)
             = map fst acc
               ++ map (createIndexSql nombreTabla)
                      (filter esIndexada columnas))
    by (rewrite H; reflexivity).
  induction columnas as [|c cs IH]; intros acc; cbn [fold_left filter map].
  - now rewrite app_nil_r.
  - rewrite IH. unfold esIndexada at 2.
    destruct (Js.includes tiposIndexados (ColumnaDefinicion.tipo c)).
    + rewrite map_app, <- app_assoc. reflexivity.
    + reflexivity.
Qed.

(** X10.  A table without columns is refused before any statement is
    issued.  Otherwise the creation succeeds exactly when the DROP and
    the CREATE execute; it then issues, after them, one CREATE INDEX for
    each column of type int, date or varchar, in order, and the failure
    of any of these does not change the result.  The CREATE lists the key
    and then every column once, in order, with a comma between two lines
    and none after the last.  For an inferred structure the indexed
    columns are those of type int or date. *)
Theorem crearTablaDinamica_sentencias (ejecuta : string -> bool)
  (nombreTabla : string) (columnas : list ColumnaDefinicion.t) :
  let r := crearTablaDinamica ejecuta nombreTabla columnas in
  (columnas = [] ->
   r = (Throw (BadRequestException "No se puede crear una tabla sin columnas"),
        []))
  /\ (fst r = Ok tt
      <-> columnas <> []
          /\ ejecuta (dropTableSql nombreTabla) = true
          /\ ejecuta (createTableSql nombreTabla columnas) = true)
  /\ (fst r = Ok tt ->
      map fst (snd r)
      = dropTableSql nombreTabla
        :: createTableSql nombreTabla columnas
        :: map (createIndexSql nombreTabla) (filter esIndexada columnas))
  /\ createTableSql nombreTabla columnas
     = ("CREATE TABLE " ++ quoted nombreTabla ++ " (" ++ sangria
        ++ quoted "id" ++ " SERIAL PRIMARY KEY,"
        ++ Js.join "," (map lineaSinComa columnas)
        ++ nl ++ "      )")%string
  /\ (forall datos,
         columnas = analizarEstructuraColumnas datos ->
         filter esIndexada columnas
         = filter (fun c => String.eqb (ColumnaDefinicion.tipo c) "int"
                            || String.eqb (ColumnaDefinicion.tipo c) "date")
                  columnas).
Proof.
  cbv zeta. split; [intros ->; reflexivity|]. split; [| split; [| split]].
  - unfold crearTablaDinamica. destruct columnas as [|c cs].
    + simpl. split; [discriminate | intros [H _]; contradiction].
    + destruct (ejecuta (dropTableSql nombreTabla));
        [destruct (ejecuta (createTableSql nombreTabla (c :: cs)))|];
        simpl; split; intros H; try discriminate;
        try (repeat split; congruence); try reflexivity;
        destruct H as [_ [H1 H2]]; discriminate.
  - unfold crearTablaDinamica. destruct columnas as [|c cs];
      [discriminate|].
    destruct (ejecuta (dropTableSql nombreTabla)); [|discriminate].
    destruct (ejecuta (createTableSql nombreTabla (c :: cs)));
      [|discriminate].
    intros _. cbn [snd]. rewrite map_app, crearIndices_emitidas.
    reflexivity.
  - unfold createTableSql. rewrite agregarColumnas_join by reflexivity.
    rewrite !string_app_assoc. reflexivity.
  - intros datos ->. apply filter_ext_in. intros c Hc.
    apply analizarEstructuraColumnas_tipo in Hc. unfold esIndexada.
    simpl in Hc.
    destruct Hc as [<- | [<- | [<- | [<- | [<- | []]]]]]; reflexivity.
Qed.

Lemma crearTablaDinamica_sentencias_witness :
  let columnas :=
    analizarEstructuraColumnas
      [ [("cantidad", JNumber (Finite 3 0)); ("nota", JString "abc")] ] in
  fst (crearTablaDinamica
         (fun sql => negb (String.prefix "CREATE INDEX" sql))
         "compras" columnas) = Ok tt
  /\ map (fun c => ColumnaDefinicion.nombre c) (filter esIndexada columnas)
     = ["cantidad"].
Proof.
  intros columnas. split; [|reflexivity].
  apply (proj1 (proj2 (crearTablaDinamica_sentencias
                         (fun sql => negb (String.prefix "CREATE INDEX" sql))
                         "compras" columnas))).
  split; [discriminate | split; reflexivity].
Defined.

(** ** The reach of an update; insertion followed by deletion *)



Section Alcance.

Variable E : Engine.
Variable sql_igual : JsValue -> JsValue -> bool.
Variable acepta : string -> JsValue -> bool.








End Alcance.



(** ** limpiarDatosTabla *)

Lemma Obj_set_keys_presente {V : Type} (o : Obj.t V) (k : string) (v : V) :
  In k (map fst o) -> map fst (Obj.set o k v) = map fst o.
Proof.
  induction o as [|[k' v'] r IH]; simpl; [tauto|].
  intros Hin. destruct (String.eqb k k') eqn:Hk; [reflexivity|].
  simpl. f_equal. apply IH. destruct Hin as [Heq|Hin]; [|exact Hin].
  subst k'. now rewrite String.eqb_refl in Hk.
Qed.

Lemma Obj_set_keys_sobre {V : Type} (o o' : Obj.t V) (k : string) (v : V) :
  map fst o' = map fst o -> In k (map fst o) ->
  map fst (Obj.set o' k v) = map fst o.
Proof.
  intros He Hin. rewrite Obj_set_keys_presente; [exact He | now rewrite He].
Qed.

Section Limpieza.

Variable E : Engine.
Variables ocultas limpiar : list string.

Lemma limpiarCampo_keys (r : Registro) (k : string) (v : JsValue) :
  In k (map fst r) ->
  map fst (limpiarCampo E ocultas limpiar r (k, v)) = map fst r.
Proof.
  intros Hin. unfold limpiarCampo.
  destruct (Js.includes ocultas k); [now apply Obj_set_keys_presente|].
  destruct v as [| |b|n|s|d|o]; try reflexivity.
  - now apply Obj_set_keys_presente.
  - destruct (_ || _); [destruct (Date_parse E s)|];
      destruct (Js.includes limpiar k); destruct s;
      repeat (apply Obj_set_keys_sobre; [|assumption]); reflexivity.
Qed.

Lemma limpiarCampo_prop (r : Registro) (k k' : string) (v : JsValue) :
  prop r k = v ->
  prop (limpiarCampo E ocultas limpiar r (k, v)) k'
  = if String.eqb k' k then valorLimpio E ocultas limpiar k v
    else prop r k'.
Proof.
  intros Hv. unfold limpiarCampo, valorLimpio.
  destruct (Js.includes ocultas k); [apply prop_set|].
  destruct (String.eqb k' k) eqn:Hk.
  - apply String.eqb_eq in Hk. subst k'.
    destruct v as [| |b|n|s|d|o]; try exact Hv.
    + rewrite prop_set. now rewrite String.eqb_refl.
    + destruct (_ || _).
      * destruct (Date_parse E s).
        { rewrite prop_set. now rewrite String.eqb_refl. }
        destruct s.
        { rewrite prop_set. now rewrite String.eqb_refl. }
        destruct (Js.includes limpiar k); [|exact Hv].
        rewrite prop_set. now rewrite String.eqb_refl.
      * destruct s.
        { rewrite prop_set. now rewrite String.eqb_refl. }
        destruct (Js.includes limpiar k); [|exact Hv].
        rewrite prop_set. now rewrite String.eqb_refl.
  - destruct v as [| |b|n|s|d|o]; try reflexivity.
    + rewrite prop_set. now rewrite Hk.
    + destruct (_ || _); [destruct (Date_parse E s)|];
        destruct s; destruct (Js.includes limpiar k);
        rewrite ?prop_set, ?Hk; reflexivity.
Qed.

Lemma limpiarCampo_fold (l : list (string * JsValue)) (r : Registro) :
  NoDup (map fst l) ->
  (forall k v, In (k, v) l -> In k (map fst r) /\ prop r k = v) ->
  map fst (fold_left (limpiarCampo E ocultas limpiar) l r) = map fst r
  /\ forall k',
       prop (fold_left (limpiarCampo E ocultas limpiar) l r) k'
       = match Obj.get l k' with
         | Some v => valorLimpio E ocultas limpiar k' v
         | None => prop r k'
         end.
Proof.
  revert r. induction l as [|[k v] rest IH]; intros r Hnd Hl.
  - split; reflexivity.
  - cbn [map fst] in Hnd. inversion Hnd as [|? ? Hk Hrest]; subst.
    destruct (Hl k v (or_introl eq_refl)) as [Hin Hv].
    cbn [fold_left].
    destruct (IH (limpiarCampo E ocultas limpiar r (k, v)) Hrest)
      as [Hkeys Hprop].
    { intros k2 v2 H2. destruct (Hl k2 v2 (or_intror H2)) as [Hin2 Hv2].
      rewrite limpiarCampo_keys by assumption. split; [assumption|].
      rewrite (limpiarCampo_prop _ _ _ _ Hv).
      destruct (String.eqb k2 k) eqn:He; [|assumption].
      apply String.eqb_eq in He. subst k2. exfalso. apply Hk.
      apply in_map_iff. now exists (k, v2). }
    split.
    + rewrite Hkeys. now apply limpiarCampo_keys.
    + intros k'. rewrite Hprop. cbn [Obj.get].
      rewrite (limpiarCampo_prop _ _ _ _ Hv).
      destruct (String.eqb k' k) eqn:He; [|reflexivity].
      apply String.eqb_eq in He. subst k'.
      assert (Hno : Obj.get rest k = None) by now apply Obj_get_None.
      now rewrite Hno.
Qed.

Lemma limpiarRegistro_efecto (registro : Registro) :
  NoDup (map fst registro) ->
  map fst (limpiarRegistro E ocultas limpiar registro) = Obj.keys registro
  /\ forall k,
       prop (limpiarRegistro E ocultas limpiar registro) k
       = match Obj.get registro k with
         | Some v => valorLimpio E ocultas limpiar k v
         | None => JUndefined
         end.
Proof.
  intros Hnd. unfold limpiarRegistro, Obj.spread.
  rewrite Obj_entries_idem.
  pose proof (Obj_entries_NoDup _ Hnd) as Hnd'.
  destruct (limpiarCampo_fold (Obj.entries registro) (Obj.entries registro)
              Hnd') as [Hkeys Hprop].
  { intros k v Hin. split.
    - apply in_map_iff. now exists (k, v).
    - unfold prop. now rewrite (Obj_In_get _ _ _ Hnd' Hin). }
  split; [exact Hkeys|]. intros k. rewrite Hprop.
  rewrite (Obj_get_entries _ _ Hnd).
  destruct (Obj.get registro k) eqn:Hg; [reflexivity|].
  unfold prop. now rewrite (Obj_get_entries _ _ Hnd), Hg.
Qed.

(** X13.  The cleaning for display keeps the records, their order and the
    keys of each in enumeration order.  A field of a hidden column is
    null.  In the other columns a value that is not a text is untouched,
    but undefined becomes null; a text with a hyphen or a slash that the
    engine reads as a date becomes the day of its ISO rendering, whatever
    the column; the empty text becomes null; any other text is trimmed in
    the columns to clean and untouched elsewhere.  No field of the result
    is undefined. *)
Theorem limpiarDatosTabla_efecto (datos : list Registro) (i : nat)
  (registro : Registro) :
  nth_error datos i = Some registro ->
  NoDup (map fst registro) ->
  exists limpio,
    nth_error (limpiarDatosTabla E datos ocultas limpiar) i = Some limpio
    /\ map fst limpio = Obj.keys registro
    /\ forall k v,
         Obj.get registro k = Some v ->
         prop limpio k = valorLimpio E ocultas limpiar k v
         /\ prop limpio k <> JUndefined
         /\ (Js.includes ocultas k = true -> prop limpio k = JNull)
         /\ (Js.includes ocultas k = false ->
             match v with
             | JUndefined => prop limpio k = JNull
             | JString s =>
                 match s with
                 | EmptyString => prop limpio k = JNull
                 | _ => exists s', prop limpio k = JString s'
                 end
             | _ => prop limpio k = v
             end).
Proof.
  intros Hi Hnd.
  exists (limpiarRegistro E ocultas limpiar registro).
  destruct (limpiarRegistro_efecto registro Hnd) as [Hkeys Hprop].
  split.
  { unfold limpiarDatosTabla. destruct datos as [|d ds].
    - destruct i; discriminate.
    - now apply map_nth_error. }
  split; [exact Hkeys|]. intros k v Hg.
  rewrite Hprop, Hg. unfold valorLimpio.
  split; [reflexivity|].
  destruct (Js.includes ocultas k).
  { repeat split; try discriminate. }
  split.
  { destruct v as [| |b|n|s|d|o]; try discriminate.
    destruct (if _ : bool then _ else _); [discriminate|].
    destruct s; [discriminate|].
    destruct (Js.includes limpiar k); discriminate. }
  split; [discriminate|]. intros _.
  destruct v as [| |b|n|s|d|o]; try reflexivity.
  destruct s as [|c s].
  { reflexivity. }
  destruct (if _ : bool then _ else _); [eexists; reflexivity|].
  destruct (Js.includes limpiar k); eexists; reflexivity.
Qed.

End Limpieza.

Lemma limpiarDatosTabla_efecto_witness :
  let registro : Registro :=
    [ ("id", JNumber (Finite 1 0)); ("estado", JString " activo ");
      ("nota", JString "x") ] in
  exists limpio,
    nth_error (limpiarDatosTabla motorEjemplo [registro] ["nota"] ["estado"]) 0
    = Some limpio
    /\ map fst limpio = [ "id"; "estado"; "nota" ].
Proof.
  intros registro.
  assert (Hnd : NoDup (map fst registro)).
  { repeat constructor; simpl; intuition discriminate. }
  destruct (limpiarDatosTabla_efecto motorEjemplo ["nota"] ["estado"]
              [registro] 0 registro eq_refl Hnd) as [limpio [H1 [H2 _]]].
  exists limpio. split; [exact H1 | exact H2].
Defined.

(** ** limpiarDatosCompras and obtenerDatosCompras *)

Lemma take_digits_no_negativo (s : string) (acc : Z) (count : nat) :
  (0 <= acc)%Z -> (0 <= fst (fst (Num.take_digits acc count s)))%Z.
Proof.
  revert acc count.
  induction s as [|c r IH]; intros acc count Ha; cbn [Num.take_digits];
    [exact Ha|].
  destruct (Js.is_digit c) eqn:Hc; [|exact Ha].
  apply IH. unfold Js.is_digit, Js.between in Hc.
  apply andb_true_iff in Hc. destruct Hc as [Hlo _].
  apply N.leb_le in Hlo. unfold Num.digit_value, Js.code in *. lia.
Qed.

Lemma digito_o_punto_sin_signo (c : ascii) :
  digito_o_punto c = true ->
  (Js.code c =? 45)%N = false /\ (Js.code c =? 43)%N = false
  /\ Js.is_space c = false.
Proof.
  destruct c as [[] [] [] [] [] [] [] []]; simpl; intros H;
    first [repeat split; reflexivity | discriminate H].
Qed.

Lemma remove_class_digitos (s : string) :
  Js.all_class digito_o_punto
    (Js.remove_class (fun c => negb (Js.is_digit c || (Js.code c =? 46)%N)) s)
  = true.
Proof.
  induction s as [|c r IH]; [reflexivity|].
  cbn [Js.remove_class].
  destruct (Js.is_digit c || (Js.code c =? 46)%N) eqn:Hc; cbn [negb];
    [|exact IH].
  cbn [Js.all_class]. unfold digito_o_punto at 1. now rewrite Hc, IH.
Qed.

Lemma parseFloat_o_cero_no_negativo (s : string) :
  Js.all_class digito_o_punto s = true ->
  no_negativo (JNumber (parseFloat_o_cero s)).
Proof.
  intros Hall.
  assert (Hcero : no_negativo (JNumber (Finite 0 0))).
  { exists 0%Z, 0%nat. split; [reflexivity | lia]. }
  unfold parseFloat_o_cero, Num.parseFloat.
  assert (Hs : Num.skip_spaces s = s /\ Num.take_sign s = (false, s)).
  { destruct s as [|c r]; [split; reflexivity|].
    cbn [Js.all_class] in Hall. apply andb_true_iff in Hall.
    destruct Hall as [Hc _].
    destruct (digito_o_punto_sin_signo c Hc) as [H45 [H43 Hsp]].
    cbn [Num.skip_spaces Num.take_sign]. now rewrite Hsp, H45, H43. }
  destruct Hs as [Hsk Hsg]. rewrite Hsk. unfold Num.read_decimal.
  rewrite Hsg.
  pose proof (take_digits_no_negativo s 0 0 (Z.le_refl 0)) as Hip.
  destruct (Num.take_digits 0 0 s) as [[ip ni] s2]. cbn [fst] in Hip.
  assert (Hfin : forall m e, (0 <= m)%Z ->
            no_negativo
              (JNumber (if truthy (JNumber (Finite m e)) then Finite m e
                        else Finite 0 0))).
  { intros m e Hm. destruct (truthy _); [|exact Hcero].
    exists m, e. split; [reflexivity | exact Hm]. }
  destruct s2 as [|c r].
  - destruct ni; [exact Hcero|]. apply Hfin. lia.
  - destruct (Js.code c =? 46)%N.
    + pose proof (take_digits_no_negativo r ip 0 Hip) as Hall'.
      destruct (Num.take_digits ip 0 r) as [[all nf] s3]. cbn [fst] in Hall'.
      destruct ni, nf; try exact Hcero; apply Hfin; lia.
    + destruct ni; [exact Hcero|]. apply Hfin. lia.
Qed.

Lemma clasificarEstado_clase (estadoLower : string) :
  In (clasificarEstado estadoLower) clasificaciones.
Proof.
  unfold clasificarEstado, clasificaciones.
  destruct (_ || _); [simpl; tauto|].
  destruct (_ || _); [simpl; tauto|].
  destruct (_ || _); simpl; tauto.
Qed.

Section ComprasFacts.

Variable E : Engine.
Variable Date_getFullYear : Z -> Z.

Lemma recortarColumna_otro (l : Registro) (col k : string) :
  k <> col -> Obj.get (recortarColumna l col) k = Obj.get l k.
Proof.
  intros Hne. unfold recortarColumna.
  destruct (prop l col); try reflexivity.
  destruct (truthy _); [now apply Obj_get_set_ne | reflexivity].
Qed.

Lemma ocultarColumna_otro (l : Registro) (col k : string) :
  k <> col -> Obj.get (ocultarColumna l col) k = Obj.get l k.
Proof.
  intros Hne. unfold ocultarColumna.
  destruct (Obj.get l col); [now apply Obj_get_set_ne | reflexivity].
Qed.

Lemma clasificarCompra_otro (l : Registro) (k : string) :
  k <> "estado_clasificacion" ->
  Obj.get (clasificarCompra E l) k = Obj.get l k.
Proof.
  intros Hne. unfold clasificarCompra.
  destruct (truthy _); [now apply Obj_get_set_ne | reflexivity].
Qed.

Lemma limpiarValorTotal_otro (l : Registro) (k : string) :
  k <> "valor_total" -> Obj.get (limpiarValorTotal l) k = Obj.get l k.
Proof.
  intros Hne. unfold limpiarValorTotal.
  destruct (Obj.get l "valor_total") as [[| |b|n|s|d|o]|];
    try reflexivity; try (now apply Obj_get_set_ne).
  destruct s; now apply Obj_get_set_ne.
Qed.

Lemma limpiarFecha_otro (l : Registro) (campo k : string) :
  k <> campo -> k <> "anio" ->
  Obj.get (limpiarFecha E Date_getFullYear l campo) k = Obj.get l k.
Proof.
  intros Hne Hanio. unfold limpiarFecha.
  destruct (prop l campo); try reflexivity.
  destruct (truthy _); [|reflexivity].
  destruct (Date_parse E s); [|reflexivity].
  destruct (String.eqb campo "fecha_orden");
    rewrite ?Obj_get_set_ne by assumption; reflexivity.
Qed.

Lemma limpiarFechas_otro (l : Registro) (k : string) :
  ~ In k ("anio" :: camposFecha) ->
  Obj.get (fold_left (limpiarFecha E Date_getFullYear) camposFecha l) k
  = Obj.get l k.
Proof.
  intros Hno. cbn [camposFecha fold_left].
  rewrite !limpiarFecha_otro;
    first [reflexivity | intros ->; apply Hno; simpl; tauto].
Qed.

Lemma recortarColumnas_otro (l : Registro) (k : string) :
  ~ In k columnasLimpiarCompras ->
  Obj.get (fold_left recortarColumna columnasLimpiarCompras l) k = Obj.get l k.
Proof.
  intros Hno. cbn [columnasLimpiarCompras fold_left].
  rewrite !recortarColumna_otro;
    first [reflexivity | intros ->; apply Hno; simpl; tauto].
Qed.

Lemma ocultarColumnas_otro (l : Registro) (k : string) :
  ~ In k columnasOcultarCompras ->
  Obj.get (fold_left ocultarColumna columnasOcultarCompras l) k = Obj.get l k.
Proof.
  intros Hno. cbn [columnasOcultarCompras fold_left].
  rewrite !ocultarColumna_otro;
    first [reflexivity | intros ->; apply Hno; simpl; tauto].
Qed.

Lemma copia_con_id (compra : Registro) (k : string) :
  NoDup (map fst compra) ->
  prop (Obj.set (Obj.spread compra) "id" (prop compra "id")) k
  = prop compra k.
Proof.
  intros Hnd. rewrite prop_set. destruct (String.eqb k "id") eqn:Hk.
  - apply String.eqb_eq in Hk. now subst k.
  - unfold Obj.spread. now apply prop_entries.
Qed.

(** The field [estado] once the columns to clean are trimmed. *)
Lemma limpiarCompra_estado (compra : Registro) :
  NoDup (map fst compra) ->
  prop (fold_left ocultarColumna columnasOcultarCompras
          (fold_left recortarColumna columnasLimpiarCompras
             (Obj.set (Obj.spread compra) "id" (prop compra "id"))))
       "estado"
  = match prop compra "estado" with
    | JString (String c r) => JString (trim (String c r))
    | v => v
    end.
Proof.
  intros Hnd. unfold prop at 1.
  rewrite ocultarColumnas_otro by (simpl; intuition discriminate).
  cbn [columnasLimpiarCompras fold_left].
  rewrite !recortarColumna_otro by discriminate.
  fold (prop (recortarColumna
                (Obj.set (Obj.spread compra) "id" (prop compra "id"))
                "estado") "estado").
  unfold recortarColumna. rewrite (copia_con_id compra "estado" Hnd).
  destruct (prop compra "estado") as [| |b|n|s|d|o] eqn:He;
    try (rewrite (copia_con_id compra "estado" Hnd); exact He).
  destruct s as [|c r]; cbn [truthy].
  - rewrite (copia_con_id compra "estado" Hnd). exact He.
  - rewrite prop_set. reflexivity.
Qed.

Lemma limpiarCompra_efecto (compra : Registro) :
  NoDup (map fst compra) ->
  let limpia := limpiarCompra E Date_getFullYear compra in
  prop limpia "id" = prop compra "id"
  /\ (forall k, ~ In k clavesCompras -> prop limpia k = prop compra k)
  /\ (match Obj.get compra "valor_total" with
      | Some (JNull | JUndefined | JString _) =>
          no_negativo (prop limpia "valor_total")
      | Some v => prop limpia "valor_total" = v
      | None => prop limpia "valor_total" = JUndefined
      end)
  /\ (match prop compra "estado" with
      | JString s =>
          match trim s with
          | EmptyString =>
              prop limpia "estado_clasificacion"
              = prop compra "estado_clasificacion"
          | recortado =>
              prop limpia "estado_clasificacion"
              = JString (clasificarEstado (Js.toLowerCase recortado))
          end
      | v =>
          if truthy v
          then exists c, In c clasificaciones
                         /\ prop limpia "estado_clasificacion" = JString c
          else prop limpia "estado_clasificacion"
               = prop compra "estado_clasificacion"
      end).
Proof.
  intros Hnd limpia.
  set (l0 := Obj.set (Obj.spread compra) "id" (prop compra "id")).
  set (l1 := fold_left recortarColumna columnasLimpiarCompras l0).
  set (l2 := fold_left ocultarColumna columnasOcultarCompras l1).
  assert (Hotro : forall k, ~ In k clavesCompras ->
                            prop limpia k = prop compra k).
  { intros k Hno. subst limpia. unfold limpiarCompra.
    rewrite <- (copia_con_id compra k Hnd). unfold prop.
    rewrite limpiarFechas_otro
      by (intros Hin; apply Hno; unfold clavesCompras; simpl in *; tauto).
    rewrite limpiarValorTotal_otro
      by (intros ->; apply Hno; unfold clavesCompras; simpl; tauto).
    rewrite clasificarCompra_otro
      by (intros ->; apply Hno; unfold clavesCompras; simpl; tauto).
    rewrite ocultarColumnas_otro
      by (intros Hin; apply Hno; unfold clavesCompras; simpl in *; tauto).
    rewrite recortarColumnas_otro
      by (intros Hin; apply Hno; unfold clavesCompras; simpl in *; tauto).
    reflexivity. }
  split; [|split; [exact Hotro|split]].
  - apply Hotro. unfold clavesCompras. simpl. intuition discriminate.
  - assert (Hvt : Obj.get (clasificarCompra E l2) "valor_total"
                  = Obj.get compra "valor_total").
    { rewrite clasificarCompra_otro by discriminate. subst l2 l1.
      rewrite ocultarColumnas_otro by (simpl; intuition discriminate).
      rewrite recortarColumnas_otro by (simpl; intuition discriminate).
      subst l0. rewrite Obj_get_set_ne by discriminate.
      unfold Obj.spread. now apply Obj_get_entries. }
    assert (Hfin : prop limpia "valor_total"
                   = prop (limpiarValorTotal (clasificarCompra E l2))
                          "valor_total").
    { subst limpia. unfold limpiarCompra, prop.
      rewrite limpiarFechas_otro by (simpl; intuition discriminate).
      reflexivity. }
    rewrite Hfin. unfold limpiarValorTotal. rewrite Hvt.
    assert (Hcero : no_negativo (JNumber (Finite 0 0))).
    { exists 0%Z, 0%nat. split; [reflexivity | lia]. }
    destruct (Obj.get compra "valor_total") as [[| |b|n|s|d|o]|] eqn:Hg;
      rewrite ?prop_set; cbn [String.eqb]; try exact Hcero;
      try (unfold prop; rewrite Hvt; reflexivity).
    destruct s as [|c r]; rewrite prop_set;
      change (String.eqb "valor_total" "valor_total") with true;
      cbn iota; [exact Hcero|].
    apply parseFloat_o_cero_no_negativo. apply remove_class_digitos.
  - assert (Hfin : prop limpia "estado_clasificacion"
                   = prop (clasificarCompra E l2) "estado_clasificacion").
    { subst limpia. unfold limpiarCompra, prop.
      rewrite limpiarFechas_otro by (simpl; intuition discriminate).
      rewrite limpiarValorTotal_otro by discriminate. reflexivity. }
    assert (Hec : prop l2 "estado_clasificacion"
                  = prop compra "estado_clasificacion").
    { rewrite <- (copia_con_id compra "estado_clasificacion" Hnd).
      subst l2 l1. unfold prop.
      rewrite ocultarColumnas_otro by (simpl; intuition discriminate).
      rewrite recortarColumnas_otro by (simpl; intuition discriminate).
      reflexivity. }
    pose proof (limpiarCompra_estado compra Hnd) as Hest.
    fold l0 l1 l2 in Hest.
    rewrite Hfin. unfold clasificarCompra. rewrite Hest.
    destruct (prop compra "estado") as [| |b|n|s|d|o];
      cbn [truthy]; try exact Hec.
    + destruct b; [|exact Hec]. clear Hec Hest Hfin.
      rewrite prop_set.
      change (String.eqb "estado_clasificacion" "estado_clasificacion")
        with true. cbn iota.
      eexists. split; [apply clasificarEstado_clase | reflexivity].
    + destruct n as [|neg|m e]; [exact Hec| |destruct (m =? 0)%Z];
        cbn [negb]; try exact Hec;
        rewrite prop_set;
        change (String.eqb "estado_clasificacion" "estado_clasificacion")
          with true; cbn iota;
        (eexists; split; [apply clasificarEstado_clase | reflexivity]).
    + destruct s as [|c r]; [exact Hec|].
      destruct (trim (String c r)) as [|c' r'] eqn:Ht; cbn [truthy].
      * exact Hec.
      * rewrite prop_set.
        change (String.eqb "estado_clasificacion" "estado_clasificacion")
          with true. cbn iota. reflexivity.
    + rewrite prop_set.
      change (String.eqb "estado_clasificacion" "estado_clasificacion")
        with true. cbn iota.
      eexists. split; [apply clasificarEstado_clase | reflexivity].
    + rewrite prop_set.
      change (String.eqb "estado_clasificacion" "estado_clasificacion")
        with true. cbn iota.
      eexists. split; [apply clasificarEstado_clase | reflexivity].
Qed.

End ComprasFacts.

Section ComprasTeoremas.

Variable E : Engine.
Variable Date_getFullYear : Z -> Z.

Lemma limpiarCompra_id (compra : Registro) :
  prop (limpiarCompra E Date_getFullYear compra) "id" = prop compra "id".
Proof.
  unfold limpiarCompra, prop at 1.
  rewrite limpiarFechas_otro by (simpl; intuition discriminate).
  rewrite limpiarValorTotal_otro by discriminate.
  rewrite clasificarCompra_otro by discriminate.
  rewrite ocultarColumnas_otro by (simpl; intuition discriminate).
  rewrite recortarColumnas_otro by (simpl; intuition discriminate).
  now rewrite Obj_get_set_eq.
Qed.

Lemma limpiarDatosCompras_map (datos : list Registro) :
  limpiarDatosCompras E Date_getFullYear datos
  = map (limpiarCompra E Date_getFullYear) datos.
Proof. now destruct datos. Qed.

(** X14.  The cleaning of the purchases keeps the records and their
    order.  In each record the id and every field outside the keys the
    cleaning assigns are as they were.  A [valor_total] that is null,
    undefined or a text comes out as a number that is neither NaN nor
    negative: the sign of a text is dropped with the other characters; a
    [valor_total] of another kind is untouched.  When [estado] is a text
    that is not blank, [estado_clasificacion] is the class of its trimmed
    lower-case form, one of four; when [estado] is blank or otherwise
    falsy, [estado_clasificacion] is as it was. *)
Theorem limpiarDatosCompras_efecto (datos : list Registro) (i : nat)
  (compra : Registro) :
  nth_error datos i = Some compra ->
  NoDup (map fst compra) ->
  length (limpiarDatosCompras E Date_getFullYear datos) = length datos
  /\ exists limpia,
       nth_error (limpiarDatosCompras E Date_getFullYear datos) i
       = Some limpia
       /\ prop limpia "id" = prop compra "id"
       /\ (forall k, ~ In k clavesCompras -> prop limpia k = prop compra k)
       /\ (match Obj.get compra "valor_total" with
           | Some (JNull | JUndefined | JString _) =>
               no_negativo (prop limpia "valor_total")
           | Some v => prop limpia "valor_total" = v
           | None => prop limpia "valor_total" = JUndefined
           end)
       /\ (match prop compra "estado" with
           | JString s =>
               match trim s with
               | EmptyString =>
                   prop limpia "estado_clasificacion"
                   = prop compra "estado_clasificacion"
               | recortado =>
                   prop limpia "estado_clasificacion"
                   = JString (clasificarEstado (Js.toLowerCase recortado))
                   /\ In (clasificarEstado (Js.toLowerCase recortado))
                         clasificaciones
               end
           | v =>
               if truthy v
               then exists c, In c clasificaciones
                              /\ prop limpia "estado_clasificacion" = JString c
               else prop limpia "estado_clasificacion"
                    = prop compra "estado_clasificacion"
           end).
Proof.
  intros Hi Hnd. rewrite limpiarDatosCompras_map. split; [apply length_map|].
  exists (limpiarCompra E Date_getFullYear compra).
  split; [now apply map_nth_error|].
  destruct (limpiarCompra_efecto E Date_getFullYear compra Hnd)
    as [Hid [Hotro [Hvt Hest]]].
  repeat split; try assumption.
  destruct (prop compra "estado") as [| |b|n|s|d|o]; try exact Hest.
  destruct (trim s); [exact Hest|].
  split; [exact Hest | apply clasificarEstado_clase].
Qed.

Variable sql_igual : JsValue -> JsValue -> bool.
Variable acepta : string -> JsValue -> bool.

Lemma obtenerDatosTabla_nombre (db : BaseDeDatos) (nombreTabla : string)
  (page limit : Z) (filtros : Registro) (opciones : OpcionesVisualizacion)
  (datosTabla : TablaDatos) :
  obtenerDatosTabla E sql_igual acepta db nombreTabla page limit filtros
    opciones = Ok datosTabla ->
  td_nombreTabla datosTabla = nombreTabla.
Proof.
  unfold obtenerDatosTabla.
  destruct (Obj.get db nombreTabla) as [t|]; [|discriminate].
  destruct (ejecutarCount _ _ _ _) as [total|e1]; cbn [bind].
  2:{ destruct e1; discriminate. }
  destruct (ejecutarPagina _ _ _ _ _ _) as [datos|e2]; cbn [bind].
  2:{ destruct e2; discriminate. }
  cbn [envolverErrorLectura]. now intros [= <-].
Qed.

(** X15.  The purchases are read from the table [datos_compras] and from
    no other: without that table the read is refused with the not-found
    error of the table, and an error of the read of the table is the
    error of the read of the purchases.  When the table is read, the
    result carries the same columns, totals and page as the read of the
    table with no display options, and its rows are the rows of that page
    cleaned one by one, each with its id. *)
Theorem obtenerDatosCompras_composicion (db : BaseDeDatos) (page limit : Z)
  (filtros : Registro) :
  (Obj.get db "datos_compras" = None ->
   obtenerDatosCompras E Date_getFullYear sql_igual acepta db page limit filtros
   = Throw (tablaNoExiste "datos_compras"))
  /\ match obtenerDatosTabla E sql_igual acepta db "datos_compras" page limit
             filtros
             {| columnasOcultas := None; columnasLimpiar := None;
                aplicarLimpieza := false |} with
     | Throw e =>
         obtenerDatosCompras E Date_getFullYear sql_igual acepta db page limit
           filtros = Throw e
     | Ok datosTabla =>
         exists resultado,
           obtenerDatosCompras E Date_getFullYear sql_igual acepta db page
             limit filtros = Ok resultado
           /\ td_nombreTabla resultado = "datos_compras"
           /\ td_columnas resultado = td_columnas datosTabla
           /\ td_totalRegistros resultado = td_totalRegistros datosTabla
           /\ td_page resultado = td_page datosTabla
           /\ td_limit resultado = td_limit datosTabla
           /\ td_totalPages resultado = td_totalPages datosTabla
           /\ td_datos resultado
              = map (limpiarCompra E Date_getFullYear) (td_datos datosTabla)
           /\ map (fun fila => prop fila "id") (td_datos resultado)
              = map (fun fila => prop fila "id") (td_datos datosTabla)
     end.
Proof.
  unfold obtenerDatosCompras. split.
  - intros Hno. unfold obtenerDatosTabla. rewrite Hno. reflexivity.
  - destruct (obtenerDatosTabla E sql_igual acepta db "datos_compras" page
                limit filtros _) as [datosTabla|e] eqn:Hr; [|reflexivity].
    cbn [bind]. eexists. split; [reflexivity|].
    cbn [td_nombreTabla td_columnas td_datos td_totalRegistros td_page
         td_limit td_totalPages].
    rewrite limpiarDatosCompras_map, map_map.
    repeat split.
    + eapply obtenerDatosTabla_nombre. exact Hr.
    + apply map_ext. intros fila. apply limpiarCompra_id.
Qed.

End ComprasTeoremas.

Lemma limpiarDatosCompras_efecto_witness :
  let compra : Registro :=
    [ ("id", JNumber (Finite 7 0)); ("estado", JString " Pagado ");
      ("valor_total", JString "-1,234.50") ] in
  exists limpia,
    nth_error (limpiarDatosCompras motorEjemplo (fun _ => 2024%Z) [compra]) 0
    = Some limpia
    /\ prop limpia "id" = JNumber (Finite 7 0)
    /\ no_negativo (prop limpia "valor_total").
Proof.
  intros compra.
  assert (Hnd : NoDup (map fst compra)).
  { repeat constructor; simpl; intuition discriminate. }
  destruct (limpiarDatosCompras_efecto motorEjemplo (fun _ => 2024%Z)
              [compra] 0 compra eq_refl Hnd)
    as [_ [limpia [H1 [H2 [_ [H4 _]]]]]].
  exists limpia. split; [exact H1|]. split; [exact H2 | exact H4].
Defined.

Lemma obtenerDatosCompras_composicion_witness :
  obtenerDatosCompras motorEjemplo (fun _ => 2024%Z) igualEjemplo
    aceptaEjemplo baseEjemplo 1 10 []
  = Throw (tablaNoExiste "datos_compras").
Proof.
  exact (proj1 (obtenerDatosCompras_composicion motorEjemplo
                  (fun _ => 2024%Z) igualEjemplo aceptaEjemplo baseEjemplo
                  1 10 []) eq_refl).
Defined.

(** ** The password rules of LoginUserDto and CreateUserDto *)

Lemma matchK_seq (r1 r2 : Regex) (s : string) (k : string -> bool) :
  matchK (RSeq r1 r2) s k = matchK r1 s (fun s' => matchK r2 s' k).
Proof. reflexivity. Qed.

Lemma matchK_look (r : Regex) (s : string) (k : string -> bool) :
  matchK (RLook r) s k = matchK r s (fun _ => true) && k s.
Proof. reflexivity. Qed.

Lemma matchK_star_cons (p : ascii -> bool) (c : ascii) (t : string)
  (k : string -> bool) :
  matchK (RStar p) (String c t) k
  = (p c && matchK (RStar p) t k) || k (String c t).
Proof. reflexivity. Qed.

(** [.*$] consumes the input exactly when it holds no line terminator. *)
Lemma matchK_resto (s : string) :
  matchK (RSeq (RStar dot) REnd) s (fun _ => true) = Js.all_class dot s.
Proof.
  rewrite matchK_seq. induction s as [|c t IH]; [reflexivity|].
  rewrite matchK_star_cons, IH. cbn [matchK Js.all_class].
  apply orb_false_r.
Qed.

(** On one line, [.*[class]] finds a character of the class when there is
    one. *)
Lemma matchK_clase (q : ascii -> bool) (s : string) :
  Js.all_class dot s = true ->
  matchK (RSeq (RStar dot) (RClass q)) s (fun _ => true) = Js.test_class q s.
Proof.
  rewrite matchK_seq. induction s as [|c t IH]; intros Hall; [reflexivity|].
  cbn [Js.all_class] in Hall. apply andb_true_iff in Hall.
  destruct Hall as [Hc Ht].
  rewrite matchK_star_cons, (IH Ht), Hc. cbn [matchK Js.test_class andb].
  rewrite andb_true_r. apply orb_comm.
Qed.

Lemma passwordPattern_test (s : string) :
  regex_test passwordPattern s
  = Js.all_class dot s && Js.test_class Js.is_digit s
    && Js.test_class Js.is_upper s && Js.test_class Js.is_lower s.
Proof.
  unfold regex_test, passwordPattern, contieneClase.
  rewrite (matchK_seq (RLook _)), matchK_look. cbn beta.
  rewrite (matchK_seq (RLook _)), matchK_look. cbn beta.
  rewrite (matchK_seq (RLook _)), matchK_look. cbn beta.
  rewrite matchK_resto.
  destruct (Js.all_class dot s) eqn:Hall.
  - rewrite !matchK_clase by assumption. cbn [andb].
    now rewrite andb_true_r, !andb_assoc.
  - cbn [andb]. now rewrite !andb_false_r.
Qed.

Lemma clases_disjuntas (c : ascii) :
  (Js.is_digit c = true -> Js.is_upper c = false /\ Js.is_lower c = false)
  /\ (Js.is_upper c = true -> Js.is_lower c = false).
Proof.
  destruct c as [[] [] [] [] [] [] [] []]; vm_compute;
    repeat split; intros; congruence.
Qed.

Lemma tres_clases (s : string) :
  Js.test_class Js.is_digit s = true ->
  Js.test_class Js.is_upper s = true ->
  Js.test_class Js.is_lower s = true ->
  3 <= String.length s.
Proof.
  destruct s as [|a [|b [|c r]]]; cbn [Js.test_class String.length];
    rewrite ?orb_false_r; intros Hd Hu Hl; try lia; try discriminate.
  - destruct (clases_disjuntas a) as [H1 _].
    destruct (H1 Hd). congruence.
  - destruct (clases_disjuntas a) as [Ha1 Ha2].
    destruct (clases_disjuntas b) as [Hb1 Hb2].
    destruct (Js.is_digit a) eqn:Eda; destruct (Js.is_upper a) eqn:Eua;
      destruct (Js.is_lower a) eqn:Ela;
      destruct (Js.is_digit b) eqn:Edb; destruct (Js.is_upper b) eqn:Eub;
      destruct (Js.is_lower b) eqn:Elb;
      cbn [orb] in Hd, Hu, Hl; try discriminate;
      try (destruct (Ha1 eq_refl); discriminate);
      try (destruct (Hb1 eq_refl); discriminate);
      try (specialize (Ha2 eq_refl); discriminate);
      try (specialize (Hb2 eq_refl); discriminate).
Qed.

(** X16.  The pattern of both DTOs accepts exactly the one-line texts
    with a digit, an upper-case and a lower-case letter, so an accepted
    password has three characters or more.  A password the login accepts
    is accepted at registration.  The converse fails: registration has no
    lower bound on the length, and a password it accepts is refused by
    the login exactly when it has fewer than six characters. *)
Theorem reglas_de_password (password : JsValue) :
  (forall s,
     regex_test passwordPattern s = true <->
     Js.all_class dot s = true /\ Js.test_class Js.is_digit s = true
     /\ Js.test_class Js.is_upper s = true
     /\ Js.test_class Js.is_lower s = true)
  /\ (loginPasswordValida password = true ->
      createPasswordValida password = true)
  /\ (createPasswordValida password = true ->
      exists s, password = JString s /\ 3 <= String.length s <= 50)
  /\ (createPasswordValida password = true
      /\ loginPasswordValida password = false
      <-> exists s, password = JString s
                    /\ regex_test passwordPattern s = true
                    /\ String.length s < 6).
Proof.
  assert (Hpat : forall s,
     regex_test passwordPattern s = true <->
     Js.all_class dot s = true /\ Js.test_class Js.is_digit s = true
     /\ Js.test_class Js.is_upper s = true
     /\ Js.test_class Js.is_lower s = true).
  { intros s. rewrite passwordPattern_test, !andb_true_iff. tauto. }
  split; [exact Hpat|]. split; [|split].
  - destruct password; try discriminate.
    unfold loginPasswordValida, createPasswordValida.
    rewrite !andb_true_iff. tauto.
  - destruct password as [| |b|n|s|d|o]; try discriminate.
    unfold createPasswordValida. rewrite andb_true_iff.
    intros [Hlen Hre]. exists s. split; [reflexivity|].
    apply Nat.leb_le in Hlen. apply Hpat in Hre.
    destruct Hre as [_ [Hd [Hu Hl]]].
    pose proof (tres_clases s Hd Hu Hl). lia.
  - split.
    + destruct password as [| |b|n|s|d|o]; try (intros [H _]; discriminate H).
      unfold loginPasswordValida, createPasswordValida.
      rewrite andb_true_iff. intros [[Hlen Hre] Hlogin].
      exists s. split; [reflexivity|]. split; [exact Hre|].
      rewrite Hlen, Hre, !andb_true_r in Hlogin.
      apply Nat.leb_gt in Hlogin. exact Hlogin.
    + intros [s [-> [Hre Hlen]]].
      unfold loginPasswordValida, createPasswordValida. rewrite Hre.
      rewrite (proj2 (Nat.leb_gt 6 (String.length s)) Hlen). cbn [andb].
      split; [|reflexivity]. rewrite andb_true_r. apply Nat.leb_le. lia.
Qed.

Lemma reglas_de_password_witness :
  createPasswordValida (JString "Ab1") = true
  /\ loginPasswordValida (JString "Ab1") = false
  /\ createPasswordValida (JString "Abcdef1") = true.
Proof.
  destruct (reglas_de_password (JString "Ab1")) as [_ [_ [_ Hiff]]].
  destruct (reglas_de_password (JString "Abcdef1")) as [_ [Hlogin _]].
  destruct (proj2 Hiff) as [H1 H2].
  { exists "Ab1". split; [reflexivity|]. split; [reflexivity | simpl; lia]. }
  split; [exact H1|]. split; [exact H2 | apply Hlogin; reflexivity].
Defined.

(** ** analizarArchivo and create *)

Lemma normalizarNombresColumnas_length (datos : list Registro) :
  length (normalizarNombresColumnas datos) = length datos.
Proof.
  unfold normalizarNombresColumnas. destruct datos as [|r rs]; [reflexivity|].
  destruct (negb _); [reflexivity | apply length_map].
Qed.

Lemma analizarArchivo_aceptado (extension : string)
  (leerExcel leerCSV : Result (list Registro)) :
  fileFilter extension = true ->
  analizarArchivo extension leerExcel leerCSV
  = match lectura extension leerExcel leerCSV with
    | Ok [] =>
        Throw (BadRequestException
                 "Error al analizar el archivo: El archivo no contiene datos")
    | Ok leidos =>
        Ok (analizarEstructuraColumnas (normalizarNombresColumnas leidos),
            normalizarNombresColumnas leidos)
    | Throw e =>
        Throw (BadRequestException
                 ("Error al analizar el archivo: " ++ message e))
    end.
Proof.
  intros Hf. apply includes_In in Hf. unfold allowedExtensions in Hf.
  unfold analizarArchivo, lectura.
  destruct Hf as [<-|[<-|[<-|[]]]]; cbn [String.eqb Ascii.eqb Bool.eqb orb].
  - destruct leerExcel as [[|r rs]|e]; reflexivity.
  - destruct leerExcel as [[|r rs]|e]; reflexivity.
  - destruct leerCSV as [[|r rs]|e]; reflexivity.
Qed.

Lemma analizarArchivo_aceptado_Ok (extension : string)
  (leerExcel leerCSV : Result (list Registro))
  (estructuraColumnas : list ColumnaDefinicion.t) (datos : list Registro) :
  analizarArchivo extension leerExcel leerCSV
  = Ok (estructuraColumnas, datos) ->
  exists leidos,
    lectura extension leerExcel leerCSV = Ok leidos
    /\ leidos <> []
    /\ datos = normalizarNombresColumnas leidos
    /\ length datos = length leidos
    /\ estructuraColumnas = analizarEstructuraColumnas datos.
Proof.
  destruct (fileFilter extension) eqn:Hf.
  2:{ unfold fileFilter, Js.includes, allowedExtensions in Hf.
      cbn [existsb] in Hf. rewrite !orb_false_iff in Hf.
      destruct Hf as [H1 [H2 [H3 _]]].
      unfold analizarArchivo. rewrite H1, H2, H3. discriminate. }
  rewrite (analizarArchivo_aceptado _ _ _ Hf).
  destruct (lectura extension leerExcel leerCSV) as [[|r rs]|e];
    try discriminate.
  pose proof (normalizarNombresColumnas_length (r :: rs)) as Hlen.
  remember (normalizarNombresColumnas (r :: rs)) as normalizados eqn:Hd.
  intros [= <- <-].
  exists (r :: rs). split; [reflexivity|]. split; [discriminate|].
  split; [exact Hd|]. split; [exact Hlen|]. reflexivity.
Qed.




Section ImportacionFacts.

Variable E : Engine.
Variable ejecuta : string -> bool.
Variable queryRunner : QueryRunner.
Variables importacionPrevia guardarNueva guardarTotal : Result unit.
Variable extension : string.
Variables leerExcel leerCSV : Result (list Registro).

Lemma handleExceptions_clases {A : Type} (r : Result A) (e : Exception) :
  handleExceptions r = Throw e ->
  (exists m, e = BadRequestException m)
  \/ (exists m, e = NotFoundException m) \/ e = errorInesperado.
Proof.
  unfold handleExceptions. destruct r as [a|[]]; try discriminate;
    intros [= <-]; eauto.
Qed.

Lemma handleExceptions_Ok {A : Type} (r : Result A) (a : A) :
  handleExceptions r = Ok a -> r = Ok a.
Proof.
  unfold handleExceptions. destruct r as [a'|[]]; try discriminate.
  now intros [= ->].
Qed.

(** X18.  An import fails only with a bad-request error, a not-found
    error or the internal error of the fixed message: the cause of a
    failure of the store is not in the answer.  When it succeeds the name
    of the table was valid, the file held one record or more, the
    structure returned is the one inferred from its normalised records
    and is not empty, the table was dropped and created again, and the
    load confirmed one record or more.  The total returned is the number
    of records of the file, also when the load confirmed fewer. *)
Theorem crearImportacion_resultado (nombreTabla : string) :
  let r := crearImportacion E ejecuta queryRunner importacionPrevia
             guardarNueva guardarTotal extension leerExcel leerCSV
             nombreTabla in
  (forall e, r = Throw e ->
             (exists m, e = BadRequestException m)
             \/ (exists m, e = NotFoundException m) \/ e = errorInesperado)
  /\ (forall res, r = Ok res ->
        validarNombreTabla nombreTabla = Ok tt
        /\ exists leidos,
             lectura extension leerExcel leerCSV = Ok leidos
             /\ leidos <> []
             /\ ri_nombreTabla res = nombreTabla
             /\ ri_totalRegistros res = length leidos
             /\ ri_estructuraColumnas res
                = analizarEstructuraColumnas (normalizarNombresColumnas leidos)
             /\ ri_estructuraColumnas res <> []
             /\ ejecuta (dropTableSql nombreTabla) = true
             /\ ejecuta (createTableSql nombreTabla (ri_estructuraColumnas res))
                = true
             /\ exists informe,
                  insertarDatosEnTabla E queryRunner nombreTabla
                    (ri_estructuraColumnas res)
                    (sanitizarValoresLargos (normalizarNombresColumnas leidos)
                       (ri_estructuraColumnas res))
                  = Ok (Some informe)
                  /\ 0 < totalRecords informe
                  /\ insercionParcial informe
                     = (totalRecords informe <? ri_totalRegistros res)%nat).
Proof.
  cbv zeta. unfold crearImportacion, create. split.
  { intros e. apply handleExceptions_clases. }
  intros res Hok. apply handleExceptions_Ok in Hok.
  destruct (validarNombreTabla nombreTabla) as [[]|ev]; [|discriminate].
  split; [reflexivity|]. cbn [bind] in Hok. unfold importar in Hok.
  destruct importacionPrevia as [[]|e0]; [|discriminate]. cbn [bind] in Hok.
  destruct (analizarArchivo extension leerExcel leerCSV)
    as [[estructura datos]|ea] eqn:Ha; [|discriminate].
  cbn [bind fst snd] in Hok.
  destruct (analizarArchivo_aceptado_Ok _ _ _ _ _ Ha)
    as [leidos [Hlec [Hne [Hdatos [Hlen Hest]]]]].
  assert (Hnv : estructura <> []).
  { intros ->. discriminate Hok. }
  assert (Hresto :
    (_ <- guardarNueva ;;
     _ <- fst (crearTablaDinamica ejecuta nombreTabla estructura) ;;
     _ <- insertarDatosEnTabla E queryRunner nombreTabla estructura
            (sanitizarValoresLargos datos estructura) ;;
     _ <- guardarTotal ;;
     Ok {| ri_nombreTabla := nombreTabla;
           ri_totalRegistros :=
             length (sanitizarValoresLargos datos estructura);
           ri_mensaje := "Archivo importado correctamente";
           ri_estructuraColumnas := estructura |}) = Ok res).
  { destruct estructura; [contradiction | exact Hok]. }
  clear Hok.
  destruct guardarNueva as [[]|e1]; [|discriminate]. cbn [bind] in Hresto.
  destruct (fst (crearTablaDinamica ejecuta nombreTabla estructura))
    as [[]|e2] eqn:Hct; [|discriminate].
  cbn [bind] in Hresto.
  assert (Hsan : length (sanitizarValoresLargos datos estructura)
                 = length leidos).
  { unfold sanitizarValoresLargos. now rewrite length_map. }
  assert (Hsne : sanitizarValoresLargos datos estructura <> []).
  { intros Hnil. rewrite Hnil in Hsan. destruct leidos; [contradiction|].
    discriminate Hsan. }
  rewrite (insertarDatosEnTabla_no_vacio _ _ _ _ _ Hsne) in Hresto.
  pose proof (insertarDatosEnTabla_no_vacio E queryRunner nombreTabla
                estructura _ Hsne) as Hcarga.
  destruct (bucleLotes E queryRunner nombreTabla _ _ 0 0 [])
    as [[total logs]|e3]; [|discriminate].
  cbn [bind fst snd] in Hresto, Hcarga.
  destruct (total =? 0)%nat eqn:Htotal; [discriminate|].
  cbn [bind] in Hresto.
  destruct guardarTotal as [[]|e4]; [|discriminate]. cbn [bind] in Hresto.
  injection Hresto as <-. cbn [ri_nombreTabla ri_totalRegistros
                                ri_estructuraColumnas].
  exists leidos. split; [exact Hlec|]. split; [exact Hne|].
  split; [reflexivity|]. split; [exact Hsan|].
  split; [now rewrite Hest, Hdatos|]. split; [exact Hnv|].
  assert (Hej : ejecuta (dropTableSql nombreTabla) = true
                /\ ejecuta (createTableSql nombreTabla estructura) = true).
  { revert Hct. unfold crearTablaDinamica.
    destruct estructura as [|c cs]; [contradiction|].
    destruct (ejecuta (dropTableSql nombreTabla)); [|discriminate].
    destruct (ejecuta (createTableSql nombreTabla (c :: cs)));
      [|discriminate].
    now split. }
  split; [apply Hej|]. split; [apply Hej|].
  eexists. split; [rewrite <- Hdatos; exact Hcarga|].
  cbn [totalRecords insercionParcial]. split.
  - apply Nat.eqb_neq in Htotal. lia.
  - reflexivity.
Qed.

End ImportacionFacts.

Lemma crearImportacion_resultado_witness :
  exists res,
    crearImportacion motorEjemplo (fun _ => true) runnerEjemplo (Ok tt)
      (Ok tt) (Ok tt) ".csv" (Throw (DriverError "xlsx")) (Ok datosEjemplo)
      "compras" = Ok res
    /\ ri_totalRegistros res = 2
    /\ ri_estructuraColumnas res <> [].
Proof.
  destruct (crearImportacion motorEjemplo (fun _ => true) runnerEjemplo
              (Ok tt) (Ok tt) (Ok tt) ".csv" (Throw (DriverError "xlsx"))
              (Ok datosEjemplo) "compras") as [res|e] eqn:Hrun.
  2:{ vm_compute in Hrun. discriminate Hrun. }
  destruct (proj2 (crearImportacion_resultado motorEjemplo (fun _ => true)
                     runnerEjemplo (Ok tt) (Ok tt) (Ok tt) ".csv"
                     (Throw (DriverError "xlsx")) (Ok datosEjemplo) "compras")
              res Hrun)
    as [_ [leidos [Hlec [_ [_ [Htotal [_ [Hest _]]]]]]]].
  exists res. split; [reflexivity|]. split; [|exact Hest].
  rewrite Htotal. injection Hlec as <-. reflexivity.
Defined.

(** ** UserService *)

Lemma eliminarClave_get (o : Registro) (k : string) :
  Obj.get (eliminarClave o k) k = None.
Proof.
  apply Obj_get_None. unfold eliminarClave. intros Hin.
  apply in_map_iff in Hin. destruct Hin as [[k' v] [Hk Hin]].
  apply filter_In in Hin. destruct Hin as [_ Hne]. simpl in Hk, Hne.
  subst k'. now rewrite String.eqb_refl in Hne.
Qed.

Lemma eliminarClave_otro (o : Registro) (k k' : string) :
  k' <> k -> Obj.get (eliminarClave o k) k' = Obj.get o k'.
Proof.
  intros Hne. unfold eliminarClave.
  induction o as [|[c v] r IH]; [reflexivity|].
  cbn [filter fst]. destruct (String.eqb c k) eqn:Hc; cbn [negb Obj.get].
  - apply String.eqb_eq in Hc. subst c.
    apply String.eqb_neq in Hne. now rewrite Hne.
  - now rewrite IH.
Qed.

Lemma spread_get_None (o : Registro) (k : string) :
  Obj.get o k = None -> Obj.get (Obj.spread o) k = None.
Proof.
  intros Hg. apply Obj_get_None. apply Obj_get_None in Hg.
  intros Hin. apply Hg. apply (proj1 (Obj_keys_In o k)). exact Hin.
Qed.

Section UsuariosFacts.

Variable hashSync : JsValue -> Result string.
Variable compareSync : JsValue -> JsValue -> bool.
Variable sign : JsValue -> string.
Variable guardar : Registro -> Result Registro.

(** X19.  A login is refused as unauthorised when no user has the email
    or when the password does not match the stored hash.  An accepted
    login answers with every field of the user found, the stored hash of
    the password among them, and the token signed for the id of that
    user.  The answer to a registration carries a token and never a field
    [password]; the user is saved with the hash in the place of the
    password, and a registration whose hashing or saving fails answers
    nothing, without an error. *)
Theorem respuestas_de_usuario (encontrado : option Registro)
  (password : JsValue) (createUserDto : Registro) :
  (forall e,
     loginUser compareSync sign encontrado password = inl e ->
     (encontrado = None /\ e = UnauthorizedException "usuario incorrecto")
     \/ (exists user,
           encontrado = Some user
           /\ compareSync password (prop user "password") = false
           /\ e = UnauthorizedException "contrasena incorrecto"))
  /\ (forall respuesta,
        loginUser compareSync sign encontrado password = inr respuesta ->
        exists user,
          encontrado = Some user
          /\ compareSync password (prop user "password") = true
          /\ prop respuesta "token" = JString (sign (prop user "id"))
          /\ (NoDup (map fst user) ->
              forall k, k <> "token" -> prop respuesta k = prop user k))
  /\ (forall respuesta,
        createUser hashSync sign guardar createUserDto = Some respuesta ->
        Obj.get respuesta "password" = None
        /\ exists hash enviado guardado,
             hashSync (prop createUserDto "password") = Ok hash
             /\ guardar enviado = Ok guardado
             /\ prop enviado "password" = JString hash
             /\ prop respuesta "token" = JString (sign (prop guardado "id")))
  /\ (createUser hashSync sign guardar createUserDto = None <->
      (exists e, hashSync (prop createUserDto "password") = Throw e)
      \/ (exists hash e,
            hashSync (prop createUserDto "password") = Ok hash
            /\ guardar (Obj.set
                          (Obj.spread
                             (eliminarClave (Obj.spread createUserDto)
                                            "password"))
                          "password" (JString hash)) = Throw e)).
Proof.
  split; [|split; [|split]].
  - intros e. unfold loginUser. destruct encontrado as [user|].
    + destruct (compareSync password (prop user "password")) eqn:Hc;
        cbn [negb]; [discriminate|].
      intros [= <-]. right. exists user. now repeat split.
    + intros [= <-]. now left.
  - intros respuesta. unfold loginUser.
    destruct encontrado as [user|]; [|discriminate].
    destruct (compareSync password (prop user "password")) eqn:Hc;
      cbn [negb]; [|discriminate].
    intros [= <-]. exists user. split; [reflexivity|].
    split; [exact Hc|]. split.
    + rewrite prop_set. reflexivity.
    + intros Hnd k Hk. rewrite prop_set.
      apply String.eqb_neq in Hk. rewrite Hk.
      unfold Obj.spread. now apply prop_entries.
  - intros respuesta. unfold createUser.
    destruct (hashSync (prop createUserDto "password")) as [hash|e] eqn:Hh;
      cbn [bind]; [|discriminate].
    destruct (guardar _) as [guardado|e] eqn:Hg; cbn [bind]; [|discriminate].
    intros [= <-]. split.
    + rewrite Obj_get_set_ne by discriminate.
      apply spread_get_None, eliminarClave_get.
    + exists hash. eexists. exists guardado.
      split; [reflexivity|]. split; [exact Hg|]. split.
      * rewrite prop_set. reflexivity.
      * rewrite prop_set.
        change (String.eqb "token" "token") with true. cbn iota.
        unfold getJwtToken. do 2 f_equal.
        unfold prop. now rewrite eliminarClave_otro by discriminate.
  - unfold createUser.
    destruct (hashSync (prop createUserDto "password")) as [hash|e];
      cbn [bind].
    + destruct (guardar _) as [guardado|e] eqn:Hg; cbn [bind].
      * split; [discriminate|].
        intros [[e He]|[h [e [Hh He]]]]; [discriminate|].
        injection Hh as <-. congruence.
      * split; [|reflexivity]. intros _. right. exists hash, e.
        now split.
    + split; [|reflexivity]. intros _. left. now exists e.
Qed.

End UsuariosFacts.

Lemma respuestas_de_usuario_witness :
  let user : Registro :=
    [ ("id", JNumber (Finite 1 0)); ("email", JString "ana@ejemplo.co");
      ("password", JString "$2b$10$hash") ] in
  exists respuesta,
    loginUser (fun _ _ => true) (fun _ => "token") (Some user)
      (JString "Abcdef1") = inr respuesta
    /\ prop respuesta "password" = JString "$2b$10$hash".
Proof.
  intros user.
  destruct (loginUser (fun _ _ => true) (fun _ => "token"%string) (Some user)
              (JString "Abcdef1")) as [e|respuesta] eqn:Hrun.
  { vm_compute in Hrun. discriminate Hrun. }
  destruct (proj1 (proj2 (respuestas_de_usuario (fun _ => Ok "h"%string)
                            (fun _ _ => true) (fun _ => "token"%string)
                            (fun u => Ok u) (Some user) (JString "Abcdef1")
                            []))
              respuesta Hrun) as [u [Hu [_ [_ Hcampos]]]].
  injection Hu as <-.
  exists respuesta. split; [reflexivity|].
  rewrite Hcampos; [reflexivity | | discriminate].
  repeat constructor; simpl; intuition discriminate.
Defined.

(** ** What an insertion stores *)







Section Contenido.

Variable E : Engine.
Variable acepta : string -> JsValue -> bool.




End Contenido.


(** ** The identifiers of the statements that create a table *)

Lemma all_class_impl (p q : ascii -> bool) (s : string) :
  (forall c, p c = true -> q c = true) ->
  Js.all_class p s = true -> Js.all_class q s = true.
Proof.
  intros Hpq. induction s as [|c r IH]; [reflexivity|].
  cbn [Js.all_class]. rewrite !andb_true_iff. intros [Hc Hr].
  split; [now apply Hpq | now apply IH].
Qed.

Lemma palabra_sin_comilla (c : ascii) :
  Js.is_word c = true -> negb (Js.code c =? 34)%N = true.
Proof.
  destruct c as [[] [] [] [] [] [] [] []]; vm_compute; congruence.
Qed.

Lemma normalizado_palabra (c : ascii) :
  Js.is_lower c || Js.is_digit c || (Js.code c =? 95)%N = true ->
  Js.is_word c = true.
Proof.
  unfold Js.is_word, Js.is_alpha.
  destruct (Js.is_lower c), (Js.is_digit c), (Js.code c =? 95)%N,
    (Js.is_upper c); simpl; congruence.
Qed.

Lemma solo_palabra_sin_comilla (s : string) :
  solo_palabra s = true -> sin_comilla_doble s = true.
Proof. apply all_class_impl, palabra_sin_comilla. Qed.

Lemma es_normalizado_palabra (s : string) :
  es_normalizado s = true -> solo_palabra s = true.
Proof. apply all_class_impl, normalizado_palabra. Qed.

Lemma sin_raros_palabra (s : string) :
  Js.test_class no_word_char s = false -> solo_palabra s = true.
Proof.
  unfold no_word_char, solo_palabra. rewrite test_class_negb_all.
  intros H. apply negb_false_iff in H.
  revert H. apply all_class_impl. intros c Hc.
  now rewrite negb_involutive in Hc.
Qed.

Lemma validarNombreTabla_palabra (nombreTabla : string) :
  validarNombreTabla nombreTabla = Ok tt -> solo_palabra nombreTabla = true.
Proof.
  unfold validarNombreTabla.
  destruct (validRegex nombreTabla) eqn:Hv; cbn [negb]; [|discriminate].
  intros _. destruct nombreTabla as [|c r]; [discriminate|].
  cbn [validRegex] in Hv. apply andb_true_iff in Hv. destruct Hv as [Hc Hr].
  unfold solo_palabra. cbn [Js.all_class]. apply andb_true_iff. split.
  - apply normalizado_palabra. now rewrite Hc.
  - revert Hr. apply all_class_impl, normalizado_palabra.
Qed.

(** X21.  When the name of the table passes the validation and every key
    of every record of the file is a key of its first record, the name of
    the table and the name of every column of the structure inferred
    from the normalised records are made of letters, digits and
    underscores only; none holds the double quote that delimits it in the
    statements that drop, create and index the table. *)
Theorem identificadores_del_esquema (nombreTabla : string)
  (primerRegistro : Registro) (resto : list Registro) :
  validarNombreTabla nombreTabla = Ok tt ->
  (forall registro k,
     In registro resto -> In k (Obj.keys registro) ->
     In k (Obj.keys primerRegistro)) ->
  let datos := normalizarNombresColumnas (primerRegistro :: resto) in
  solo_palabra nombreTabla = true
  /\ sin_comilla_doble nombreTabla = true
  /\ forall col,
       In col (analizarEstructuraColumnas datos) ->
       solo_palabra (ColumnaDefinicion.nombre col) = true
       /\ sin_comilla_doble (ColumnaDefinicion.nombre col) = true.
Proof.
  intros Hval Hsub datos.
  pose proof (validarNombreTabla_palabra _ Hval) as Hn.
  split; [exact Hn|]. split; [now apply solo_palabra_sin_comilla|].
  assert (Hcol : forall k, In k (todasLasColumnas datos) ->
                           solo_palabra k = true).
  { intros k Hk. apply todasLasColumnas_In in Hk.
    destruct Hk as [nuevo [Hnuevo Hk]].
    assert (Htodos : forall registro k0,
              In registro (primerRegistro :: resto) ->
              In k0 (Obj.keys registro) -> In k0 (Obj.keys primerRegistro)).
    { intros registro k0 [<-|Hin] Hk0; [exact Hk0 | eauto]. }
    subst datos. unfold normalizarNombresColumnas in Hnuevo.
    destruct (existsb (Js.test_class no_word_char) (Obj.keys primerRegistro))
      eqn:Hnec; cbn [negb] in Hnuevo.
    - apply in_map_iff in Hnuevo. destruct Hnuevo as [registro [<- Hreg]].
      rewrite renombrarRegistro_volcar in Hk.
      apply Obj_keys_In, volcar_keys in Hk.
      destruct Hk as [[]|[k0 [Hk0 ->]]].
      pose proof (Htodos registro k0 Hreg Hk0) as Hprimer.
      unfold renombrarCon.
      rewrite (proj2 (includes_In _ _) Hprimer).
      apply es_normalizado_palabra, nombreNormalizado_es_normalizado.
    - pose proof (Htodos nuevo k Hnuevo Hk) as Hprimer.
      apply sin_raros_palabra.
      destruct (Js.test_class no_word_char k) eqn:Ht; [|reflexivity].
      assert (Hex : existsb (Js.test_class no_word_char)
                            (Obj.keys primerRegistro) = true).
      { apply existsb_exists. now exists k. }
      congruence. }
  intros col Hin.
  assert (Hk : In (ColumnaDefinicion.nombre col) (todasLasColumnas datos)).
  { rewrite <- analizarEstructuraColumnas_nombres. now apply in_map. }
  split; [now apply Hcol | apply solo_palabra_sin_comilla; now apply Hcol].
Qed.

Lemma identificadores_del_esquema_witness :
  solo_palabra "compras" = true
  /\ forall col,
       In col (analizarEstructuraColumnas
                 (normalizarNombresColumnas datosEjemplo)) ->
       sin_comilla_doble (ColumnaDefinicion.nombre col) = true.
Proof.
  assert (Hsub : forall registro k,
            In registro [ [("cantidad", JString "900000000000000000000000")] ] ->
            In k (Obj.keys registro) ->
            In k (Obj.keys [("cantidad", JString "5")])).
  { intros registro k [<-|[]] Hk. exact Hk. }
  destruct (identificadores_del_esquema "compras" [("cantidad", JString "5")]
              [ [("cantidad", JString "900000000000000000000000")] ]
              eq_refl Hsub) as [H1 [_ H3]].
  split; [exact H1|]. intros col Hin. exact (proj2 (H3 col Hin)).
Defined.
